(** * cellbyte: script execution and artifact pipeline

    A shallow embedding of [assistant/session_manager.py],
    [assistant/code_executor.py] and the settings of [config/config.py],
    with the properties of the specification stated and settled on it.

    Python values are modelled as follows.
    - [str] is [string] (ASCII text);
    - [int] is [Z];
    - a [dict] is an association list in insertion order whose keys are
      pairwise distinct;
    - a value read from or written to a JSON document is a [json] tree;
    - a [pathlib.Path] is a root marker and a list of components (POSIX
      flavour);
    - an exception is a value of an error type, and code that can raise
      returns a result together with the state it leaves behind;
    - what lies outside the program (the clock, the files of a session,
      the child process and the time it takes, the moves of output files)
      is an argument of the function that meets it. *)

From Stdlib Require Import List String Ascii ZArith Lia Bool Arith FinFun.
From Stdlib Require Import Decimal DecimalString DecimalN.
Import ListNotations.
Local Open Scope string_scope.
Local Open Scope Z_scope.

(** ** Python strings *)

Module PyStr.

(** The length as a Python [int]. *)
Definition len (s : string) : Z := Z.of_nat (String.length s).

(** [s.startswith(p)] *)
Definition startswith (p s : string) : bool := String.prefix p s.

(** Drop the first [n] characters: [s[n:]] for [0 <= n]. *)
Fixpoint drop (n : nat) (s : string) : string :=
  match n, s with
  | O, _ => s
  | S _, EmptyString => EmptyString
  | S k, String _ t => drop k t
  end.

(** [c in s] for a one-character [c]. *)
Fixpoint mem (c : ascii) (s : string) : bool :=
  match s with
  | EmptyString => false
  | String d t => Ascii.eqb d c || mem c t
  end.

(** Whether every character of [s] satisfies [P]. *)
Fixpoint all (P : ascii -> bool) (s : string) : bool :=
  match s with
  | EmptyString => true
  | String c t => P c && all P t
  end.

(** [needle in s] *)
Fixpoint contains (needle s : string) : bool :=
  match s with
  | EmptyString => startswith needle EmptyString
  | String _ t => startswith needle s || contains needle t
  end.

(** [s.split(sep)] for a one-character separator: never the empty list. *)
Fixpoint split (sep : ascii) (s : string) : list string :=
  match s with
  | EmptyString => [EmptyString]
  | String c t =>
      if Ascii.eqb c sep then EmptyString :: split sep t
      else match split sep t with
           | [] => [String c EmptyString]
           | w :: ws => String c w :: ws
           end
  end.

(** [l[-1]] of a non-empty list of strings. *)
Definition last_part (l : list string) : string := List.last l EmptyString.

(** [s.replace(old, new)] for a non-empty [old]: the occurrences of [old]
    are found from the left and do not overlap.  [skip] counts the
    characters of a match that are still to be dropped. *)
Fixpoint replace_from (old new : string) (skip : nat) (s : string) : string :=
  match s with
  | EmptyString => EmptyString
  | String c t =>
      match skip with
      | S k => replace_from old new k t
      | O =>
          if startswith old s
          then new ++ replace_from old new (Nat.pred (String.length old)) t
          else String c (replace_from old new O t)
      end
  end.

Definition replace (old new s : string) : string := replace_from old new O s.

(** [s.lower()] on ASCII text. *)
Definition lower_char (c : ascii) : ascii :=
  let n := nat_of_ascii c in
  if (Nat.leb 65 n && Nat.leb n 90)%bool then ascii_of_nat (n + 32) else c.

Fixpoint lower (s : string) : string :=
  match s with
  | EmptyString => EmptyString
  | String c t => String (lower_char c) (lower t)
  end.

(** [s.rfind('.')], as an index or [None] for Python's -1. *)
Fixpoint rfind (c : ascii) (s : string) : option nat :=
  match s with
  | EmptyString => None
  | String d t =>
      match rfind c t with
      | Some i => Some (S i)
      | None => if Ascii.eqb d c then Some O else None
      end
  end.

(** ASCII white space, as removed by [str.strip()] and ignored by [int()]. *)
Definition is_space (c : ascii) : bool :=
  let n := nat_of_ascii c in
  (Nat.eqb n 32 || (Nat.leb 9 n && Nat.leb n 13))%bool.

Fixpoint lstrip (s : string) : string :=
  match s with
  | EmptyString => EmptyString
  | String c t => if is_space c then lstrip t else s
  end.

Fixpoint rstrip (s : string) : string :=
  match s with
  | EmptyString => EmptyString
  | String c t =>
      match rstrip t with
      | EmptyString => if is_space c then EmptyString else String c EmptyString
      | t' => String c t'
      end
  end.

Definition strip (s : string) : string := rstrip (lstrip s).

Definition is_digit (c : ascii) : bool :=
  let n := nat_of_ascii c in (Nat.leb 48 n && Nat.leb n 57)%bool.

(** The decimal digits of a natural number, without padding. *)
Definition digits (n : N) : string := NilZero.string_of_uint (N.to_uint n).

(** [s.zfill]-like left padding with ['0'] up to [width] characters. *)
Fixpoint zeros (k : nat) : string :=
  match k with
  | O => EmptyString
  | S j => String "0" (zeros j)
  end.

Definition zero_pad (width : nat) (s : string) : string :=
  zeros (width - String.length s) ++ s.

(** [f"{z:03d}"]: at least three characters, the sign counted. *)
Definition format_03d (z : Z) : string :=
  if z <? 0 then String "-" (zero_pad 2 (digits (Z.to_N (- z))))
  else zero_pad 3 (digits (Z.to_N z)).

(** [str(z)] for an [int]. *)
Definition str_int (z : Z) : string :=
  if z <? 0 then String "-" (digits (Z.to_N (- z))) else digits (Z.to_N z).

(** The value of a non-empty run of decimal digits. *)
Definition digits_value (s : string) : option Z :=
  match s with
  | EmptyString => None
  | _ => match NilEmpty.uint_of_string s with
         | Some u => Some (Z.of_N (N.of_uint u))
         | None => None
         end
  end.

(** [int(s)] on text without underscores: surrounding white space and one
    sign are accepted; [None] stands for [ValueError]. *)
Definition int (s : string) : option Z :=
  match strip s with
  | String "+" t => digits_value t
  | String "-" t => option_map Z.opp (digits_value t)
  | t => digits_value t
  end.

End PyStr.


(** ** pathlib, POSIX flavour *)

Module PathLib.

(** The root of a path: none, ["/"] or ["//"] (exactly two leading
    slashes are kept apart by POSIX). *)
Inductive root := Relative | Slash | DoubleSlash.

Record Path := { anchor : root; parts : list string }.

Fixpoint leading_slashes (s : string) : nat :=
  match s with
  | String "/" t => S (leading_slashes t)
  | _ => O
  end.

Definition splitroot (s : string) : root :=
  match leading_slashes s with
  | O => Relative
  | 2%nat => DoubleSlash
  | _ => Slash
  end.

(** Empty components and ["."] are dropped when a path is parsed. *)
Definition keep_part (w : string) : bool :=
  negb (String.eqb w "") && negb (String.eqb w ".").

(** [Path(s)] *)
Definition of_string (s : string) : Path :=
  {| anchor := splitroot s; parts := filter keep_part (PyStr.split "/" s) |}.

Definition root_string (r : root) : string :=
  match r with
  | Relative => ""
  | Slash => "/"
  | DoubleSlash => "//"
  end.

(** [str(p)] *)
Definition to_string (p : Path) : string :=
  match anchor p, parts p with
  | Relative, [] => "."
  | r, ws => root_string r ++ String.concat "/" ws
  end.

(** [p / s] for a string [s]: an absolute [s] replaces [p]. *)
Definition joinpath (p : Path) (s : string) : Path :=
  let q := of_string s in
  match anchor q with
  | Relative => {| anchor := anchor p; parts := (parts p ++ parts q)%list |}
  | _ => q
  end.

(** [p.name] *)
Definition name (p : Path) : string := List.last (parts p) "".

(** [p.suffix]: the last dot of the name and what follows it, unless the
    dot is the first or the last character of the name. *)
Definition suffix_of_name (nm : string) : string :=
  match PyStr.rfind "." nm with
  | Some i =>
      if (Nat.ltb 0 i && Nat.ltb i (String.length nm - 1))%bool
      then PyStr.drop i nm else ""
  | None => ""
  end.

Definition suffix (p : Path) : string := suffix_of_name (name p).

(** What every [Path] object satisfies: its components are non-empty,
    differ from ["."] and hold no separator. *)
Definition part_ok (w : string) : bool := keep_part w && negb (PyStr.mem "/" w).

Definition well_formed (p : Path) : bool := forallb part_ok (parts p).

End PathLib.

Abbreviation Path := PathLib.Path.

(** ** Values of a JSON document *)

(** What [json.load] returns and [json.dump] accepts: [None], booleans,
    integers, strings, lists and dictionaries with string keys.  Floating
    point numbers are left out. *)
#[warnings="-register-all"]
Inductive json :=
  | JNull
  | JBool (b : bool)
  | JNum (z : Z)
  | JStr (s : string)
  | JList (l : list json)
  | JObj (kvs : list (string * json)).

(** ** Dictionaries in insertion order *)

Module Dict.
Section Dict.
Context {V : Type}.

Definition t := list (string * V).

Fixpoint get (k : string) (d : t) : option V :=
  match d with
  | [] => None
  | (k', v) :: r => if String.eqb k' k then Some v else get k r
  end.

(** [d[k] = v]: an existing key keeps its position. *)
Fixpoint set (k : string) (v : V) (d : t) : t :=
  match d with
  | [] => [(k, v)]
  | (k', v') :: r => if String.eqb k' k then (k, v) :: r else (k', v') :: set k v r
  end.

Definition keys (d : t) : list string := map fst d.

Definition values (d : t) : list V := map snd d.

End Dict.
Arguments t : clear implicits.
End Dict.

(** ** Settings ([config/config.py]) *)

Record Settings := {
  USE_DOCKER_EXECUTION : bool;
  DOCKER_IMAGE : string;
  CODE_EXECUTION_TIMEOUT : Z;
  HISTORY_LIMIT : Z
}.

(** The values in force when the environment overrides nothing. *)
Definition default_settings : Settings :=
  {| USE_DOCKER_EXECUTION := false;
     DOCKER_IMAGE := "python:3.11-slim";
     CODE_EXECUTION_TIMEOUT := 60;
     HISTORY_LIMIT := 5 |}.

(** ** Exceptions and the files a session is stored in *)

(** What is raised inside [load_session] and [save_session] before it is
    wrapped. *)
Inductive cause :=
  | JSONDecodeError
  | OSError (what : string)
  | AttributeError (what : string)
  | TypeError (what : string)
  | KeyError (key : string)
  | ValueError (what : string).

(** [str(e)] *)
Definition cause_text (e : cause) : string :=
  match e with
  | JSONDecodeError => "Expecting value"
  | OSError what => what
  | AttributeError what => what
  | TypeError what => what
  | KeyError key => "'" ++ key ++ "'"
  | ValueError what => what
  end.

(** What the two persistence calls raise. *)
Inductive exn :=
  | FileNotFoundError (message : string)
  | IOError (message : string).

(** A file either is a directory, holds text that is not JSON, or holds
    the text of a JSON value: [json.dump] writes a value that [json.load]
    reads back unchanged. *)
Inductive file :=
  | Directory
  | Garbage
  | Document (doc : json).

(** The files, by the text of their path.  Two different texts can name
    one file (a [..] component, a symbolic link, a relative and an
    absolute path): [same_file] says whether they do. *)
Record filesystem := {
  content : string -> option file;
  unwritable : string -> bool;
  same_file : string -> string -> bool
}.

(** What is written to a file is read under every text that names it. *)
Definition write_file (fs : filesystem) (p : string) (f : file) : filesystem :=
  {| content := fun q => if (String.eqb q p || same_file fs q p)%bool then Some f
                         else content fs q;
     unwritable := unwritable fs;
     same_file := same_file fs |}.

(** [open(p, 'w')] fails on a directory and where writing is refused. *)
Definition open_for_writing (fs : filesystem) (p : string) : option cause :=
  match content fs p with
  | Some Directory => Some (OSError "Is a directory")
  | _ => if unwritable fs p then Some (OSError "Permission denied") else None
  end.

(** [json.load(open(p))] *)
Definition json_load (fs : filesystem) (p : string) : json + cause :=
  match content fs p with
  | None => inr (OSError "No such file or directory")
  | Some Directory => inr (OSError "Is a directory")
  | Some Garbage => inr JSONDecodeError
  | Some (Document doc) => inl doc
  end.

(** ** Session manager ([assistant/session_manager.py]) *)

(** The fields of the two dataclasses hold whatever was passed to them:
    Python checks no annotation at run time, so a loaded document decides
    what they hold.  The path of an artifact is always a [Path]. *)
Record Artifact := {
  art_id : json;
  art_type : json;
  art_format : json;
  art_path : Path;
  art_query : json;
  art_created_at : json;
  art_metadata : json
}.

Record Interaction := {
  int_query : json;
  int_plan : json;
  int_code : json;
  int_result_summary : json;
  int_artifacts : json;
  int_timestamp : json
}.

(** [Artifact.to_dict]: [asdict], then the path as a string. *)
Definition Artifact_to_dict (a : Artifact) : json :=
  JObj [("id", art_id a); ("type", art_type a); ("format", art_format a);
        ("path", JStr (PathLib.to_string (art_path a)));
        ("query", art_query a); ("created_at", art_created_at a);
        ("metadata", art_metadata a)].

(** [Interaction.to_dict] *)
Definition Interaction_to_dict (i : Interaction) : json :=
  JObj [("query", int_query i); ("plan", int_plan i); ("code", int_code i);
        ("result_summary", int_result_summary i);
        ("artifacts", int_artifacts i); ("timestamp", int_timestamp i)].

Record SessionManager := {
  interactions : list Interaction;
  artifacts : Dict.t Artifact;
  _artifact_counter : Z
}.

(** [SessionManager()] *)
Definition init : SessionManager :=
  {| interactions := []; artifacts := []; _artifact_counter := 0 |}.

(** [l[start:]] for a Python [int] [start]. *)
Definition slice_from {A : Type} (start : Z) (l : list A) : list A :=
  if start <? 0
  then skipn (Z.to_nat (Z.max (Z.of_nat (List.length l) + start) 0)) l
  else skipn (Z.to_nat start) l.

(** [add_interaction]; [now] is what [datetime.now().isoformat()] returns
    during the call. *)
Definition add_interaction (settings : Settings) (now : string)
    (query plan code result_summary : string)
    (artifact_ids : option (list string)) (sm : SessionManager) : SessionManager :=
  let interaction :=
    {| int_query := JStr query; int_plan := JStr plan; int_code := JStr code;
       int_result_summary := JStr result_summary;
       int_artifacts :=
         JList (map JStr (match artifact_ids with Some l => l | None => [] end));
       int_timestamp := JStr now |} in
  let appended := (interactions sm ++ [interaction])%list in
  {| interactions :=
       if Z.of_nat (List.length appended) >? HISTORY_LIMIT settings
       then slice_from (- HISTORY_LIMIT settings) appended
       else appended;
     artifacts := artifacts sm;
     _artifact_counter := _artifact_counter sm |}.

(** [get_conversation_history] *)
Definition get_conversation_history (sm : SessionManager) : list json :=
  map Interaction_to_dict (interactions sm).

(** [create_artifact]: the new artifact and the manager afterwards. *)
Definition create_artifact (now : string) (artifact_type file_format : string)
    (path : Path) (query : string) (sm : SessionManager)
    : Artifact * SessionManager :=
  let counter := _artifact_counter sm + 1 in
  let artifact_id := artifact_type ++ "_" ++ PyStr.format_03d counter in
  let artifact :=
    {| art_id := JStr artifact_id; art_type := JStr artifact_type;
       art_format := JStr file_format; art_path := path;
       art_query := JStr query; art_created_at := JStr now;
       art_metadata := JObj [] |} in
  (artifact,
   {| interactions := interactions sm;
      artifacts := Dict.set artifact_id artifact (artifacts sm);
      _artifact_counter := counter |}).

(** [list_artifacts] *)
Definition list_artifacts (sm : SessionManager) : list Artifact :=
  Dict.values (artifacts sm).

(** The document [save_session] writes. *)
Definition session_data (now : string) (sm : SessionManager) : json :=
  JObj [("interactions", JList (map Interaction_to_dict (interactions sm)));
        ("artifacts",
         JObj (map (fun kv => (fst kv, Artifact_to_dict (snd kv))) (artifacts sm)));
        ("saved_at", JStr now)].

(** [save_session]: the outcome and the file system afterwards; the
    manager itself does not change. *)
Definition save_session (now : string) (filepath : Path) (sm : SessionManager)
    (fs : filesystem) : (unit + exn) * filesystem :=
  let p := PathLib.to_string filepath in
  match open_for_writing fs p with
  | Some e =>
      (inr (IOError ("Failed to save session to " ++ p ++ ". Error: " ++ cause_text e)),
       fs)
  | None => (inl tt, write_file fs p (Document (session_data now sm)))
  end.

(** *** Raising code *)

(** A computation that returns or raises. *)
Definition result (A : Type) : Type := A + cause.

Definition result_bind {A B : Type} (r : result A) (k : A -> result B) : result B :=
  match r with
  | inl a => k a
  | inr e => inr e
  end.

Notation "x <-? r ;; k" := (result_bind r (fun x => k))
  (at level 61, r at next level, right associativity).

(** A list comprehension whose body may raise: the first failure ends it. *)
Fixpoint comprehension {A B : Type} (f : A -> result B) (l : list A) : result (list B) :=
  match l with
  | [] => inl []
  | a :: r => b <-? f a ;; bs <-? comprehension f r ;; inl (b :: bs)
  end.

(** A method body that may raise and that assigns to the attributes of
    the manager as it goes: what it returns or raises, and the manager it
    leaves behind. *)
Definition M (A : Type) : Type := SessionManager -> result A * SessionManager.

Definition ret {A : Type} (a : A) : M A := fun sm => (inl a, sm).

Definition bind {A B : Type} (c : M A) (k : A -> M B) : M B :=
  fun sm =>
    match c sm with
    | (inl a, sm') => k a sm'
    | (inr e, sm') => (inr e, sm')
    end.

Notation "x <- c ;; k" := (bind c (fun x => k))
  (at level 61, c at next level, right associativity).

Definition lift {A : Type} (r : result A) : M A := fun sm => (r, sm).

Definition get_self : M SessionManager := fun sm => (inl sm, sm).

Definition set_interactions (l : list Interaction) : M unit :=
  fun sm => (inl tt, {| interactions := l; artifacts := artifacts sm;
                        _artifact_counter := _artifact_counter sm |}).

Definition set_artifacts (d : Dict.t Artifact) : M unit :=
  fun sm => (inl tt, {| interactions := interactions sm; artifacts := d;
                        _artifact_counter := _artifact_counter sm |}).

Definition set_artifact_counter (z : Z) : M unit :=
  fun sm => (inl tt, {| interactions := interactions sm; artifacts := artifacts sm;
                        _artifact_counter := z |}).

(** *** Python operations on loaded values *)

(** [v.get(k, default)]: only a dictionary has the method. *)
Definition py_get (v : json) (k : string) (default : json) : result json :=
  match v with
  | JObj kvs => inl (match Dict.get k kvs with Some x => x | None => default end)
  | _ => inr (AttributeError "object has no attribute 'get'")
  end.

(** [v.items()] *)
Definition py_items (v : json) : result (list (string * json)) :=
  match v with
  | JObj kvs => inl kvs
  | _ => inr (AttributeError "object has no attribute 'items'")
  end.

Fixpoint characters (s : string) : list string :=
  match s with
  | EmptyString => []
  | String c t => String c EmptyString :: characters t
  end.

(** [for x in v]: the elements of a list, the keys of a dictionary, the
    characters of a string. *)
Definition py_iter (v : json) : result (list json) :=
  match v with
  | JList l => inl l
  | JObj kvs => inl (map JStr (Dict.keys kvs))
  | JStr s => inl (map JStr (characters s))
  | _ => inr (TypeError "object is not iterable")
  end.

(** [v[k]] for a string [k] *)
Definition py_getitem (v : json) (k : string) : result json :=
  match v with
  | JObj kvs =>
      match Dict.get k kvs with
      | Some x => inl x
      | None => inr (KeyError k)
      end
  | _ => inr (TypeError "object is not subscriptable by a string")
  end.

(** [Path(v)] *)
Definition py_Path (v : json) : result Path :=
  match v with
  | JStr s => inl (PathLib.of_string s)
  | _ => inr (TypeError "expected str, bytes or os.PathLike object")
  end.

(** [max(l, default=d)] *)
Definition py_max (l : list Z) (default : Z) : Z :=
  match l with
  | [] => default
  | x :: r => fold_left Z.max r x
  end.

(** The keyword arguments a dataclass constructor accepts. *)
Definition Interaction_fields : list string :=
  ["query"; "plan"; "code"; "result_summary"; "artifacts"; "timestamp"].

Definition Artifact_fields : list string :=
  ["id"; "type"; "format"; "path"; "query"; "created_at"; "metadata"].

Definition unexpected (fields : list string) (kw : Dict.t json) : option string :=
  find (fun k => negb (existsb (String.eqb k) fields)) (Dict.keys kw).

Definition required (kw : Dict.t json) (k : string) : result json :=
  match Dict.get k kw with
  | Some v => inl v
  | None => inr (TypeError ("missing required argument: '" ++ k ++ "'"))
  end.

Definition optional (kw : Dict.t json) (k : string) (default : json) : json :=
  match Dict.get k kw with
  | Some v => v
  | None => default
  end.

(** [Interaction] called with the keyword arguments [v] unpacked; a
    missing [timestamp] is the time of the call. *)
Definition Interaction_init (now : string) (v : json) : result Interaction :=
  match v with
  | JObj kw =>
      match unexpected Interaction_fields kw with
      | Some k => inr (TypeError ("got an unexpected keyword argument '" ++ k ++ "'"))
      | None =>
          query <-? required kw "query" ;;
          plan <-? required kw "plan" ;;
          code <-? required kw "code" ;;
          result_summary <-? required kw "result_summary" ;;
          inl {| int_query := query; int_plan := plan; int_code := code;
                 int_result_summary := result_summary;
                 int_artifacts := optional kw "artifacts" (JList []);
                 int_timestamp := optional kw "timestamp" (JStr now) |}
      end
  | _ => inr (TypeError "argument after ** must be a mapping")
  end.

(** [Artifact] called with [artifact_data] unpacked, once
    [artifact_data['path']] has been replaced by [path]. *)
Definition Artifact_init (path : Path) (kw : Dict.t json) : result Artifact :=
  match unexpected Artifact_fields kw with
  | Some k => inr (TypeError ("got an unexpected keyword argument '" ++ k ++ "'"))
  | None =>
      id <-? required kw "id" ;;
      type <-? required kw "type" ;;
      format <-? required kw "format" ;;
      query <-? required kw "query" ;;
      created_at <-? required kw "created_at" ;;
      inl {| art_id := id; art_type := type; art_format := format;
             art_path := path; art_query := query; art_created_at := created_at;
             art_metadata := optional kw "metadata" (JObj []) |}
  end.

(** The numeric suffix of an identifier: [int(aid.split('_')[-1])]. *)
Definition numeric_suffix (aid : string) : result Z :=
  match PyStr.int (PyStr.last_part (PyStr.split "_" aid)) with
  | Some z => inl z
  | None => inr (ValueError "invalid literal for int() with base 10")
  end.

(** The loop of [load_session] over the stored artifacts. *)
Fixpoint restore_artifacts (entries : list (string * json)) : M unit :=
  match entries with
  | [] => ret tt
  | (artifact_id, artifact_data) :: rest =>
      raw <- lift (py_getitem artifact_data "path") ;;
      path <- lift (py_Path raw) ;;
      kw <- lift (py_items artifact_data) ;;
      artifact <- lift (Artifact_init path kw) ;;
      self <- get_self ;;
      _ <- set_artifacts (Dict.set artifact_id artifact (artifacts self)) ;;
      restore_artifacts rest
  end.

(** The [try] block of [load_session]. *)
Definition load_session_body (now : string) (p : string) (fs : filesystem) : M unit :=
  session_data <- lift (json_load fs p) ;;
  stored <- lift (py_get session_data "interactions" (JList [])) ;;
  elements <- lift (py_iter stored) ;;
  loaded <- lift (comprehension (Interaction_init now) elements) ;;
  _ <- set_interactions loaded ;;
  _ <- set_artifacts [] ;;
  stored_artifacts <- lift (py_get session_data "artifacts" (JObj [])) ;;
  entries <- lift (py_items stored_artifacts) ;;
  _ <- restore_artifacts entries ;;
  self <- get_self ;;
  match artifacts self with
  | [] => ret tt
  | _ =>
      suffixes <- lift (comprehension numeric_suffix (Dict.keys (artifacts self))) ;;
      set_artifact_counter (py_max suffixes 0)
  end.

Definition exists_ (fs : filesystem) (p : string) : bool :=
  match content fs p with
  | Some _ => true
  | None => false
  end.

(** [load_session]: what it returns or raises, and the manager afterwards. *)
Definition load_session (now : string) (filepath : Path) (fs : filesystem)
    (sm : SessionManager) : (unit + exn) * SessionManager :=
  let p := PathLib.to_string filepath in
  if negb (exists_ fs p)
  then (inr (FileNotFoundError ("Session file not found: " ++ p)), sm)
  else
    match load_session_body now p fs sm with
    | (inl _, sm') => (inl tt, sm')
    | (inr e, sm') =>
        (inr (IOError ("Failed to load or parse session file " ++ p
                       ++ ". Error: " ++ cause_text e)), sm')
    end.

(** ** Code executor ([assistant/code_executor.py]) *)

Record ExecutionResult := {
  success : bool;
  stdout : string;
  stderr : string;
  output_files : Dict.t Path;
  error : option string
}.

(** An entry of the output area once the child has ended. *)
Record dir_entry := { entry_name : string; is_file : bool }.

(** What running a script does.  It ends after some seconds, its output
    streams closed (a grandchild that keeps them open counts as the child
    not having ended), with an exit status, its two output streams as
    UTF-8 text and the entries it left in the output area; or it ends
    likewise but leaves the output area so that listing it or examining
    one of its entries raises [reason] (the area removed, its permissions
    changed); or it ends with output that is not UTF-8 text, which the
    decoder refuses with [reason]; or it never ends; or it cannot be
    started at all. *)
Inductive behaviour :=
  | Exits (seconds returncode : Z) (out err : string) (produced : list dir_entry)
  | Hangs
  | CannotLaunch (reason : string)
  | Spoils (seconds returncode : Z) (out err : string) (reason : string)
  | Garbles (seconds : Z) (reason : string).

(** What [subprocess.run] returns or raises, with what the output area
    holds when it returns: its entries with what [is_file] answers for
    each, or what [iterdir] or [is_file] raises. *)
Inductive ran :=
  | CompletedProcess (returncode : Z) (out err : string) (produced : list dir_entry)
  | TimeoutExpired
  | Raised (reason : string)
  | CompletedUnlistable (returncode : Z) (out err : string) (reason : string).

(** [subprocess.run(..., text=True, encoding='utf-8', timeout=t)]: the
    child is killed once [t] seconds have passed; the output of a child
    that ended in time is decoded, which raises when it is not UTF-8
    text. *)
Definition subprocess_run (timeout : Z) (b : behaviour) : ran :=
  match b with
  | Exits seconds returncode out err produced =>
      if timeout <? seconds then TimeoutExpired
      else CompletedProcess returncode out err produced
  | Hangs => TimeoutExpired
  | CannotLaunch reason => Raised reason
  | Spoils seconds returncode out err reason =>
      if timeout <? seconds then TimeoutExpired
      else CompletedUnlistable returncode out err reason
  | Garbles seconds reason =>
      if timeout <? seconds then TimeoutExpired else Raised reason
  end.

(** The surroundings of one call of [execute]. *)
Record world := {
  (** the directory [tempfile.TemporaryDirectory()] creates *)
  temp_dir : Path;
  (** what creating the two areas or writing the script raises, if
      anything *)
  mkdir_error : option string;
  (** what [shutil.copy] raises for a source file, if anything *)
  copy_error : Path -> option string;
  (** the host interpreter, on the text of [execute.py] *)
  python : string -> behaviour;
  (** the interpreter inside the container, on the text of [execute.py] *)
  container_python : string -> behaviour;
  (** [pip install -r requirements.txt] inside the container: seconds
      taken, exit status and standard error *)
  pip_seconds : Z;
  pip_status : Z;
  pip_stderr : string;
  (** what starting [docker] raises, if anything *)
  docker_error : option string;
  (** whether [docker --version] succeeds within five seconds *)
  docker_available : bool;
  (** what [shutil.move] raises for a file name, if anything *)
  move_error : string -> option string
}.

Record CodeExecutor := { use_docker : bool }.

(** [check_docker_available] *)
Definition check_docker_available (w : world) : bool := docker_available w.

(** [CodeExecutor()] *)
Definition CodeExecutor_init (settings : Settings) (w : world) : CodeExecutor :=
  {| use_docker :=
       if (USE_DOCKER_EXECUTION settings && negb (check_docker_available w))%bool
       then false else USE_DOCKER_EXECUTION settings |}.

(** The two quote characters of a Python string literal. *)
Definition single_quote : ascii := "039"%char.
Definition double_quote : ascii := "034"%char.

(** [_prepare_code_for_local_execution] *)
Definition _prepare_code_for_local_execution (code : string)
    (data_dir output_dir : Path) : string :=
  let code := PyStr.replace (String single_quote "/data/")
                (String "r" (String single_quote (PathLib.to_string data_dir ++ "/"))) code in
  let code := PyStr.replace (String double_quote "/data/")
                (String "r" (String double_quote (PathLib.to_string data_dir ++ "/"))) code in
  let code := PyStr.replace (String single_quote "/output/")
                (String "r" (String single_quote (PathLib.to_string output_dir ++ "/"))) code in
  let code := PyStr.replace (String double_quote "/output/")
                (String "r" (String double_quote (PathLib.to_string output_dir ++ "/"))) code in
  code.

Definition type_map : Dict.t string :=
  [(".png", "chart"); (".jpg", "chart"); (".csv", "table"); (".xlsx", "table")].

(** [type_map.get(file_path.suffix.lower(), 'file')] *)
Definition file_type_of (file_path : Path) : string :=
  match Dict.get (PyStr.lower (PathLib.suffix file_path)) type_map with
  | Some t => t
  | None => "file"
  end.

(** The loop of [_collect_output_files] over [source_dir.iterdir()]. *)
Fixpoint collect_loop (w : world) (source_dir dest_dir : Path)
    (entries : list dir_entry) (output_files : Dict.t Path) : Dict.t Path + string :=
  match entries with
  | [] => inl output_files
  | e :: rest =>
      let file_path := PathLib.joinpath source_dir (entry_name e) in
      if is_file e then
        let file_type := file_type_of file_path in
        let dest_path := PathLib.joinpath dest_dir (PathLib.name file_path) in
        match move_error w (PathLib.name file_path) with
        | Some reason => inr reason
        | None => collect_loop w source_dir dest_dir rest
                    (Dict.set file_type dest_path output_files)
        end
      else collect_loop w source_dir dest_dir rest output_files
  end.

(** [_collect_output_files] once [source_dir.iterdir()] has listed the
    output area and [is_file] has answered for each entry: [entries] is
    the listing.  An area that cannot be listed or examined is the
    [CompletedUnlistable] case of the two backends. *)
Definition _collect_output_files (w : world) (entries : list dir_entry)
    (source_dir dest_dir : Path) : Dict.t Path + string :=
  collect_loop w source_dir dest_dir entries [].

(** What is raised before the [try] block, if anything: the areas are
    created, then every dataset is copied to [data_dir / f"{name}.csv"]. *)
Fixpoint copy_loop (w : world) (data_files : Dict.t Path) : option string :=
  match data_files with
  | [] => None
  | (_, filepath) :: rest =>
      match copy_error w filepath with
      | Some reason => Some reason
      | None => copy_loop w rest
      end
  end.

Definition setup_error (w : world) (data_files : Dict.t Path) : option string :=
  match mkdir_error w with
  | Some reason => Some reason
  | None => copy_loop w data_files
  end.

(** The text the local-process backend writes to [execute.py]. *)
Definition subprocess_script (w : world) (code : string) : string :=
  _prepare_code_for_local_execution code
    (PathLib.joinpath (temp_dir w) "data") (PathLib.joinpath (temp_dir w) "output").

(** The text the container backend writes to [execute.py]. *)
Definition docker_script (w : world) (code : string) : string := code.

(** [_execute_subprocess]; [inr] is an exception that leaves the call. *)
Definition _execute_subprocess (settings : Settings) (w : world) (code : string)
    (data_files : Dict.t Path) (session_output_dir : Path) : ExecutionResult + string :=
  let temp_path := temp_dir w in
  let output_dir := PathLib.joinpath temp_path "output" in
  match setup_error w data_files with
  | Some reason => inr reason
  | None =>
      match subprocess_run (CODE_EXECUTION_TIMEOUT settings)
              (python w (subprocess_script w code)) with
      | CompletedProcess returncode out err produced =>
          match _collect_output_files w produced output_dir session_output_dir with
          | inl files =>
              inl {| success := returncode =? 0; stdout := out; stderr := err;
                     output_files := files; error := None |}
          | inr e =>
              inl {| success := false; stdout := ""; stderr := "";
                     output_files := [];
                     error := Some ("Subprocess execution error: " ++ e) |}
          end
      | TimeoutExpired =>
          inl {| success := false; stdout := ""; stderr := ""; output_files := [];
                 error := Some ("Execution timed out after "
                                ++ PyStr.str_int (CODE_EXECUTION_TIMEOUT settings) ++ "s") |}
      | Raised e =>
          inl {| success := false; stdout := ""; stderr := ""; output_files := [];
                 error := Some ("Subprocess execution error: " ++ e) |}
      | CompletedUnlistable _ _ _ e =>
          inl {| success := false; stdout := ""; stderr := ""; output_files := [];
                 error := Some ("Subprocess execution error: " ++ e) |}
      end
  end.

(** The command line of the container. *)
Definition docker_cmd (settings : Settings) (temp_path : Path) : list string :=
  ["docker"; "run"; "--rm";
   "--network"; "none";
   "--memory"; "512m";
   "--cpus"; "1.0";
   "-v"; PathLib.to_string temp_path ++ ":/workspace";
   "-w"; "/workspace";
   DOCKER_IMAGE settings;
   "sh"; "-c"; "pip install -r requirements.txt > /dev/null && python execute.py"].

(** What the container does: the script runs only after a successful
    installation, whose time counts and whose standard output is
    discarded. *)
Definition docker_behaviour (w : world) (script : string) : behaviour :=
  match docker_error w with
  | Some reason => CannotLaunch reason
  | None =>
      if pip_status w =? 0 then
        match container_python w script with
        | Exits seconds returncode out err produced =>
            Exits (pip_seconds w + seconds) returncode out (pip_stderr w ++ err) produced
        | Hangs => Hangs
        | CannotLaunch reason => Exits (pip_seconds w) 127 "" (pip_stderr w ++ reason) []
        | Spoils seconds returncode out err reason =>
            Spoils (pip_seconds w + seconds) returncode out (pip_stderr w ++ err) reason
        | Garbles seconds reason => Garbles (pip_seconds w + seconds) reason
        end
      else Exits (pip_seconds w) (pip_status w) "" (pip_stderr w) []
  end.

(** [_execute_docker] *)
Definition _execute_docker (settings : Settings) (w : world) (code : string)
    (data_files : Dict.t Path) (session_output_dir : Path) : ExecutionResult + string :=
  let temp_path := temp_dir w in
  let output_dir := PathLib.joinpath temp_path "output" in
  match setup_error w data_files with
  | Some reason => inr reason
  | None =>
      match subprocess_run (CODE_EXECUTION_TIMEOUT settings + 30)
              (docker_behaviour w (docker_script w code)) with
      | CompletedProcess returncode out err produced =>
          match _collect_output_files w produced output_dir session_output_dir with
          | inl files =>
              inl {| success := returncode =? 0; stdout := out; stderr := err;
                     output_files := files; error := None |}
          | inr e =>
              inl {| success := false; stdout := ""; stderr := "";
                     output_files := [];
                     error := Some ("Docker execution error: " ++ e) |}
          end
      | TimeoutExpired =>
          inl {| success := false; stdout := ""; stderr := ""; output_files := [];
                 error := Some ("Docker execution timed out after "
                                ++ PyStr.str_int (CODE_EXECUTION_TIMEOUT settings) ++ "s") |}
      | Raised e =>
          inl {| success := false; stdout := ""; stderr := ""; output_files := [];
                 error := Some ("Docker execution error: " ++ e) |}
      | CompletedUnlistable _ _ _ e =>
          inl {| success := false; stdout := ""; stderr := ""; output_files := [];
                 error := Some ("Docker execution error: " ++ e) |}
      end
  end.

(** [execute] *)
Definition execute (self : CodeExecutor) (settings : Settings) (w : world)
    (code : string) (data_files : Dict.t Path) (session_output_dir : Path)
    : ExecutionResult + string :=
  if use_docker self
  then _execute_docker settings w code data_files session_output_dir
  else _execute_subprocess settings w code data_files session_output_dir.

(** ** Sequences of calls on one session manager *)

(** A call; each carries the clock readings it makes.  [RoundTrip] is
    [save_session] followed, when the document was written, by
    [load_session] of the same path. *)
Inductive call :=
  | Create (now : string) (artifact_type file_format : string) (path : Path) (query : string)
  | AddInteraction (now : string) (query plan code result_summary : string)
      (artifact_ids : option (list string))
  | Save (now : string) (filepath : Path)
  | RoundTrip (saved_at now : string) (filepath : Path).

(** One call: the identifier it returns, if it creates an artifact, and
    the manager and the file system afterwards. *)
Definition step (settings : Settings) (c : call) (sm : SessionManager)
    (fs : filesystem) : option json * SessionManager * filesystem :=
  match c with
  | Create now artifact_type file_format path query =>
      let (artifact, sm') := create_artifact now artifact_type file_format path query sm in
      (Some (art_id artifact), sm', fs)
  | AddInteraction now query plan code result_summary artifact_ids =>
      (None, add_interaction settings now query plan code result_summary artifact_ids sm, fs)
  | Save now filepath => (None, sm, snd (save_session now filepath sm fs))
  | RoundTrip saved_at now filepath =>
      match save_session saved_at filepath sm fs with
      | (inl _, fs') => (None, snd (load_session now filepath fs' sm), fs')
      | (inr _, fs') => (None, sm, fs')
      end
  end.

(** A sequence of calls: the identifiers returned, in order. *)
Fixpoint run (settings : Settings) (calls : list call) (sm : SessionManager)
    (fs : filesystem) : list json * SessionManager * filesystem :=
  match calls with
  | [] => ([], sm, fs)
  | c :: rest =>
      let '(r, sm', fs') := step settings c sm fs in
      let '(ids, sm'', fs'') := run settings rest sm' fs' in
      (match r with Some i => i :: ids | None => ids end, sm'', fs'')
  end.

(** ** Invariants of the data model *)

(** The keys of a Python dictionary are pairwise distinct. *)
Fixpoint distinct (l : list string) : bool :=
  match l with
  | [] => true
  | k :: r => negb (existsb (String.eqb k) r) && distinct r
  end.

(** Every artifact holds a [Path] object. *)
Definition paths_well_formed (d : Dict.t Artifact) : bool :=
  forallb (fun kv => PathLib.well_formed (art_path (snd kv))) d.

(** Every key ends in an underscore and a numeral that [int] accepts, as
    the identifiers [create_artifact] makes do. *)
Definition has_numeric_suffix (aid : string) : bool :=
  match numeric_suffix aid with
  | inl _ => true
  | inr _ => false
  end.

Definition keys_numeric (d : Dict.t Artifact) : bool :=
  forallb has_numeric_suffix (Dict.keys d).

(** The keys are distinct, every key has a numeric suffix, no suffix
    exceeds the counter, and the counter is one of them unless there is
    no artifact. *)
Definition counter_invariant (sm : SessionManager) : Prop :=
  distinct (Dict.keys (artifacts sm)) = true
  /\ exists suffixes,
       comprehension numeric_suffix (Dict.keys (artifacts sm)) = inl suffixes
       /\ (forall z, In z suffixes -> z <= _artifact_counter sm)
       /\ (suffixes <> [] -> In (_artifact_counter sm) suffixes).

(** The numeric suffix of a returned identifier. *)
Definition suffix_of_id (i : json) : option Z :=
  match i with
  | JStr aid =>
      match numeric_suffix aid with
      | inl z => Some z
      | inr _ => None
      end
  | _ => None
  end.

(** [range(start, start + k)] *)
Fixpoint zrange (start : Z) (k : nat) : list Z :=
  match k with
  | O => []
  | S j => start :: zrange (start + 1) j
  end.

(** A call that creates an artifact passes a [Path] object. *)
Definition call_path_well_formed (c : call) : bool :=
  match c with
  | Create _ _ _ path _ => PathLib.well_formed path
  | _ => true
  end.

(** ** The parts of [load_session] and [add_interaction] *)

Definition with_artifacts (sm : SessionManager) (d : Dict.t Artifact) : SessionManager :=
  {| interactions := interactions sm; artifacts := d;
     _artifact_counter := _artifact_counter sm |}.

(** What [load_session] reads before it assigns to any attribute. *)
Definition read_interactions (now : string) (p : string) (fs : filesystem)
    : result (json * list Interaction) :=
  session_data <-? json_load fs p ;;
  stored <-? py_get session_data "interactions" (JList []) ;;
  elements <-? py_iter stored ;;
  loaded <-? comprehension (Interaction_init now) elements ;;
  inl (session_data, loaded).

(** What follows the assignment to [interactions]. *)
Definition restore_rest (session_data : json) : M unit :=
  _ <- set_artifacts [] ;;
  stored_artifacts <- lift (py_get session_data "artifacts" (JObj [])) ;;
  entries <- lift (py_items stored_artifacts) ;;
  _ <- restore_artifacts entries ;;
  self <- get_self ;;
  match artifacts self with
  | [] => ret tt
  | _ =>
      suffixes <- lift (comprehension numeric_suffix (Dict.keys (artifacts self))) ;;
      set_artifact_counter (py_max suffixes 0)
  end.

(** An artifact whose path went through [str] and [Path]. *)
Definition reloaded (a : Artifact) : Artifact :=
  {| art_id := art_id a; art_type := art_type a; art_format := art_format a;
     art_path := PathLib.of_string (PathLib.to_string (art_path a));
     art_query := art_query a; art_created_at := art_created_at a;
     art_metadata := art_metadata a |}.

(** The artifacts of a manager once they went through a document. *)
Definition reloaded_artifacts (d : Dict.t Artifact) : Dict.t Artifact :=
  map (fun kv => (fst kv, reloaded (snd kv))) d.

(** The interaction that [add_interaction] appends. *)
Definition new_interaction (now query plan code result_summary : string)
    (artifact_ids : option (list string)) : Interaction :=
  {| int_query := JStr query; int_plan := JStr plan; int_code := JStr code;
     int_result_summary := JStr result_summary;
     int_artifacts :=
       JList (map JStr (match artifact_ids with Some l => l | None => [] end));
     int_timestamp := JStr now |}.

(** ** The two backends side by side *)

(** What the interpreter does with the text the backend wrote. *)
Definition script_behaviour (self : CodeExecutor) (w : world) (code : string) : behaviour :=
  if use_docker self then container_python w (docker_script w code)
  else python w (subprocess_script w code).

(** What the child of [subprocess.run] does. *)
Definition child (self : CodeExecutor) (w : world) (code : string) : behaviour :=
  if use_docker self then docker_behaviour w (docker_script w code)
  else python w (subprocess_script w code).

(** The [timeout] argument of [subprocess.run]. *)
Definition backend_timeout (self : CodeExecutor) (settings : Settings) : Z :=
  if use_docker self then CODE_EXECUTION_TIMEOUT settings + 30
  else CODE_EXECUTION_TIMEOUT settings.

(** The two error descriptions of a backend. *)
Definition timeout_prefix (self : CodeExecutor) : string :=
  if use_docker self then "Docker execution timed out after "
  else "Execution timed out after ".

Definition timeout_message (self : CodeExecutor) (settings : Settings) : string :=
  timeout_prefix self ++ PyStr.str_int (CODE_EXECUTION_TIMEOUT settings) ++ "s".

Definition failure_message (self : CodeExecutor) (reason : string) : string :=
  (if use_docker self then "Docker execution error: " else "Subprocess execution error: ")
  ++ reason.

(** The output area as [execute] names it. *)
Definition output_area (w : world) : Path := PathLib.joinpath (temp_dir w) "output".

(** The input and the output area of an execution, as text. *)
Definition data_area_text (w : world) : string :=
  PathLib.to_string (PathLib.joinpath (temp_dir w) "data").

Definition output_area_text (w : world) : string :=
  PathLib.to_string (PathLib.joinpath (temp_dir w) "output").

(** ** The classification in the words of the specification *)

(** The classification in the words of the specification: the extension
    itself is looked up. *)
Definition classify_by_extension (ext : string) : string :=
  if (String.eqb ext ".png" || String.eqb ext ".jpg")%bool then "chart"
  else if (String.eqb ext ".csv" || String.eqb ext ".xlsx")%bool then "table"
  else "file".

(** ** The rewriting of placeholder paths, as one pass *)

Definition is_quote (c : ascii) : bool :=
  (Ascii.eqb c single_quote || Ascii.eqb c double_quote)%bool.

Definition quote_free (s : string) : bool := PyStr.all (fun c => negb (is_quote c)) s.

(** Whether two strings differ at a position that both have. *)
Fixpoint diverges (a b : string) : bool :=
  match a, b with
  | String x a', String y b' => if Ascii.eqb x y then diverges a' b' else true
  | _, _ => false
  end.

(** The script read once from the left: where a quote is followed by
    [/data/] or [/output/], an [r] is put before the quote and the
    placeholder is replaced by the area and a slash; everything else is
    copied, a placeholder that follows no quote included.  [skip] counts
    the characters of a placeholder still to be dropped. *)
Fixpoint rewrite_quoted (data_dir output_dir : string) (skip : nat) (s : string) : string :=
  match s with
  | EmptyString => EmptyString
  | String c t =>
      match skip with
      | S k => rewrite_quoted data_dir output_dir k t
      | O =>
          if is_quote c then
            if PyStr.startswith "/data/" t
            then String "r" (String c (data_dir ++ "/"
                                       ++ rewrite_quoted data_dir output_dir 6 t))
            else if PyStr.startswith "/output/" t
            then String "r" (String c (output_dir ++ "/"
                                       ++ rewrite_quoted data_dir output_dir 8 t))
            else String c (rewrite_quoted data_dir output_dir O t)
          else String c (rewrite_quoted data_dir output_dir O t)
      end
  end.

(** One of the four [replace] calls: the placeholder [root] after the
    quote [q] becomes the area [dir]. *)
Definition pass (q : ascii) (root dir : string) (s : string) : string :=
  PyStr.replace (String q root) (String "r" (String q (dir ++ "/"))) s.

(** The text that replaces a placeholder after the quote [q]. *)
Definition replacement (q : ascii) (dir : string) : string :=
  String "r" (String q (dir ++ "/")).

(** The four calls one after the other. *)
Definition four_passes (data_dir output_dir : string) (s : string) : string :=
  pass double_quote "/output/" output_dir
    (pass single_quote "/output/" output_dir
       (pass double_quote "/data/" data_dir
          (pass single_quote "/data/" data_dir s))).

(** ** Sample values *)

(** A file system with no file, where every path can be written. *)
Definition empty_fs : filesystem :=
  {| content := fun _ => None; unwritable := fun _ => false;
     same_file := fun _ _ => false |}.

(** A file system whose one file is a session document. *)
Definition fs_with (filepath : Path) (doc : json) : filesystem :=
  write_file empty_fs (PathLib.to_string filepath) (Document doc).

Definition sample_file : Path := PathLib.of_string "/srv/outputs/session_1/session.json".

Definition sample_chart : Path := PathLib.of_string "/srv/outputs/session_1/chart.png".

Definition sample_table : Path := PathLib.of_string "/srv/outputs/session_1/table.csv".

Definition sample_output_dir : Path := PathLib.of_string "/srv/outputs/session_1".

(** A manager after one query that produced a chart. *)
Definition sample_session : SessionManager :=
  add_interaction default_settings "2024-05-01T10:00:01"
    "plot sales" "1. load 2. plot" "plt.savefig('/output/chart.png')" "done"
    (Some ["chart_001"])
    (snd (create_artifact "2024-05-01T10:00:00" "chart" "png"
            (PathLib.of_string "/srv/outputs/session_1/chart.png") "plot sales" init)).


(** A chart is created, then a table. *)
Definition create_chart_then_table : list call :=
  [Create "2024-05-01T10:00:00" "chart" "png" sample_chart "plot sales";
   Create "2024-05-01T10:01:00" "table" "csv" sample_table "list sales"].

(** A stored session with neither interactions nor artifacts. *)
Definition empty_document : json :=
  JObj [("interactions", JList []); ("artifacts", JObj []); ("saved_at", JStr "2024-04-30T08:00:00")].

(** A stored session whose only artifact entry lacks every field. *)
Definition malformed_artifact_document : json :=
  JObj [("interactions", JList []);
        ("artifacts", JObj [("chart_001", JObj [])]);
        ("saved_at", JStr "2024-04-30T08:00:00")].

(** The settings when the environment sets [HISTORY_LIMIT]. *)
Definition settings_with_limit (limit : Z) : Settings :=
  {| USE_DOCKER_EXECUTION := USE_DOCKER_EXECUTION default_settings;
     DOCKER_IMAGE := DOCKER_IMAGE default_settings;
     CODE_EXECUTION_TIMEOUT := CODE_EXECUTION_TIMEOUT default_settings;
     HISTORY_LIMIT := limit |}.

Definition local_executor : CodeExecutor := {| use_docker := false |}.

Definition docker_executor : CodeExecutor := {| use_docker := true |}.

Definition table_csv : dir_entry := {| entry_name := "table.csv"; is_file := true |}.

Definition chart_upper : dir_entry := {| entry_name := "chart.PNG"; is_file := true |}.

(** A world where nothing fails and every script lasts [seconds], prints
    nothing, ends with status 0 and leaves [produced] in the output area;
    installing the dependencies takes five seconds. *)
Definition quiet_world (seconds : Z) (produced : list dir_entry) : world :=
  {| temp_dir := PathLib.of_string "/tmp/tmpk3v9";
     mkdir_error := None;
     copy_error := fun _ => None;
     python := fun _ => Exits seconds 0 "" "" produced;
     container_python := fun _ => Exits seconds 0 "" "" produced;
     pip_seconds := 5;
     pip_status := 0;
     pip_stderr := "";
     docker_error := None;
     docker_available := true;
     move_error := fun _ => None |}.


(** A script that lists the input area through a shell command. *)
Definition listing_script : string := "import os; os.system('ls /data/')".

(** A script that reads a dataset and writes a table. *)
Definition table_script : string :=
  "df = pd.read_csv('/data/sales.csv'); df.to_csv('/output/table.csv')".

(** * More of the program *)

(** ** More sample values *)

(** A stored session that is an empty JSON object. *)
Definition bare_document : json := JObj [].

Definition other_file : Path := PathLib.of_string "/srv/outputs/session_1/other.json".

(** ** The collector, entry by entry *)

(** The path [iterdir] yields for an entry, its classification and the
    path it is moved to. *)
Definition entry_path (source_dir : Path) (e : dir_entry) : Path :=
  PathLib.joinpath source_dir (entry_name e).

Definition entry_kind (source_dir : Path) (e : dir_entry) : string :=
  file_type_of (entry_path source_dir e).

Definition entry_destination (source_dir dest_dir : Path) (e : dir_entry) : Path :=
  PathLib.joinpath dest_dir (PathLib.name (entry_path source_dir e)).

(** The last regular file of a classification in a listing. *)
Fixpoint last_of_kind (source_dir : Path) (kind : string) (entries : list dir_entry)
    : option dir_entry :=
  match entries with
  | [] => None
  | e :: rest =>
      match last_of_kind source_dir kind rest with
      | Some e' => Some e'
      | None =>
          if (is_file e && String.eqb (entry_kind source_dir e) kind)%bool
          then Some e else None
      end
  end.


(** Whether a dataset cannot be copied. *)
Definition copy_fails (w : world) (kv : string * Path) : bool :=
  match copy_error w (snd kv) with
  | Some _ => true
  | None => false
  end.

(** The three classifications. *)
Definition kinds : list string := ["chart"; "table"; "file"].

(** A world in which the installation of the dependencies fails. *)
Definition no_pip_world : world :=
  {| temp_dir := temp_dir (quiet_world 1 []);
     mkdir_error := None;
     copy_error := fun _ => None;
     python := python (quiet_world 1 []);
     container_python := container_python (quiet_world 1 []);
     pip_seconds := 12;
     pip_status := 1;
     pip_stderr := "ERROR: Could not find a version that satisfies the requirement pandas";
     docker_error := None;
     docker_available := true;
     move_error := fun _ => None |}.

Definition plots_dir : dir_entry := {| entry_name := "plots"; is_file := false |}.

Definition summary_csv : dir_entry := {| entry_name := "summary.csv"; is_file := true |}.

(** ** More of Python's strings and lists *)

Module PyMore.

Definition newline : ascii := "010"%char.

(** [s.lstrip(chars)] *)
Fixpoint lstrip_chars (chars s : string) : string :=
  match s with
  | EmptyString => EmptyString
  | String c t => if PyStr.mem c chars then lstrip_chars chars t else s
  end.

(** [c.isspace()] on ASCII text: the white space that [str.strip()]
    removes, which includes the four separator controls that [int()] does
    not accept. *)
Definition isspace (c : ascii) : bool :=
  let n := nat_of_ascii c in
  ((Nat.leb 9 n && Nat.leb n 13) || (Nat.leb 28 n && Nat.leb n 32))%bool.

Fixpoint lstrip (s : string) : string :=
  match s with
  | EmptyString => EmptyString
  | String c t => if isspace c then lstrip t else s
  end.

Fixpoint rstrip (s : string) : string :=
  match s with
  | EmptyString => EmptyString
  | String c t =>
      match rstrip t with
      | EmptyString => if isspace c then EmptyString else String c EmptyString
      | t' => String c t'
      end
  end.

(** [s.strip()] *)
Definition strip (s : string) : string := rstrip (lstrip s).

(** [s.endswith(p)] *)
Fixpoint endswith (p s : string) : bool :=
  (String.eqb p s
   || match s with
      | EmptyString => false
      | String _ t => endswith p t
      end)%bool.

(** [s.find(needle)], as an index or [None] for Python's -1. *)
Fixpoint find (needle s : string) : option nat :=
  if PyStr.startswith needle s then Some O
  else match s with
       | EmptyString => None
       | String _ t => option_map S (find needle t)
       end.

(** [s.rfind(needle)] *)
Fixpoint rfind (needle s : string) : option nat :=
  match s with
  | EmptyString => if PyStr.startswith needle EmptyString then Some O else None
  | String _ t =>
      match rfind needle t with
      | Some i => Some (S i)
      | None => if PyStr.startswith needle s then Some O else None
      end
  end.

(** [s[:n]] for [0 <= n]. *)
Definition take (n : nat) (s : string) : string := String.substring 0 n s.

(** [s.split(sep, 1)] and [s.rsplit(sep, 1)] for a non-empty [sep]. *)
Definition split_once (sep s : string) : list string :=
  match find sep s with
  | Some i => [take i s; PyStr.drop (i + String.length sep) s]
  | None => [s]
  end.

Definition rsplit_once (sep s : string) : list string :=
  match rfind sep s with
  | Some i => [take i s; PyStr.drop (i + String.length sep) s]
  | None => [s]
  end.

(** [l[i]] for a Python [int] [i]: a negative index counts from the end;
    [None] stands for [IndexError]. *)
Definition list_getitem {A : Type} (l : list A) (i : Z) : option A :=
  let n := Z.of_nat (List.length l) in
  if 0 <=? i then nth_error l (Z.to_nat i)
  else if - n <=? i then nth_error l (Z.to_nat (n + i))
  else None.

(** Decimal digits in groups separated by single underscores, as [int()]
    accepts them; the digits are returned. *)
Fixpoint grouped_digits (after_digit : bool) (s : string) : option string :=
  match s with
  | EmptyString => if after_digit then Some EmptyString else None
  | String c t =>
      if Ascii.eqb c "_" then
        if after_digit then grouped_digits false t else None
      else if PyStr.is_digit c then option_map (String c) (grouped_digits true t)
      else None
  end.

(** [int(s)] on ASCII text; [None] stands for [ValueError]. *)
Definition int (s : string) : option Z :=
  let value (t : string) :=
    match grouped_digits false t with
    | Some ds => PyStr.digits_value ds
    | None => None
    end in
  match PyStr.strip s with
  | String "+" t => value t
  | String "-" t => option_map Z.opp (value t)
  | t => value t
  end.

(** The two hexadecimal digits of a character code. *)
Definition hex_digit (n : nat) : ascii :=
  if Nat.ltb n 10 then ascii_of_nat (48 + n) else ascii_of_nat (87 + n).

(** One character inside [repr(s)], on ASCII text. *)
Definition repr_char (quote c : ascii) : string :=
  let n := nat_of_ascii c in
  if (Ascii.eqb c quote || Ascii.eqb c "\")%bool then String "\" (String c "")
  else if Nat.eqb n 9 then "\t"
  else if Nat.eqb n 10 then "\n"
  else if Nat.eqb n 13 then "\r"
  else if (Nat.ltb n 32 || Nat.eqb n 127)%bool
       then String "\" (String "x" (String (hex_digit (n / 16)) (String (hex_digit (n mod 16)) "")))
  else String c "".

Fixpoint escape (quote : ascii) (s : string) : string :=
  match s with
  | EmptyString => EmptyString
  | String c t => repr_char quote c ++ escape quote t
  end.

(** [repr(s)] of a [str]: double quotes are chosen when the text holds a
    single quote and no double quote. *)
Definition repr_str (s : string) : string :=
  let quote :=
    if (PyStr.mem single_quote s && negb (PyStr.mem double_quote s))%bool
    then double_quote else single_quote in
  String quote (escape quote s ++ String quote "").

(** [repr(v)] of a JSON value. *)
Fixpoint repr (v : json) : string :=
  match v with
  | JNull => "None"
  | JBool true => "True"
  | JBool false => "False"
  | JNum z => PyStr.str_int z
  | JStr s => repr_str s
  | JList l => "[" ++ String.concat ", " (map repr l) ++ "]"
  | JObj kvs =>
      "{" ++ String.concat ", " (map (fun kv => repr_str (fst kv) ++ ": " ++ repr (snd kv)) kvs)
      ++ "}"
  end.

(** [str(v)], which is also what an f-string puts for [{v}]. *)
Definition str (v : json) : string :=
  match v with
  | JStr s => s
  | _ => repr v
  end.

End PyMore.

(** [p.with_suffix(suffix)]; [None] stands for [ValueError]. *)
Definition with_suffix (p : Path) (suffix : string) : option Path :=
  if PyStr.mem "/" suffix then None
  else if ((negb (String.eqb suffix "") && negb (PyStr.startswith "." suffix))
           || String.eqb suffix ".")%bool then None
  else
    let name := PathLib.name p in
    if String.eqb name "" then None
    else
      let old_suffix := PathLib.suffix p in
      let name :=
        if String.eqb old_suffix "" then name ++ suffix
        else PyMore.take (String.length name - String.length old_suffix) name ++ suffix in
      Some {| PathLib.anchor := PathLib.anchor p;
              PathLib.parts := (removelast (PathLib.parts p) ++ [name])%list |}.

(** ** Recording a result ([main.py], [process_query]) *)

(** The surroundings of the recording: the readings of the clock in the
    order they are made; what [Path.rename] raises for a source and a
    target, what [console.print] raises for a text (Rich refuses a closing
    tag that matches no opening one) and what [preview_artifact] raises
    for a path, if anything. *)
Record desk := {
  clock : nat -> string;
  rename_error : Path -> Path -> option string;
  print_error : string -> option string;
  preview_error : Path -> option string
}.

(** [artifact.path = new_path]: the artifact is the object the registry
    holds under its identifier, so the registry sees the new path. *)
Definition set_path (artifact : Artifact) (new_path : Path) (sm : SessionManager)
    : SessionManager :=
  {| interactions := interactions sm;
     artifacts :=
       Dict.set (PyMore.str (art_id artifact))
         {| art_id := art_id artifact; art_type := art_type artifact;
            art_format := art_format artifact; art_path := new_path;
            art_query := art_query artifact; art_created_at := art_created_at artifact;
            art_metadata := art_metadata artifact |}
         (artifacts sm);
     _artifact_counter := _artifact_counter sm |}.

(** The line printed for a new artifact, and the one printed for a
    chart. *)
Definition artifact_line (artifact_id file_type : string) (new_path : Path) : string :=
  "  - `[" ++ artifact_id ++ "]` " ++ file_type ++ ": " ++ PathLib.name new_path.

Definition chart_line (new_path : Path) : string :=
  "  [dim]Chart saved to " ++ PathLib.to_string new_path ++ "[/dim]".

(** What showing a new artifact raises, if anything: a table is
    previewed, a chart is announced. *)
Definition show_artifact (d : desk) (file_type : string) (file_path new_path : Path)
    : option string :=
  if (String.eqb file_type "table"
      && existsb (String.eqb (PathLib.suffix file_path)) [".csv"; ".xlsx"])%bool
  then preview_error d new_path
  else if String.eqb file_type "chart" then print_error d (chart_line new_path)
  else None.

(** The loop over [result.output_files.items()]: every file becomes an
    artifact and is renamed after its identifier.  [tick] counts the
    readings of the clock made so far; [inr] is an exception that leaves
    the loop. *)
Fixpoint register_outputs (d : desk) (session_output_dir : Path) (query : string)
    (output_files : Dict.t Path) (tick : nat) (artifact_ids : list string)
    (sm : SessionManager) : (list string * nat + string) * SessionManager :=
  match output_files with
  | [] => (inl (artifact_ids, tick), sm)
  | (file_type, file_path) :: rest =>
      let (artifact, sm) :=
        create_artifact (clock d tick) file_type
          (PyMore.lstrip_chars "." (PathLib.suffix file_path)) file_path query sm in
      let new_path :=
        PathLib.joinpath session_output_dir
          (PyMore.str (art_id artifact) ++ PathLib.suffix file_path) in
      match rename_error d file_path new_path with
      | Some reason => (inr reason, sm)
      | None =>
          let sm := set_path artifact new_path sm in
          let artifact_ids := (artifact_ids ++ [PyMore.str (art_id artifact)])%list in
          match print_error d
                  (artifact_line (PyMore.str (art_id artifact)) file_type new_path) with
          | Some reason => (inr reason, sm)
          | None =>
              match show_artifact d file_type file_path new_path with
              | Some reason => (inr reason, sm)
              | None =>
                  register_outputs d session_output_dir query rest (S tick)
                    artifact_ids sm
              end
          end
      end
  end.

(** [f"{result.error}"] and the texts built from it. *)
Definition error_text (result : ExecutionResult) : string :=
  match error result with
  | Some e => e
  | None => "None"
  end.

Definition error_summary (result : ExecutionResult) : string :=
  "ERROR: " ++ error_text result.

Definition failure_panel (result : ExecutionResult) : string :=
  error_text result ++ String PyMore.newline (String PyMore.newline (stderr result)).

Definition success_banner : string :=
  String PyMore.newline "[bold green]✓ Execution Successful![/bold green]".

Definition artifacts_heading : string := "[bold]Generated Artifacts:[/bold]".

(** [process_query] once [execute] has returned [result]: the exception
    that reached the handler of the function, if any, and the manager
    afterwards. *)
Definition record_result (settings : Settings) (d : desk) (session_output_dir : Path)
    (query plan code : string) (result : ExecutionResult) (sm : SessionManager)
    : option string * SessionManager :=
  if success result then
    match print_error d success_banner with
    | Some reason => (Some reason, sm)
    | None =>
        match (if String.eqb (stdout result) "" then None
               else print_error d (stdout result)) with
        | Some reason => (Some reason, sm)
        | None =>
            let registered :=
              match output_files result with
              | [] => (inl ([], O), sm)
              | _ =>
                  match print_error d artifacts_heading with
                  | Some reason => (inr reason, sm)
                  | None =>
                      register_outputs d session_output_dir query (output_files result)
                        O [] sm
                  end
              end in
            match registered with
            | (inl (artifact_ids, tick), sm) =>
                (None, add_interaction settings (clock d tick) query plan code
                         (stdout result) (Some artifact_ids) sm)
            | (inr reason, sm) => (Some reason, sm)
            end
        end
    end
  else
    match print_error d (failure_panel result) with
    | Some reason => (Some reason, sm)
    | None =>
        (None, add_interaction settings (clock d O) query plan code (error_summary result)
                 (Some []) sm)
    end.

(** [process_query] from the call of [execute] on; an exception of
    [execute] reaches the handler as well. *)
Definition execute_and_record (self : CodeExecutor) (settings : Settings) (w : world)
    (d : desk) (session_output_dir : Path) (query plan code : string)
    (temp_data_files : Dict.t Path) (sm : SessionManager)
    : option string * SessionManager :=
  match execute self settings w code temp_data_files session_output_dir with
  | inr reason => (Some reason, sm)
  | inl result => record_result settings d session_output_dir query plan code result sm
  end.

(** The identifiers [create_artifact] gives to the files of a mapping when
    the counter stands at [counter]. *)
Fixpoint new_ids (counter : Z) (output_files : Dict.t Path) : list string :=
  match output_files with
  | [] => []
  | (file_type, _) :: rest =>
      (file_type ++ "_" ++ PyStr.format_03d (counter + 1)) :: new_ids (counter + 1) rest
  end.

(** Whether nothing on a desk raises. *)
Definition calm (d : desk) : Prop :=
  (forall source target, rename_error d source target = None)
  /\ (forall text, print_error d text = None)
  /\ (forall path, preview_error d path = None).

(** A desk whose clock always shows the same time and where nothing
    raises, and one where no file can be renamed. *)
Definition quiet_desk : desk :=
  {| clock := fun _ => "2024-05-01T10:00:00";
     rename_error := fun _ _ => None;
     print_error := fun _ => None;
     preview_error := fun _ => None |}.

Definition stuck_desk : desk :=
  {| clock := fun _ => "2024-05-01T10:00:00";
     rename_error := fun _ _ => Some "[Errno 13] Permission denied";
     print_error := fun _ => None;
     preview_error := fun _ => None |}.


(** ** Conversion and export ([export/exporter.py], [main.py]) *)

Module Exporter.

(** What a conversion raises: [FileNotFoundError], [ValueError] (with its
    subclasses) or [IndexError], or any other exception. *)
Inductive error :=
  | NotFound (message : string)
  | Invalid (message : string)
  | Other (message : string).

(** What [Path.exists] returns or raises for a path, what [_csv_to_excel]
    raises for a source and a target, what [console.print] raises for a
    text and what [list_session_info] raises, if anything. *)
Record world := {
  path_exists : Path -> bool + string;
  csv_to_excel_error : Path -> Path -> option error;
  print_error : string -> option string;
  session_info_error : option string
}.

(** The keys of [supported_conversions]. *)
Definition supported_conversions : list (string * string) := [("csv", "xlsx")].

Definition supported (source_format target_format : string) : bool :=
  existsb (fun k => String.eqb (fst k) source_format && String.eqb (snd k) target_format)%bool
    supported_conversions.

(** [Exporter.convert_format] *)
Definition convert_format (x : world) (source_path : Path) (target_format : string)
    : Path + error :=
  match path_exists x source_path with
  | inr reason => inr (Other reason)
  | inl false => inr (NotFound ("Source file not found: " ++ PathLib.to_string source_path))
  | inl true =>
      let source_format := PyMore.lstrip_chars "." (PathLib.suffix source_path) in
      if negb (supported source_format target_format)
      then inr (Invalid ("Conversion from '" ++ source_format ++ "' to '" ++ target_format
                         ++ "' is not supported. Supported: CSV→XLSX"))
      else
        match with_suffix source_path ("." ++ target_format) with
        | None => inr (Invalid ("Invalid suffix " ++ PyMore.repr_str ("." ++ target_format)))
        | Some output_path =>
            match csv_to_excel_error x source_path output_path with
            | Some e => inr e
            | None => inl output_path
            end
        end
  end.

(** A world in which every path exists and nothing raises. *)
Definition kind_world : world :=
  {| path_exists := fun _ => inl true;
     csv_to_excel_error := fun _ _ => None;
     print_error := fun _ => None;
     session_info_error := None |}.

End Exporter.

(** How a call of [export_artifact] ends: with one of its five messages
    shown, or with an exception that leaves the function. *)
Inductive shown :=
  | NoArtifacts
  | InvalidSelection
  | Missing (name : string)
  | ActionFailed (message : string)
  | Converted (output_path : Path)
  | Escaped (message : string).

Definition missing_line (name : string) : string :=
  "[bold red]Error: File '" ++ name ++ "' is missing.[/bold red]".

Definition converted_line (output_path : Path) : string :=
  "[green]✓ Converted successfully to: " ++ PathLib.to_string output_path ++ "[/green]".

(** The messages printed outside the [try] block or by its handlers: an
    exception of [console.print] leaves the function there. *)
Definition announce (x : Exporter.world) (s : shown) : shown :=
  let line :=
    match s with
    | NoArtifacts => Some "[yellow]No artifacts to export.[/yellow]"
    | InvalidSelection => Some "[red]Invalid selection.[/red]"
    | ActionFailed message => Some ("[red]Action failed: " ++ message ++ "[/red]")
    | _ => None
    end in
  match line with
  | Some text =>
      match Exporter.print_error x text with
      | Some reason => Escaped reason
      | None => s
      end
  | None => s
  end.

(** The body of [export_artifact] up to the last message. *)
Definition export_steps (x : Exporter.world) (now choice target_format : string)
    (sm : SessionManager) : shown * SessionManager :=
  let artifacts := list_artifacts sm in
  match artifacts with
  | [] => (NoArtifacts, sm)
  | _ =>
      match Exporter.session_info_error x with
      | Some reason => (Escaped reason, sm)
      | None =>
          match PyMore.int choice with
          | None => (InvalidSelection, sm)
          | Some n =>
              match PyMore.list_getitem artifacts (n - 1) with
              | None => (InvalidSelection, sm)
              | Some artifact =>
                  match Exporter.path_exists x (art_path artifact) with
                  | inr reason => (ActionFailed reason, sm)
                  | inl false =>
                      match Exporter.print_error x
                              (missing_line (PathLib.name (art_path artifact))) with
                      | Some reason => (ActionFailed reason, sm)
                      | None => (Missing (PathLib.name (art_path artifact)), sm)
                      end
                  | inl true =>
                      match Exporter.convert_format x (art_path artifact) target_format with
                      | inr (Exporter.Invalid _) => (InvalidSelection, sm)
                      | inr (Exporter.NotFound message) => (ActionFailed message, sm)
                      | inr (Exporter.Other message) => (ActionFailed message, sm)
                      | inl output_path =>
                          match Exporter.print_error x (converted_line output_path) with
                          | Some reason => (ActionFailed reason, sm)
                          | None =>
                              (Converted output_path,
                               snd (create_artifact now "file"
                                      (PyMore.lstrip_chars "."
                                         (PathLib.suffix output_path))
                                      output_path
                                      ("Converted from " ++ PyMore.str (art_id artifact))
                                      sm))
                          end
                      end
                  end
              end
          end
      end
  end.

(** [ChatWithDataApp.export_artifact]; [choice] and [target_format] are
    the two answers of the user. *)
Definition export_artifact (x : Exporter.world) (now choice target_format : string)
    (sm : SessionManager) : shown * SessionManager :=
  let (s, sm) := export_steps x now choice target_format sm in (announce x s, sm).

(** ** The language service ([llm/service.py]) *)

Definition meta_question_indicators : list string :=
  ["what can you"; "what could you"; "what kind of analysis"; "what is possible";
   "help me"; "what are my options"; "what should i ask"; "what can we analyze"].

Definition question_indicators : list string :=
  ["what is"; "what are"; "tell me about"; "explain"; "describe";
   "can you explain"; "what does"; "what do"; "what data"].

Definition analysis_indicators : list string :=
  ["calculate"; "compute"; "find the"; "show me the"; "plot"; "chart"; "graph";
   "analyze"; "compare"; "average"; "sum of"; "count the";
   "group by"; "filter"; "list all"; "display the"; "visualize"].

(** [any(indicator in text for indicator in indicators)] *)
Definition any_in (indicators : list string) (text : string) : bool :=
  existsb (fun indicator => PyStr.contains indicator text) indicators.

(** [LLMService.detect_query_intent] *)
Definition detect_query_intent (query : string) : string :=
  let query_lower := PyMore.strip (PyStr.lower query) in
  if any_in meta_question_indicators query_lower then "question"
  else if any_in analysis_indicators query_lower then "analysis"
  else if any_in question_indicators query_lower then "question"
  else "analysis".

(** The opening and the closing of a fenced block. *)
Definition fence : string := "```".
Definition fence_python : string := "```python".
Definition fence_open : string := "```python" ++ String PyMore.newline "".
Definition fence_close : string := String PyMore.newline "```".

(** The last four lines of [LLMService.generate_code], on the content of
    the provider's response; [None] stands for [IndexError]. *)
Definition clean_response (content : string) : option string :=
  let code := PyMore.strip content in
  match (if PyStr.startswith fence_python code
         then nth_error (PyMore.split_once fence_open code) 1
         else Some code) with
  | None => None
  | Some code =>
      let code :=
        if PyMore.endswith fence code
        then hd EmptyString (PyMore.rsplit_once fence_close code)
        else code in
      Some (PyMore.strip code)
  end.

(** Whether a text is non-empty and neither starts nor ends with white
    space. *)
Definition solid (s : string) : bool :=
  match s with
  | EmptyString => false
  | String c t =>
      (negb (PyMore.isspace c)
       && negb (PyMore.isspace (List.last (list_ascii_of_string t) c)))%bool
  end.

Definition blank (s : string) : bool := PyStr.all PyMore.isspace s.

(** The artifact the registry holds for an output file once it has been
    renamed. *)
Definition registered (d : desk) (session_output_dir : Path) (query : string)
    (tick : nat) (artifact_id file_type : string) (file_path : Path) : Artifact :=
  {| art_id := JStr artifact_id; art_type := JStr file_type;
     art_format := JStr (PyMore.lstrip_chars "." (PathLib.suffix file_path));
     art_path := PathLib.joinpath session_output_dir (artifact_id ++ PathLib.suffix file_path);
     art_query := JStr query; art_created_at := JStr (clock d tick);
     art_metadata := JObj [] |}.

(** A successful result with a chart and a table. *)
Definition two_outputs : ExecutionResult :=
  {| success := true; stdout := "mean: 4.2"; stderr := "";
     output_files := [("chart", PathLib.joinpath sample_output_dir "chart.png");
                      ("table", PathLib.joinpath sample_output_dir "table.csv")];
     error := None |}.

(** A session with a chart and a table. *)
Definition chart_and_table : SessionManager :=
  snd (create_artifact "2024-05-01T10:01:00" "table" "csv" sample_table "list sales"
         sample_session).

(** ** The load line of the prompt and the copy of a dataset *)

(** The variable [generate_code] names for a dataset, and the line of its
    prompt that loads the dataset. *)
Definition var_name (name : string) : string :=
  "df_" ++ PyStr.replace " " "_" (PyStr.replace "-" "_" name).

Definition load_line (name : string) : string :=
  var_name name ++ " = pd.read_csv('/data/" ++ name ++ ".csv')"
  ++ String PyMore.newline (String PyMore.newline "").

(** [data_dir / f"{name}.csv"], where both backends copy a dataset to. *)
Definition dataset_copy (w : world) (name : string) : Path :=
  PathLib.joinpath (PathLib.joinpath (temp_dir w) "data") (name ++ ".csv").

(** ** What a stored session holds *)






Definition garbling_world : world :=
  {| temp_dir := temp_dir (quiet_world 1 []);
     mkdir_error := None;
     copy_error := fun _ => None;
     python := fun _ =>
       Garbles 1 "'utf-8' codec can't decode byte 0xff in position 0: invalid start byte";
     container_python := fun _ =>
       Garbles 1 "'utf-8' codec can't decode byte 0xff in position 0: invalid start byte";
     pip_seconds := 5;
     pip_status := 0;
     pip_stderr := "";
     docker_error := None;
     docker_available := true;
     move_error := fun _ => None |}.

(** * Properties *)

(** ** The model on concrete inputs *)

Example split_identifier : PyStr.split "_" "bar_chart_001" = ["bar"; "chart"; "001"].
Proof. reflexivity. Qed.

Example format_03d_values :
  map PyStr.format_03d [1; 42; 999; 1000; 0; -4] = ["001"; "042"; "999"; "1000"; "000"; "-04"].
Proof. vm_compute. reflexivity. Qed.

Example int_values :
  map PyStr.int ["001"; " 42 "; "+7"; "-04"; ""; "x1"; "-"; "1000"]
  = [Some 1; Some 42; Some 7; Some (-4); None; None; None; Some 1000].
Proof. vm_compute. reflexivity. Qed.

Example replace_left_to_right : PyStr.replace "aa" "b" "aaaxaa" = "baxb".
Proof. vm_compute. reflexivity. Qed.

Example path_strings :
  map (fun t => PathLib.to_string (PathLib.of_string t)) ["//a/./b//c/"; ""; "///x"; "a/../b"]
  = ["//a/b/c"; "."; "/x"; "a/../b"].
Proof. vm_compute. reflexivity. Qed.

Example path_suffixes :
  map PathLib.suffix_of_name ["a.png"; ".png"; "a."; "a.tar.gz"; "chart.PNG"; "noext"]
  = [".png"; ""; ""; ".gz"; ".PNG"; ""].
Proof. vm_compute. reflexivity. Qed.

Example slices :
  (slice_from (-2) [1; 2; 3], slice_from (-5) [1; 2; 3], slice_from 0 [1; 2; 3],
   slice_from 1 [1; 2; 3])
  = ([2; 3], [1; 2; 3], [1; 2; 3], [2; 3]).
Proof. vm_compute. reflexivity. Qed.

Example prepared_table_script :
  subprocess_script (quiet_world 1 []) table_script
  = "df = pd.read_csv(r'/tmp/tmpk3v9/data/sales.csv'); df.to_csv(r'/tmp/tmpk3v9/output/table.csv')".
Proof. vm_compute. reflexivity. Qed.

Example malformed_artifact_load :
  load_session "2024-05-02T09:00:00" sample_file
    (fs_with sample_file malformed_artifact_document) sample_session
  = (inr (IOError "Failed to load or parse session file /srv/outputs/session_1/session.json. Error: 'path'"),
     {| interactions := []; artifacts := []; _artifact_counter := 1 |}).
Proof. vm_compute. reflexivity. Qed.

(** ** Strings *)

Module StrFacts.
Import PyStr.

Lemma append_nil_r (s : string) : s ++ "" = s.
Proof. induction s as [|c t IH]; simpl; [reflexivity | now rewrite IH]. Qed.

Lemma append_assoc (a b c : string) : (a ++ b) ++ c = a ++ (b ++ c).
Proof. induction a as [|x t IH]; simpl; [reflexivity | now rewrite IH]. Qed.

Lemma length_append (a b : string) :
  String.length (a ++ b) = (String.length a + String.length b)%nat.
Proof. induction a as [|x t IH]; simpl; [reflexivity | now rewrite IH]. Qed.

Lemma all_append (P : ascii -> bool) (a b : string) :
  all P (a ++ b) = (all P a && all P b)%bool.
Proof.
  induction a as [|x t IH]; simpl; [reflexivity |].
  rewrite IH. now rewrite andb_assoc.
Qed.

Lemma all_impl (P Q : ascii -> bool) (s : string) :
  (forall c, P c = true -> Q c = true) -> all P s = true -> all Q s = true.
Proof.
  intros HPQ. induction s as [|c t IH]; simpl; [reflexivity |].
  intros H. apply andb_true_iff in H as [Hc Ht].
  rewrite (HPQ _ Hc), (IH Ht). reflexivity.
Qed.

Lemma mem_false_all (c : ascii) (s : string) :
  mem c s = false <-> all (fun d => negb (Ascii.eqb d c)) s = true.
Proof.
  induction s as [|d t IH]; simpl; [tauto |].
  rewrite orb_false_iff, andb_true_iff, negb_true_iff, IH. tauto.
Qed.

Lemma mem_append (c : ascii) (a b : string) :
  mem c (a ++ b) = (mem c a || mem c b)%bool.
Proof.
  induction a as [|x t IH]; simpl; [reflexivity |].
  rewrite IH. now rewrite orb_assoc.
Qed.

(** *** [split] *)

Lemma split_not_nil (sep : ascii) (s : string) : split sep s <> [].
Proof.
  induction s as [|c t IH]; simpl; [discriminate |].
  destruct (Ascii.eqb c sep); [discriminate |].
  destruct (split sep t); [contradiction | discriminate].
Qed.

Lemma split_no_sep (sep : ascii) (s : string) :
  mem sep s = false -> split sep s = [s].
Proof.
  induction s as [|c t IH]; simpl; [reflexivity |].
  intros H. apply orb_false_iff in H as [Hc Ht].
  rewrite Hc, (IH Ht). reflexivity.
Qed.

(** [(a + sep + b).split(sep) == a.split(sep) + b.split(sep)] *)
Lemma split_app_sep (sep : ascii) (a b : string) :
  split sep (a ++ String sep b) = (split sep a ++ split sep b)%list.
Proof.
  induction a as [|c t IH]; simpl.
  - now rewrite Ascii.eqb_refl.
  - destruct (Ascii.eqb c sep); [now rewrite IH |].
    rewrite IH. destruct (split sep t) eqn:E; [now apply split_not_nil in E |].
    reflexivity.
Qed.

Lemma last_app_not_nil {A : Type} (l r : list A) (d : A) :
  r <> [] -> List.last (l ++ r) d = List.last r d.
Proof.
  intros Hr. induction l as [|x l IH]; simpl; [reflexivity |].
  destruct (l ++ r)%list eqn:E; [|exact IH].
  apply app_eq_nil in E as [_ E]. contradiction.
Qed.

(** The last component of [a + sep + b] is [b] when [b] holds no [sep]. *)
Lemma last_split (sep : ascii) (a b : string) :
  mem sep b = false -> last_part (split sep (a ++ String sep b)) = b.
Proof.
  intros Hb. unfold last_part. rewrite split_app_sep.
  rewrite last_app_not_nil by apply split_not_nil.
  now rewrite (split_no_sep _ _ Hb).
Qed.

Lemma concat_cons (sep : ascii) (w w' : string) (ws : list string) :
  String.concat (String sep "") (w :: w' :: ws)
  = w ++ String sep (String.concat (String sep "") (w' :: ws)).
Proof. reflexivity. Qed.

(** [sep.join(ws).split(sep) == ws] for a non-empty list of words without
    separator. *)
Lemma split_concat (sep : ascii) (ws : list string) :
  ws <> [] -> forallb (fun w => negb (mem sep w)) ws = true ->
  split sep (String.concat (String sep "") ws) = ws.
Proof.
  induction ws as [|w ws IH]; [congruence |].
  intros _ H. simpl in H. apply andb_true_iff in H as [Hw Hws].
  apply negb_true_iff in Hw.
  destruct ws as [|w' ws'].
  - simpl. now apply split_no_sep.
  - rewrite concat_cons, split_app_sep, (split_no_sep _ _ Hw), IH
      by (congruence || assumption).
    reflexivity.
Qed.

(** *** Decimal numerals *)

Lemma is_digit_not_space (c : ascii) : is_digit c = true -> is_space c = false.
Proof.
  destruct c as [[] [] [] [] [] [] [] []]; vm_compute; congruence.
Qed.

Lemma is_digit_not_underscore (c : ascii) :
  is_digit c = true -> negb (Ascii.eqb c "_") = true.
Proof.
  destruct c as [[] [] [] [] [] [] [] []]; vm_compute; congruence.
Qed.

Lemma string_of_uint_digits (d : uint) : all is_digit (NilEmpty.string_of_uint d) = true.
Proof. induction d; simpl; auto. Qed.

Lemma to_uint_not_nil (n : N) : N.to_uint n <> Nil.
Proof.
  destruct n as [|p]; simpl; [discriminate |].
  apply DecimalPos.Unsigned.to_uint_nonnil.
Qed.

Lemma digits_eq (n : N) : digits n = NilEmpty.string_of_uint (N.to_uint n).
Proof.
  unfold digits, NilZero.string_of_uint.
  destruct (N.to_uint n) eqn:E; try reflexivity.
  now apply to_uint_not_nil in E.
Qed.

Lemma digits_all (n : N) : all is_digit (digits n) = true.
Proof. rewrite digits_eq. apply string_of_uint_digits. Qed.

Lemma digits_not_empty (n : N) : digits n <> "".
Proof.
  rewrite digits_eq. pose proof (to_uint_not_nil n) as H.
  destruct (N.to_uint n); simpl; congruence.
Qed.

Lemma zeros_all (k : nat) : all is_digit (zeros k) = true.
Proof. induction k; simpl; auto. Qed.

Lemma zero_pad_all (w : nat) (s : string) :
  all is_digit s = true -> all is_digit (zero_pad w s) = true.
Proof. intros H. unfold zero_pad. now rewrite all_append, zeros_all, H. Qed.

Lemma zero_pad_not_empty (w : nat) (s : string) : s <> "" -> zero_pad w s <> "".
Proof.
  intros H. unfold zero_pad. destruct (zeros _); simpl; [exact H | discriminate].
Qed.

Lemma uint_of_string_zeros (k : nat) (s : string) :
  NilEmpty.uint_of_string (zeros k ++ s)
  = option_map (Nat.iter k D0) (NilEmpty.uint_of_string s).
Proof.
  induction k as [|k IH]; simpl.
  - now destruct (NilEmpty.uint_of_string s).
  - rewrite IH. now destruct (NilEmpty.uint_of_string s).
Qed.

Lemma of_uint_iter_D0 (k : nat) (u : uint) : N.of_uint (Nat.iter k D0 u) = N.of_uint u.
Proof. induction k as [|k IH]; simpl; [reflexivity | exact IH]. Qed.

(** A padded numeral is read back as the number. *)
Lemma digits_value_zero_pad (w : nat) (n : N) :
  digits_value (zero_pad w (digits n)) = Some (Z.of_N n).
Proof.
  unfold digits_value.
  destruct (zero_pad w (digits n)) eqn:E.
  - now apply zero_pad_not_empty in E; [| apply digits_not_empty].
  - rewrite <- E. unfold zero_pad.
    rewrite uint_of_string_zeros, digits_eq, NilEmpty.usu. simpl.
    now rewrite of_uint_iter_D0, DecimalN.Unsigned.of_to.
Qed.

Lemma lstrip_no_space (s : string) :
  all (fun c => negb (is_space c)) s = true -> lstrip s = s.
Proof.
  destruct s as [|c t]; simpl; [reflexivity |].
  intros H. apply andb_true_iff in H as [Hc _].
  apply negb_true_iff in Hc. now rewrite Hc.
Qed.

Lemma rstrip_no_space (s : string) :
  all (fun c => negb (is_space c)) s = true -> rstrip s = s.
Proof.
  induction s as [|c t IH]; simpl; [reflexivity |].
  intros H. apply andb_true_iff in H as [Hc Ht].
  apply negb_true_iff in Hc. rewrite (IH Ht), Hc. now destruct t.
Qed.

Lemma strip_no_space (s : string) :
  all (fun c => negb (is_space c)) s = true -> strip s = s.
Proof.
  intros H. unfold strip. rewrite (lstrip_no_space _ H). now apply rstrip_no_space.
Qed.

Lemma digits_no_space (s : string) :
  all is_digit s = true -> all (fun c => negb (is_space c)) s = true.
Proof.
  apply all_impl. intros c H. now rewrite (is_digit_not_space _ H).
Qed.

(** [int] of a run of digits is its value. *)
Lemma int_digits (s : string) : all is_digit s = true -> int s = digits_value s.
Proof.
  intros H. unfold int. rewrite (strip_no_space _ (digits_no_space _ H)).
  destruct s as [|c t]; [reflexivity |].
  simpl in H. apply andb_true_iff in H as [Hc _].
  destruct c as [[] [] [] [] [] [] [] []]; try reflexivity; vm_compute in Hc; congruence.
Qed.

(** [int(f"{z:03d}") == z] *)
Lemma int_format_03d (z : Z) : int (format_03d z) = Some z.
Proof.
  unfold format_03d. destruct (z <? 0) eqn:Hz.
  - apply Z.ltb_lt in Hz.
    pose proof (zero_pad_all 2 _ (digits_all (Z.to_N (- z)))) as Hd.
    unfold int. rewrite strip_no_space.
    + rewrite digits_value_zero_pad. simpl. f_equal. lia.
    + simpl. now apply digits_no_space.
  - apply Z.ltb_ge in Hz.
    rewrite int_digits by (apply zero_pad_all, digits_all).
    rewrite digits_value_zero_pad. f_equal. lia.
Qed.

(** No underscore in [f"{z:03d}"]. *)
Lemma format_03d_no_underscore (z : Z) : mem "_" (format_03d z) = false.
Proof.
  apply mem_false_all. unfold format_03d. destruct (z <? 0).
  - simpl. eapply all_impl; [apply is_digit_not_underscore |].
    apply zero_pad_all, digits_all.
  - eapply all_impl; [apply is_digit_not_underscore |].
    apply zero_pad_all, digits_all.
Qed.

End StrFacts.

(** ** Paths *)

Module PathFacts.
Import PathLib.

Lemma leading_slashes_other (c : ascii) (t : string) :
  Ascii.eqb c "/" = false -> leading_slashes (String c t) = O.
Proof.
  destruct c as [[] [] [] [] [] [] [] []]; simpl; intros H;
    try reflexivity; discriminate.
Qed.

Lemma leading_slashes_slash (t : string) :
  leading_slashes (String "/" t) = S (leading_slashes t).
Proof. reflexivity. Qed.

Lemma part_ok_spec (w : string) :
  part_ok w = true ->
  keep_part w = true /\ PyStr.mem "/" w = false /\ w <> "".
Proof.
  unfold part_ok. intros H. apply andb_true_iff in H as [Hk Hm].
  apply negb_true_iff in Hm. repeat split; try assumption.
  intros ->. discriminate.
Qed.

Lemma filter_keep_parts (ws : list string) :
  forallb part_ok ws = true -> filter keep_part ws = ws.
Proof.
  induction ws as [|w ws IH]; simpl; [reflexivity |].
  intros H. apply andb_true_iff in H as [Hw Hws].
  destruct (part_ok_spec _ Hw) as [-> _]. now rewrite IH.
Qed.

Lemma parts_no_slash (ws : list string) :
  forallb part_ok ws = true ->
  forallb (fun w => negb (PyStr.mem "/" w)) ws = true.
Proof.
  induction ws as [|w ws IH]; simpl; [reflexivity |].
  intros H. apply andb_true_iff in H as [Hw Hws].
  destruct (part_ok_spec _ Hw) as (_ & -> & _). now rewrite IH.
Qed.

Lemma leading_slashes_concat (ws : list string) :
  forallb part_ok ws = true -> leading_slashes (String.concat "/" ws) = O.
Proof.
  destruct ws as [|w ws]; [reflexivity |].
  simpl forallb. intros H. apply andb_true_iff in H as [Hw _].
  destruct (part_ok_spec _ Hw) as (_ & Hm & Hne).
  destruct w as [|c t]; [congruence |].
  simpl in Hm. apply orb_false_iff in Hm as [Hc _].
  destruct ws; simpl; now apply leading_slashes_other.
Qed.

(** The components of [sep.join(ws)] once parsed are [ws]. *)
Lemma parse_concat (ws : list string) :
  forallb part_ok ws = true ->
  filter keep_part (PyStr.split "/" (String.concat "/" ws)) = ws.
Proof.
  intros H. destruct ws as [|w ws]; [reflexivity |].
  rewrite StrFacts.split_concat by (congruence || now apply parts_no_slash).
  now apply filter_keep_parts.
Qed.

(** [Path(str(p)) == p] *)
Lemma of_string_to_string (p : Path) :
  well_formed p = true -> of_string (to_string p) = p.
Proof.
  destruct p as [r ws]. unfold well_formed, to_string, of_string.
  cbn [anchor parts]. intros H.
  pose proof (leading_slashes_concat ws H) as Hl.
  pose proof (parse_concat ws H) as Hp.
  remember (String.concat "/" ws) as X eqn:EX.
  destruct r.
  - destruct ws as [|w ws]; [reflexivity |].
    rewrite <- EX. cbn [root_string append]. unfold splitroot. now rewrite Hl, Hp.
  - cbn [root_string append].
    unfold splitroot. rewrite leading_slashes_slash, Hl.
    simpl PyStr.split. simpl filter. now rewrite Hp.
  - cbn [root_string append].
    unfold splitroot. rewrite !leading_slashes_slash, Hl.
    simpl PyStr.split. simpl filter. now rewrite Hp.
Qed.

(** Every parsed path is well formed. *)
Lemma split_parts_no_sep (sep : ascii) (s : string) :
  forallb (fun w => negb (PyStr.mem sep w)) (PyStr.split sep s) = true.
Proof.
  induction s as [|c t IH]; simpl; [reflexivity |].
  destruct (Ascii.eqb c sep) eqn:E; simpl; [exact IH |].
  destruct (PyStr.split sep t) as [|w ws]; simpl in *.
  - now rewrite E.
  - now rewrite E.
Qed.

Lemma kept_parts_ok (l : list string) :
  forallb (fun w => negb (PyStr.mem "/" w)) l = true ->
  forallb part_ok (filter keep_part l) = true.
Proof.
  induction l as [|w ws IH]; simpl; [reflexivity |].
  intros H. apply andb_true_iff in H as [Hw Hws].
  destruct (keep_part w) eqn:K; simpl; [| now apply IH].
  rewrite (IH Hws). unfold part_ok. now rewrite K, Hw.
Qed.

Lemma of_string_well_formed (s : string) : well_formed (of_string s) = true.
Proof. apply kept_parts_ok, split_parts_no_sep. Qed.

Lemma joinpath_well_formed (p : Path) (s : string) :
  well_formed p = true -> well_formed (joinpath p s) = true.
Proof.
  intros H. unfold joinpath.
  pose proof (of_string_well_formed s) as Hs.
  destruct (anchor (of_string s)); try exact Hs.
  unfold well_formed in *. cbn [parts]. rewrite forallb_app, H. exact Hs.
Qed.

End PathFacts.

(** ** Dictionaries *)

Module DictFacts.
Section DictFacts.
Context {V : Type}.

Lemma existsb_eqb_In (k : string) (l : list string) :
  existsb (String.eqb k) l = true <-> In k l.
Proof.
  rewrite existsb_exists. split.
  - intros (x & Hx & E). apply String.eqb_eq in E. now subst.
  - intros H. exists k. split; [exact H | apply String.eqb_refl].
Qed.

Lemma distinct_NoDup (l : list string) : distinct l = true <-> NoDup l.
Proof.
  induction l as [|k r IH]; simpl.
  - split; [constructor | reflexivity].
  - rewrite andb_true_iff, negb_true_iff, IH. split.
    + intros [Hk Hr]. constructor; [| exact Hr].
      intros Hin. apply existsb_eqb_In in Hin. congruence.
    + intros H. inversion H as [|? ? Hk Hr]; subst. split; [| exact Hr].
      destruct (existsb (String.eqb k) r) eqn:E; [| reflexivity].
      apply existsb_eqb_In in E. contradiction.
Qed.

(** Assigning to a new key appends the entry. *)
Lemma set_fresh (k : string) (v : V) (d : Dict.t V) :
  ~ In k (Dict.keys d) -> Dict.set k v d = (d ++ [(k, v)])%list.
Proof.
  induction d as [|[k' v'] r IH]; simpl; [reflexivity |].
  intros H. destruct (String.eqb k' k) eqn:E.
  - apply String.eqb_eq in E. subst. tauto.
  - rewrite IH; [reflexivity | tauto].
Qed.

Lemma keys_app (d e : Dict.t V) :
  Dict.keys (d ++ e)%list = (Dict.keys d ++ Dict.keys e)%list.
Proof. apply map_app. Qed.

(** Filling a dictionary entry by entry, in order, from entries with
    distinct keys rebuilds the list of entries. *)
Lemma fill_distinct (d acc : Dict.t V) :
  NoDup (Dict.keys acc ++ Dict.keys d)%list ->
  fold_left (fun a kv => Dict.set (fst kv) (snd kv) a) d acc = (acc ++ d)%list.
Proof.
  revert acc. induction d as [|[k v] r IH]; intros acc H; simpl.
  - now rewrite app_nil_r.
  - rewrite set_fresh.
    + rewrite IH.
      * now rewrite <- app_assoc.
      * rewrite keys_app. simpl. rewrite <- app_assoc. exact H.
    + simpl in H. apply NoDup_remove_2 in H. intros Hin. apply H.
      apply in_or_app. now left.
Qed.

End DictFacts.
End DictFacts.

(** ** Saving and loading a session *)

Module SessionFacts.

(** *** One interaction and one artifact *)

Lemma Interaction_round_trip (now : string) (i : Interaction) :
  Interaction_init now (Interaction_to_dict i) = inl i.
Proof. destruct i. reflexivity. Qed.

Lemma interactions_round_trip (now : string) (l : list Interaction) :
  comprehension (Interaction_init now) (map Interaction_to_dict l) = inl l.
Proof.
  induction l as [|i l IH]; [reflexivity |].
  cbn [map comprehension]. rewrite Interaction_round_trip.
  cbn [result_bind]. rewrite IH. reflexivity.
Qed.

Lemma Artifact_round_trip (a : Artifact) :
  match Artifact_to_dict a with
  | JObj kw =>
      Artifact_init (PathLib.of_string (PathLib.to_string (art_path a))) kw
      = inl (reloaded a)
  | _ => False
  end.
Proof. destruct a. reflexivity. Qed.

Lemma reloaded_well_formed (a : Artifact) :
  PathLib.well_formed (art_path a) = true -> reloaded a = a.
Proof.
  intros H. destruct a as [i t f p q c m]. unfold reloaded. cbn [art_path] in *.
  now rewrite PathFacts.of_string_to_string.
Qed.

(** *** The loop over the stored artifacts *)

(** The loop assigns to [artifacts] only. *)
Lemma restore_artifacts_frame (entries : list (string * json)) (sm : SessionManager) :
  interactions (snd (restore_artifacts entries sm)) = interactions sm
  /\ _artifact_counter (snd (restore_artifacts entries sm)) = _artifact_counter sm.
Proof.
  revert sm. induction entries as [|[k v] rest IH]; intros sm; [now split |].
  cbn [restore_artifacts]. unfold bind, lift, get_self, set_artifacts.
  destruct (py_getitem v "path") as [raw|e]; [| now split].
  destruct (py_Path raw) as [path|e]; [| now split].
  destruct (py_items v) as [kw|e]; [| now split].
  destruct (Artifact_init path kw) as [a|e]; [| now split].
  exact (IH _).
Qed.

(** On the entries [save_session] wrote, the loop never raises and stores
    every artifact, its path parsed again, under its key. *)
Lemma restore_artifacts_saved (d : Dict.t Artifact) (sm : SessionManager) :
  restore_artifacts (map (fun kv => (fst kv, Artifact_to_dict (snd kv))) d) sm
  = (inl tt,
     with_artifacts sm
       (fold_left (fun a kv => Dict.set (fst kv) (snd kv) a)
          (map (fun kv => (fst kv, reloaded (snd kv))) d) (artifacts sm))).
Proof.
  revert sm. induction d as [|[k a] r IH]; intros sm.
  - destruct sm; reflexivity.
  - destruct a as [i t f p q c m].
    cbn [map fst snd restore_artifacts].
    unfold bind, lift, get_self, set_artifacts.
    cbn -[PathLib.of_string PathLib.to_string restore_artifacts Dict.set].
    rewrite IH. reflexivity.
Qed.

(** *** The statements before the first assignment *)

Lemma load_session_body_split (now p : string) (fs : filesystem) (sm : SessionManager) :
  load_session_body now p fs sm
  = match read_interactions now p fs with
    | inr e => (inr e, sm)
    | inl (session_data, loaded) =>
        restore_rest session_data
          {| interactions := loaded; artifacts := artifacts sm;
             _artifact_counter := _artifact_counter sm |}
    end.
Proof.
  unfold load_session_body, read_interactions, restore_rest, bind, lift, result_bind,
    set_interactions.
  destruct (json_load fs p) as [doc|e]; [| reflexivity].
  destruct (py_get doc "interactions" (JList [])) as [stored|e]; [| reflexivity].
  destruct (py_iter stored) as [elements|e]; [| reflexivity].
  destruct (comprehension (Interaction_init now) elements) as [loaded|e]; reflexivity.
Qed.

(** Whatever happens after the first assignment, the counter either keeps
    its value or becomes the largest numeric suffix of the keys in store;
    and the call raises unless that maximum could be computed. *)
Lemma restore_rest_cases (session_data : json) (sm : SessionManager) :
  let out := restore_rest session_data sm in
  interactions (snd out) = interactions sm
  /\ ((exists e, fst out = inr e) /\ _artifact_counter (snd out) = _artifact_counter sm
      \/ fst out = inl tt /\ artifacts (snd out) = []
         /\ _artifact_counter (snd out) = _artifact_counter sm
      \/ fst out = inl tt /\ artifacts (snd out) <> []
         /\ exists suffixes,
              comprehension numeric_suffix (Dict.keys (artifacts (snd out))) = inl suffixes
              /\ _artifact_counter (snd out) = py_max suffixes 0).
Proof.
  unfold restore_rest, bind, lift, get_self, set_artifacts, set_artifact_counter, ret.
  cbn zeta.
  destruct (py_get session_data "artifacts" (JObj [])) as [stored|e];
    [| cbn; split; [reflexivity | left; eauto]].
  destruct (py_items stored) as [entries|e];
    [| cbn; split; [reflexivity | left; eauto]].
  set (sm0 := {| interactions := interactions sm; artifacts := [];
                 _artifact_counter := _artifact_counter sm |}).
  destruct (restore_artifacts_frame entries sm0) as [Hi Hc].
  destruct (restore_artifacts entries sm0) as [[[]|e] sm1]; cbn [fst snd] in *.
  - destruct (artifacts sm1) as [|kv d] eqn:Ea.
    + cbn. split; [exact Hi |]. right; left. now rewrite Ea.
    + destruct (comprehension numeric_suffix (Dict.keys (kv :: d))) as [l|e] eqn:El.
      * cbn. split; [exact Hi |]. right; right. rewrite Ea.
        split; [reflexivity |]. split; [discriminate |]. eauto.
      * cbn. split; [exact Hi |]. left. split; [eauto | exact Hc].
  - split; [exact Hi |]. left. split; [eauto | exact Hc].
Qed.

(** *** Loading what was saved *)

Lemma json_load_written (fs : filesystem) (p : string) (doc : json) :
  json_load (write_file fs p (Document doc)) p = inl doc.
Proof. unfold json_load, write_file. cbn [content]. now rewrite String.eqb_refl. Qed.

Lemma exists_written (fs : filesystem) (p : string) (f : file) :
  exists_ (write_file fs p f) p = true.
Proof. unfold exists_, write_file. cbn [content]. now rewrite String.eqb_refl. Qed.

Lemma keys_reloaded (d : Dict.t Artifact) :
  Dict.keys (reloaded_artifacts d) = Dict.keys d.
Proof.
  unfold Dict.keys, reloaded_artifacts. rewrite map_map. reflexivity.
Qed.

Lemma reloaded_artifacts_well_formed (d : Dict.t Artifact) :
  paths_well_formed d = true -> reloaded_artifacts d = d.
Proof.
  unfold paths_well_formed, reloaded_artifacts.
  induction d as [|[k a] r IH]; cbn [forallb map fst snd]; [reflexivity |].
  intros H. apply andb_true_iff in H as [Ha Hr].
  now rewrite (reloaded_well_formed _ Ha), (IH Hr).
Qed.

Lemma read_interactions_saved (saved_at now p : string) (fs : filesystem)
    (sm : SessionManager) :
  read_interactions now p (write_file fs p (Document (session_data saved_at sm)))
  = inl (session_data saved_at sm, interactions sm).
Proof.
  unfold read_interactions. rewrite json_load_written.
  unfold session_data at 1.
  cbn [result_bind py_get Dict.get String.eqb Ascii.eqb Bool.eqb py_iter].
  now rewrite interactions_round_trip.
Qed.

Lemma restore_rest_saved (saved_at : string) (sm st : SessionManager) :
  distinct (Dict.keys (artifacts sm)) = true ->
  restore_rest (session_data saved_at sm) st
  = match artifacts sm with
    | [] => (inl tt, with_artifacts st [])
    | _ =>
        match comprehension numeric_suffix (Dict.keys (artifacts sm)) with
        | inl suffixes =>
            (inl tt,
             {| interactions := interactions st;
                artifacts := reloaded_artifacts (artifacts sm);
                _artifact_counter := py_max suffixes 0 |})
        | inr e => (inr e, with_artifacts st (reloaded_artifacts (artifacts sm)))
        end
    end.
Proof.
  intros Hd. apply DictFacts.distinct_NoDup in Hd.
  unfold restore_rest, bind, lift, set_artifacts, get_self, session_data.
  cbn [py_get Dict.get String.eqb Ascii.eqb Bool.eqb py_items].
  rewrite restore_artifacts_saved. cbn [artifacts with_artifacts interactions _artifact_counter].
  fold (reloaded_artifacts (artifacts sm)).
  rewrite DictFacts.fill_distinct
    by (cbn [Dict.keys map app]; now rewrite keys_reloaded).
  rewrite !app_nil_l.
  destruct (artifacts sm) as [|kv d] eqn:Ea; [reflexivity |].
  rewrite keys_reloaded.
  destruct (reloaded_artifacts (kv :: d)) as [|kv' d'] eqn:Er; [discriminate |].
  unfold set_artifact_counter, with_artifacts.
  destruct (comprehension numeric_suffix (Dict.keys (kv :: d))); reflexivity.
Qed.

Lemma keys_numeric_suffixes (d : Dict.t Artifact) :
  keys_numeric d = true ->
  exists suffixes, comprehension numeric_suffix (Dict.keys d) = inl suffixes.
Proof.
  unfold keys_numeric. induction (Dict.keys d) as [|k ks IH]; cbn [forallb comprehension].
  - eauto.
  - intros H. apply andb_true_iff in H as [Hk Hks].
    unfold has_numeric_suffix in Hk.
    destruct (numeric_suffix k) as [z|e]; [| discriminate].
    destruct (IH Hks) as [l ->]. cbn. eauto.
Qed.

(** Loading the document that [save_session] wrote. *)
Lemma load_saved (saved_at now : string) (filepath : Path) (fs : filesystem)
    (sm sm0 : SessionManager) :
  distinct (Dict.keys (artifacts sm)) = true ->
  fst (save_session saved_at filepath sm fs) = inl tt ->
  let out := load_session now filepath (snd (save_session saved_at filepath sm fs)) sm0 in
  interactions (snd out) = interactions sm
  /\ artifacts (snd out) = reloaded_artifacts (artifacts sm)
  /\ match artifacts sm with
     | [] => fst out = inl tt /\ _artifact_counter (snd out) = _artifact_counter sm0
     | _ =>
         match comprehension numeric_suffix (Dict.keys (artifacts sm)) with
         | inl suffixes =>
             fst out = inl tt /\ _artifact_counter (snd out) = py_max suffixes 0
         | inr _ =>
             (exists m, fst out = inr (IOError m))
             /\ _artifact_counter (snd out) = _artifact_counter sm0
         end
     end.
Proof.
  intros Hd. unfold save_session.
  destruct (open_for_writing fs (PathLib.to_string filepath)); [discriminate |].
  intros _. cbn [snd]. unfold load_session.
  rewrite exists_written. cbn [negb].
  rewrite load_session_body_split, read_interactions_saved, (restore_rest_saved _ _ _ Hd).
  destruct (artifacts sm) as [|kv d] eqn:Ea.
  - cbn. repeat split; reflexivity.
  - destruct (comprehension numeric_suffix (Dict.keys (kv :: d))) as [l|e].
    + cbn. repeat split; reflexivity.
    + cbn. repeat split; try reflexivity. eauto.
Qed.

End SessionFacts.

(** ** Identifiers *)

Module CounterFacts.

(** The identifier made from a type and a counter ends in that counter. *)
Lemma numeric_suffix_created (artifact_type : string) (z : Z) :
  numeric_suffix (artifact_type ++ "_" ++ PyStr.format_03d z) = inl z.
Proof.
  unfold numeric_suffix.
  change ("_" ++ PyStr.format_03d z) with (String "_" (PyStr.format_03d z)).
  rewrite StrFacts.last_split by apply StrFacts.format_03d_no_underscore.
  now rewrite StrFacts.int_format_03d.
Qed.

Lemma comprehension_snoc {A B : Type} (f : A -> result B) (l : list A) (x : A)
    (bs : list B) (b : B) :
  comprehension f l = inl bs -> f x = inl b ->
  comprehension f (l ++ [x]) = inl (bs ++ [b])%list.
Proof.
  revert bs. induction l as [|a l IH]; intros bs Hl Hx; simpl in *.
  - injection Hl as <-. now rewrite Hx.
  - unfold result_bind in *. destruct (f a) as [fa|e]; [| discriminate].
    destruct (comprehension f l) as [bs'|e]; [| discriminate].
    injection Hl as <-. now rewrite (IH bs' eq_refl Hx).
Qed.

Lemma comprehension_In {A B : Type} (f : A -> result B) (l : list A) (bs : list B)
    (x : A) :
  comprehension f l = inl bs -> In x l -> exists b, f x = inl b /\ In b bs.
Proof.
  revert bs. induction l as [|a l IH]; intros bs Hl Hx; [contradiction |].
  cbn [comprehension] in Hl. unfold result_bind in Hl.
  destruct (f a) as [fa|e] eqn:Ea; [| discriminate].
  destruct (comprehension f l) as [bs'|e]; [| discriminate].
  injection Hl as <-. destruct Hx as [<- | Hx].
  - exists fa. split; [exact Ea | now left].
  - destruct (IH bs' eq_refl Hx) as (b & Hb & Hin). exists b. split; [exact Hb | now right].
Qed.

Lemma fold_max_bound (l : list Z) (x c : Z) :
  x <= c -> (forall z, In z l -> z <= c) -> fold_left Z.max l x <= c.
Proof.
  revert x. induction l as [|y l IH]; intros x Hx Hl; cbn [fold_left]; [exact Hx |].
  apply IH.
  - apply Z.max_lub; [exact Hx | apply Hl; now left].
  - intros z Hz. apply Hl. now right.
Qed.

Lemma fold_max_ge (l : list Z) (x : Z) : x <= fold_left Z.max l x.
Proof.
  revert x. induction l as [|y l IH]; intros x; cbn [fold_left]; [lia |].
  specialize (IH (Z.max x y)). lia.
Qed.

Lemma fold_max_In (l : list Z) (x z : Z) : In z l -> z <= fold_left Z.max l x.
Proof.
  revert x. induction l as [|y l IH]; intros x Hz; [contradiction |].
  cbn [fold_left]. destruct Hz as [<- | Hz].
  - pose proof (fold_max_ge l (Z.max x y)). lia.
  - now apply IH.
Qed.

(** [max] of a list is an upper bound of it that belongs to it. *)
Lemma py_max_attained (l : list Z) (d c : Z) :
  (forall z, In z l -> z <= c) -> In c l -> py_max l d = c.
Proof.
  intros Hb Hc. destruct l as [|x l]; [contradiction |]. cbn [py_max].
  apply Z.le_antisymm.
  - apply fold_max_bound; [apply Hb; now left | intros z Hz; apply Hb; now right].
  - destruct Hc as [<- | Hc]; [apply fold_max_ge | now apply fold_max_In].
Qed.

Lemma py_max_upper (l : list Z) (d z : Z) : In z l -> z <= py_max l d.
Proof.
  destruct l as [|x l]; [contradiction |]. cbn [py_max].
  intros [<- | Hz]; [apply fold_max_ge | now apply fold_max_In].
Qed.

Lemma init_invariant : counter_invariant init.
Proof.
  split; [reflexivity |]. exists []. split; [reflexivity |].
  split; [intros z [] | congruence].
Qed.

(** [create_artifact] returns the identifier made from the type and the
    counter plus one, and keeps the invariant. *)
Lemma create_artifact_invariant (now artifact_type file_format : string) (path : Path)
    (query : string) (sm : SessionManager) :
  counter_invariant sm ->
  let out := create_artifact now artifact_type file_format path query sm in
  counter_invariant (snd out)
  /\ _artifact_counter (snd out) = _artifact_counter sm + 1
  /\ suffix_of_id (art_id (fst out)) = Some (_artifact_counter sm + 1).
Proof.
  intros (Hd & l & Hl & Hb & Hc). cbn zeta. unfold create_artifact.
  cbn [fst snd art_id artifacts _artifact_counter suffix_of_id].
  set (c := _artifact_counter sm) in *.
  set (aid := artifact_type ++ "_" ++ PyStr.format_03d (c + 1)).
  pose proof (numeric_suffix_created artifact_type (c + 1)) as Hs. fold aid in Hs.
  assert (Hfresh : ~ In aid (Dict.keys (artifacts sm))).
  { intros Hin. destruct (comprehension_In _ _ _ _ Hl Hin) as (z & Hz & Hzl).
    rewrite Hs in Hz. injection Hz as <-. specialize (Hb _ Hzl). lia. }
  rewrite Hs. split; [| split; reflexivity].
  rewrite (DictFacts.set_fresh _ _ _ Hfresh).
  unfold counter_invariant. cbn [artifacts _artifact_counter]. split.
  - apply DictFacts.distinct_NoDup. rewrite DictFacts.keys_app. cbn [Dict.keys map fst].
    apply NoDup_app; [now apply DictFacts.distinct_NoDup | repeat constructor; intros [] |].
    intros k Hk [<- | []]. contradiction.
  - exists (l ++ [c + 1])%list. rewrite DictFacts.keys_app. cbn [Dict.keys map fst].
    split; [now apply comprehension_snoc |]. split.
    + intros z Hz. apply in_app_or in Hz as [Hz | [<- | []]]; [specialize (Hb _ Hz) |]; lia.
    + intros _. apply in_or_app. right. now left.
Qed.

(** The invariant speaks of the keys and of the counter only. *)
Lemma counter_invariant_ext (sm sm' : SessionManager) :
  Dict.keys (artifacts sm') = Dict.keys (artifacts sm) ->
  _artifact_counter sm' = _artifact_counter sm ->
  counter_invariant sm -> counter_invariant sm'.
Proof. unfold counter_invariant. intros -> ->. tauto. Qed.

Lemma comprehension_length {A B : Type} (f : A -> result B) (l : list A) (bs : list B) :
  comprehension f l = inl bs -> List.length bs = List.length l.
Proof.
  revert bs. induction l as [|a l IH]; intros bs H; simpl in H.
  - now injection H as <-.
  - unfold result_bind in H. destruct (f a); [| discriminate].
    destruct (comprehension f l) as [bs'|]; [| discriminate].
    injection H as <-. simpl. now rewrite (IH bs' eq_refl).
Qed.

(** A save followed by a load of the saved document keeps the keys and
    the counter. *)
Lemma round_trip_invariant (saved_at now : string) (filepath : Path) (fs : filesystem)
    (sm : SessionManager) :
  counter_invariant sm ->
  fst (save_session saved_at filepath sm fs) = inl tt ->
  let out := load_session now filepath (snd (save_session saved_at filepath sm fs)) sm in
  fst out = inl tt
  /\ Dict.keys (artifacts (snd out)) = Dict.keys (artifacts sm)
  /\ _artifact_counter (snd out) = _artifact_counter sm.
Proof.
  intros (Hd & l & Hl & Hb & Hc) Hs.
  destruct (SessionFacts.load_saved saved_at now filepath fs sm sm Hd Hs) as (_ & Ha & Hk).
  cbn zeta. rewrite Ha, SessionFacts.keys_reloaded.
  destruct (artifacts sm) as [|kv d] eqn:Ea.
  - tauto.
  - rewrite Hl in Hk. destruct Hk as [Hr ->]. repeat split; [exact Hr |].
    apply py_max_attained; [exact Hb |]. apply Hc.
    apply comprehension_length in Hl. destruct l; [discriminate | congruence].
Qed.

Lemma step_invariant (settings : Settings) (c : call) (sm : SessionManager)
    (fs : filesystem) :
  counter_invariant sm ->
  let out := step settings c sm fs in
  counter_invariant (snd (fst out))
  /\ match fst (fst out) with
     | Some i =>
         suffix_of_id i = Some (_artifact_counter sm + 1)
         /\ _artifact_counter (snd (fst out)) = _artifact_counter sm + 1
     | None => _artifact_counter (snd (fst out)) = _artifact_counter sm
     end.
Proof.
  intros Hinv. destruct c as [now ty ff path q | now q pl cd rs ids | now fp | sa now fp];
    cbn [step].
  - pose proof (create_artifact_invariant now ty ff path q sm Hinv) as H.
    destruct (create_artifact now ty ff path q sm) as [a sm']. cbn [fst snd] in *. tauto.
  - cbn [fst snd]. split; [| reflexivity].
    now apply (counter_invariant_ext sm).
  - cbn [fst snd]. now split.
  - pose proof (round_trip_invariant sa now fp fs sm Hinv) as H.
    destruct (save_session sa fp sm fs) as [[u|e] fs']; cbn [fst snd] in *.
    + destruct u. destruct (H eq_refl) as (_ & Hk & Hc). split; [| exact Hc].
      now apply (counter_invariant_ext sm).
    + now split.
Qed.

(** The identifiers a sequence of calls returns carry the numbers that
    follow the counter, in order. *)
Lemma run_suffixes (settings : Settings) (calls : list call) (sm : SessionManager)
    (fs : filesystem) :
  counter_invariant sm ->
  let ids := fst (fst (run settings calls sm fs)) in
  map suffix_of_id ids = map Some (zrange (_artifact_counter sm + 1) (List.length ids)).
Proof.
  revert sm fs. induction calls as [|c rest IH]; intros sm fs Hinv; [reflexivity |].
  cbn [run]. pose proof (step_invariant settings c sm fs Hinv) as H. cbn zeta in H.
  destruct (step settings c sm fs) as [[r sm'] fs']. cbn [fst snd] in H.
  destruct H as [Hinv' Hr]. specialize (IH sm' fs' Hinv'). cbn zeta in IH.
  destruct (run settings rest sm' fs') as [[ids sm''] fs'']. cbn [fst snd] in *.
  destruct r as [i|].
  - destruct Hr as [Hi Hc]. cbn [map List.length zrange]. rewrite Hi, IH, Hc. reflexivity.
  - now rewrite IH, Hr.
Qed.

Lemma zrange_lower (start : Z) (k : nat) (z : Z) : In z (zrange start k) -> start <= z.
Proof.
  revert start. induction k as [|k IH]; intros start; cbn [zrange]; [intros [] |].
  intros [<- | H]; [lia |]. specialize (IH _ H). lia.
Qed.

Lemma zrange_NoDup (start : Z) (k : nat) : NoDup (zrange start k).
Proof.
  revert start. induction k as [|k IH]; intros start; cbn [zrange]; constructor.
  - intros H. apply zrange_lower in H. lia.
  - apply IH.
Qed.


Lemma counter_invariant_keys_numeric (sm : SessionManager) :
  counter_invariant sm -> keys_numeric (artifacts sm) = true.
Proof.
  intros (_ & l & Hl & _). unfold keys_numeric. apply forallb_forall. intros k Hk.
  destruct (comprehension_In _ _ _ _ Hl Hk) as (z & Hz & _).
  unfold has_numeric_suffix. now rewrite Hz.
Qed.

(** Under the invariant [create_artifact] appends the new artifact. *)
Lemma create_artifact_appends (now artifact_type file_format : string) (path : Path)
    (query : string) (sm : SessionManager) :
  counter_invariant sm ->
  let out := create_artifact now artifact_type file_format path query sm in
  exists aid,
    artifacts (snd out) = (artifacts sm ++ [(aid, fst out)])%list
    /\ art_path (fst out) = path.
Proof.
  intros (Hd & l & Hl & Hb & Hc). cbn zeta. unfold create_artifact. cbn [fst snd artifacts].
  set (aid := artifact_type ++ "_" ++ PyStr.format_03d (_artifact_counter sm + 1)).
  exists aid. split; [| reflexivity].
  apply DictFacts.set_fresh. intros Hin.
  destruct (comprehension_In _ _ _ _ Hl Hin) as (z & Hz & Hzl).
  unfold aid in Hz. rewrite numeric_suffix_created in Hz. injection Hz as <-.
  specialize (Hb _ Hzl). lia.
Qed.

(** The managers that a sequence of calls reaches from a new one satisfy
    what the round trip asks of a manager: distinct keys, [Path] objects,
    keys with a numeric suffix. *)
Lemma run_well_formed (settings : Settings) (calls : list call) (sm : SessionManager)
    (fs : filesystem) :
  counter_invariant sm -> paths_well_formed (artifacts sm) = true ->
  forallb call_path_well_formed calls = true ->
  let sm' := snd (fst (run settings calls sm fs)) in
  counter_invariant sm' /\ paths_well_formed (artifacts sm') = true.
Proof.
  revert sm fs. induction calls as [|c rest IH]; intros sm fs Hinv Hp Hc; [now split |].
  cbn [forallb] in Hc. apply andb_true_iff in Hc as [Hc Hrest].
  cbn [run]. pose proof (step_invariant settings c sm fs Hinv) as Hstep. cbn zeta in Hstep.
  assert (Hp' : paths_well_formed (artifacts (snd (fst (step settings c sm fs)))) = true).
  { destruct c as [now ty ff path q | now q pl cd rs ids | now fp | sa now fp];
      cbn [step call_path_well_formed] in *.
    - destruct (create_artifact_appends now ty ff path q sm Hinv) as (aid & Ha & Hpath).
      destruct (create_artifact now ty ff path q sm) as [a sm1]. cbn [fst snd] in *.
      rewrite Ha. unfold paths_well_formed in *. rewrite forallb_app, Hp.
      cbn [forallb snd]. now rewrite Hpath, Hc.
    - exact Hp.
    - exact Hp.
    - destruct Hinv as [Hd _].
      pose proof (SessionFacts.load_saved sa now fp fs sm sm Hd) as Hl.
      destruct (save_session sa fp sm fs) as [[u|e] fs1]; cbn [fst snd] in *; [| exact Hp].
      destruct u. destruct (Hl eq_refl) as (_ & Ha & _). rewrite Ha.
      now rewrite SessionFacts.reloaded_artifacts_well_formed. }
  destruct (step settings c sm fs) as [[r sm1] fs1]. cbn [fst snd] in *.
  destruct Hstep as [Hinv1 _]. specialize (IH sm1 fs1 Hinv1 Hp' Hrest). cbn zeta in IH.
  destruct (run settings rest sm1 fs1) as [[ids sm2] fs2]. exact IH.
Qed.

End CounterFacts.

(** C10: one counter serves every type.  [create_artifact] adds one to it
    whatever the type is and puts it in the identifier; the numeric
    suffixes returned on a new manager are 1, 2, 3, ... in the order of
    the calls, so no two are equal; a chart and then a table are
    [chart_001] and [table_002]. *)
Theorem artifact_counter_shared :
  (forall (now artifact_type file_format : string) (path : Path) (query : string)
          (sm : SessionManager),
      let out := create_artifact now artifact_type file_format path query sm in
      _artifact_counter (snd out) = _artifact_counter sm + 1
      /\ art_id (fst out)
         = JStr (artifact_type ++ "_" ++ PyStr.format_03d (_artifact_counter sm + 1))
      /\ numeric_suffix (artifact_type ++ "_" ++ PyStr.format_03d (_artifact_counter sm + 1))
         = inl (_artifact_counter sm + 1))
  /\ (forall (settings : Settings) (calls : list call) (fs : filesystem),
        let ids := fst (fst (run settings calls init fs)) in
        map suffix_of_id ids = map Some (zrange 1 (List.length ids))
        /\ NoDup (map suffix_of_id ids))
  /\ fst (fst (run default_settings create_chart_then_table init empty_fs))
     = [JStr "chart_001"; JStr "table_002"].
Proof.
  split; [| split; [| vm_compute; reflexivity]].
  - intros. cbn zeta. unfold create_artifact. cbn [fst snd art_id _artifact_counter].
    repeat split. apply CounterFacts.numeric_suffix_created.
  - intros settings calls fs.
    pose proof (CounterFacts.run_suffixes settings calls init fs CounterFacts.init_invariant)
      as H.
    cbn zeta in *. split; [exact H |]. rewrite H.
    apply Injective_map_NoDup; [intros a b E; now injection E |].
    apply CounterFacts.zrange_NoDup.
Qed.

(** C5: a session that is saved to a path and loaded from it again has
    the interactions and the artifacts it had, every field equal, each
    path rebuilt from its string; the load returns normally when every
    key has a numeric suffix.  The hypotheses on the manager are what
    Python guarantees of a dictionary and of [Path] objects. *)
Theorem save_load_round_trip (saved_at now : string) (filepath : Path)
    (fs : filesystem) (sm sm0 : SessionManager) :
  distinct (Dict.keys (artifacts sm)) = true ->
  paths_well_formed (artifacts sm) = true ->
  fst (save_session saved_at filepath sm fs) = inl tt ->
  let out := load_session now filepath (snd (save_session saved_at filepath sm fs)) sm0 in
  interactions (snd out) = interactions sm
  /\ artifacts (snd out) = artifacts sm
  /\ map (fun kv => art_path (snd kv)) (artifacts (snd out))
     = map (fun kv => PathLib.of_string (PathLib.to_string (art_path (snd kv))))
         (artifacts sm)
  /\ (keys_numeric (artifacts sm) = true -> fst out = inl tt).
Proof.
  intros Hd Hp Hs.
  destruct (SessionFacts.load_saved saved_at now filepath fs sm sm0 Hd Hs)
    as (Hi & Ha & Hc).
  cbn zeta. split; [exact Hi |]. split.
  - rewrite Ha. now apply SessionFacts.reloaded_artifacts_well_formed.
  - split.
    + rewrite Ha. unfold reloaded_artifacts. rewrite map_map. reflexivity.
    + intros Hk. destruct (SessionFacts.keys_numeric_suffixes _ Hk) as [l El].
      rewrite El in Hc. destruct (artifacts sm); tauto.
Qed.

Lemma save_load_round_trip_witness :
  let out :=
    load_session "2024-05-02T09:00:00" sample_file
      (snd (save_session "2024-05-01T10:05:00" sample_file sample_session empty_fs)) init in
  interactions (snd out) = interactions sample_session
  /\ artifacts (snd out) = artifacts sample_session
  /\ map (fun kv => art_path (snd kv)) (artifacts (snd out))
     = map (fun kv => PathLib.of_string (PathLib.to_string (art_path (snd kv))))
         (artifacts sample_session)
  /\ (keys_numeric (artifacts sample_session) = true -> fst out = inl tt).
Proof.
  apply (save_load_round_trip "2024-05-01T10:05:00" "2024-05-02T09:00:00" sample_file
           empty_fs sample_session init); vm_compute; reflexivity.
Defined.

(** ** The counter after a load *)

(** C3, as stated, fails: a manager whose counter is 1 loads a document
    without artifacts; the load returns normally and the counter is still
    1, not 0. *)
Lemma load_counter_not_reset :
  ~ (forall (now : string) (filepath : Path) (fs : filesystem) (sm : SessionManager),
        let out := load_session now filepath fs sm in
        fst out = inl tt ->
        exists suffixes,
          comprehension numeric_suffix (Dict.keys (artifacts (snd out))) = inl suffixes
          /\ _artifact_counter (snd out) = py_max suffixes 0).
Proof.
  intros H.
  specialize (H "2024-05-02T09:00:00" sample_file (fs_with sample_file empty_document)
                sample_session eq_refl).
  destruct H as (l & Hl & Hc). vm_compute in Hl. injection Hl as <-.
  vm_compute in Hc. discriminate.
Qed.

(** C3, amended: after a load that returns normally, the counter is the
    largest numeric suffix of the loaded identifiers, hence not below any
    of them, when there is at least one; when there is none the counter
    keeps the value it had before the load. *)
Theorem load_counter (now : string) (filepath : Path) (fs : filesystem)
    (sm : SessionManager) :
  let out := load_session now filepath fs sm in
  fst out = inl tt ->
  (artifacts (snd out) = [] -> _artifact_counter (snd out) = _artifact_counter sm)
  /\ (artifacts (snd out) <> [] ->
      exists suffixes,
        comprehension numeric_suffix (Dict.keys (artifacts (snd out))) = inl suffixes
        /\ _artifact_counter (snd out) = py_max suffixes 0
        /\ forall z, In z suffixes -> z <= _artifact_counter (snd out)).
Proof.
  cbn zeta. unfold load_session.
  destruct (negb (exists_ fs (PathLib.to_string filepath))); [discriminate |].
  rewrite SessionFacts.load_session_body_split.
  destruct (read_interactions now (PathLib.to_string filepath) fs) as [[doc loaded]|e];
    [| discriminate].
  set (st := {| interactions := loaded; artifacts := artifacts sm;
                _artifact_counter := _artifact_counter sm |}).
  pose proof (SessionFacts.restore_rest_cases doc st) as H. cbn zeta in H.
  destruct (restore_rest doc st) as [[[]|e] sm']; cbn [fst snd] in *; [| discriminate].
  intros _. destruct H as (_ & [[[e He] _] | [(_ & Ha & Hc) | (_ & Ha & l & Hl & Hc)]]).
  - discriminate.
  - split; [intros _; exact Hc | congruence].
  - split; [congruence |]. intros _. exists l. repeat split; try assumption.
    intros z Hz. rewrite Hc. now apply CounterFacts.py_max_upper.
Qed.

Lemma load_counter_witness :
  let out :=
    load_session "2024-05-02T09:00:00" sample_file
      (snd (save_session "2024-05-01T10:05:00" sample_file sample_session empty_fs)) init in
  (artifacts (snd out) = [] -> _artifact_counter (snd out) = _artifact_counter init)
  /\ (artifacts (snd out) <> [] ->
      exists suffixes,
        comprehension numeric_suffix (Dict.keys (artifacts (snd out))) = inl suffixes
        /\ _artifact_counter (snd out) = py_max suffixes 0
        /\ forall z, In z suffixes -> z <= _artifact_counter (snd out)).
Proof.
  apply (load_counter "2024-05-02T09:00:00" sample_file
           (snd (save_session "2024-05-01T10:05:00" sample_file sample_session empty_fs))
           init).
  vm_compute. reflexivity.
Defined.

(** ** A load that fails *)

(** C2, as stated, fails: a document whose artifact entry is malformed
    makes the load raise after the interactions were replaced. *)
Lemma load_failure_changes_state :
  ~ (forall (now : string) (filepath : Path) (fs : filesystem) (sm : SessionManager)
            (e : exn),
        fst (load_session now filepath fs sm) = inr e ->
        snd (load_session now filepath fs sm) = sm).
Proof.
  intros H.
  specialize (H "2024-05-02T09:00:00" sample_file
                (fs_with sample_file malformed_artifact_document) sample_session).
  vm_compute in H. specialize (H _ eq_refl). discriminate.
Qed.

(** C2, amended: a load that fails raises an error that names the path
    and, past the existence check, the cause; the counter is what it was.
    The manager is exactly what it was when the file is missing or when
    the document or its interactions cannot be read; a later failure
    finds the interactions already replaced by the loaded ones. *)
Theorem load_failure (now : string) (filepath : Path) (fs : filesystem)
    (sm : SessionManager) (e : exn) :
  let p := PathLib.to_string filepath in
  let out := load_session now filepath fs sm in
  fst out = inr e ->
  _artifact_counter (snd out) = _artifact_counter sm
  /\ (exists_ fs p = false /\ e = FileNotFoundError ("Session file not found: " ++ p)
        /\ snd out = sm
      \/ exists_ fs p = true
         /\ exists c,
              e = IOError ("Failed to load or parse session file " ++ p ++ ". Error: "
                           ++ cause_text c)
              /\ (read_interactions now p fs = inr c /\ snd out = sm
                  \/ exists doc loaded,
                       read_interactions now p fs = inl (doc, loaded)
                       /\ interactions (snd out) = loaded)).
Proof.
  cbn zeta. unfold load_session.
  destruct (exists_ fs (PathLib.to_string filepath)) eqn:Ex; cbn [negb fst snd].
  - rewrite SessionFacts.load_session_body_split.
    destruct (read_interactions now (PathLib.to_string filepath) fs) as [[doc loaded]|c]
      eqn:Er.
    + set (st := {| interactions := loaded; artifacts := artifacts sm;
                    _artifact_counter := _artifact_counter sm |}).
      pose proof (SessionFacts.restore_rest_cases doc st) as H. cbn zeta in H.
      destruct (restore_rest doc st) as [[[]|c] sm']; cbn [fst snd] in *; [discriminate |].
      intros E. injection E as <-.
      destruct H as (Hi & [[_ Hc] | [(E & _) | (E & _)]]); try discriminate.
      split; [exact Hc |]. right. split; [reflexivity |]. exists c.
      split; [reflexivity |]. right. exists doc, loaded. now split.
    + cbn [fst snd]. intros E. injection E as <-. split; [reflexivity |].
      right. split; [reflexivity |]. exists c. split; [reflexivity |]. now left.
  - intros E. injection E as <-. split; [reflexivity |]. now left.
Qed.

Lemma load_failure_witness :
  let p := PathLib.to_string sample_file in
  let out :=
    load_session "2024-05-02T09:00:00" sample_file
      (fs_with sample_file malformed_artifact_document) sample_session in
  let e :=
    IOError ("Failed to load or parse session file " ++ p ++ ". Error: "
             ++ cause_text (KeyError "path")) in
  _artifact_counter (snd out) = _artifact_counter sample_session
  /\ (exists_ (fs_with sample_file malformed_artifact_document) p = false
        /\ e = FileNotFoundError ("Session file not found: " ++ p)
        /\ snd out = sample_session
      \/ exists_ (fs_with sample_file malformed_artifact_document) p = true
         /\ exists c,
              e = IOError ("Failed to load or parse session file " ++ p ++ ". Error: "
                           ++ cause_text c)
              /\ (read_interactions "2024-05-02T09:00:00" p
                    (fs_with sample_file malformed_artifact_document) = inr c
                  /\ snd out = sample_session
                  \/ exists doc loaded,
                       read_interactions "2024-05-02T09:00:00" p
                         (fs_with sample_file malformed_artifact_document)
                       = inl (doc, loaded)
                       /\ interactions (snd out) = loaded)).
Proof.
  apply (load_failure "2024-05-02T09:00:00" sample_file
           (fs_with sample_file malformed_artifact_document) sample_session).
  vm_compute. reflexivity.
Defined.

(** ** The interaction log *)

Module HistoryFacts.

Lemma length_snoc {A : Type} (l : list A) (x : A) :
  Z.of_nat (List.length (l ++ [x])) = Z.of_nat (List.length l) + 1.
Proof. rewrite length_app. simpl. lia. Qed.

(** With a positive limit the log stays within it: below the limit the
    new interaction is appended; at the limit the oldest one is dropped as
    well and the others keep their order. *)
Lemma add_interaction_within_limit (settings : Settings)
    (now query plan code result_summary : string) (artifact_ids : option (list string))
    (sm : SessionManager) :
  0 < HISTORY_LIMIT settings ->
  Z.of_nat (List.length (interactions sm)) <= HISTORY_LIMIT settings ->
  let i := new_interaction now query plan code result_summary artifact_ids in
  let after :=
    interactions
      (add_interaction settings now query plan code result_summary artifact_ids sm) in
  Z.of_nat (List.length after) <= HISTORY_LIMIT settings
  /\ (Z.of_nat (List.length (interactions sm)) < HISTORY_LIMIT settings ->
      after = (interactions sm ++ [i])%list)
  /\ (Z.of_nat (List.length (interactions sm)) = HISTORY_LIMIT settings ->
      after = (List.tl (interactions sm) ++ [i])%list).
Proof.
  intros Hpos Hlen. cbn zeta. unfold add_interaction. cbn [interactions].
  fold (new_interaction now query plan code result_summary artifact_ids).
  set (i := new_interaction now query plan code result_summary artifact_ids).
  set (L := HISTORY_LIMIT settings) in *.
  pose proof (length_snoc (interactions sm) i) as Hs.
  destruct (Z.of_nat (List.length (interactions sm ++ [i])) >? L) eqn:Hgt.
  - apply Z.gtb_lt in Hgt.
    assert (Heq : Z.of_nat (List.length (interactions sm)) = L) by lia.
    unfold slice_from.
    destruct (- L <? 0) eqn:Hneg; [| apply Z.ltb_ge in Hneg; lia].
    replace (Z.to_nat (Z.max (Z.of_nat (List.length (interactions sm ++ [i])) + - L) 0))
      with 1%nat by lia.
    destruct (interactions sm) as [|x l] eqn:El.
    + simpl in Heq. lia.
    + change (skipn 1 ((x :: l) ++ [i])%list) with (l ++ [i])%list.
      cbn [List.tl]. split; [| split; [lia | reflexivity]].
      rewrite length_snoc. cbn [List.length] in Heq. lia.
  - assert (Hle : ~ Z.of_nat (List.length (interactions sm ++ [i])) > L).
    { intros Hc. apply Z.gtb_gt in Hc. congruence. }
    split; [lia |]. split; [reflexivity | lia].
Qed.

(** With the limit 0 nothing is ever dropped. *)
Lemma add_interaction_limit_zero (settings : Settings)
    (now query plan code result_summary : string) (artifact_ids : option (list string))
    (sm : SessionManager) :
  HISTORY_LIMIT settings = 0 ->
  interactions (add_interaction settings now query plan code result_summary artifact_ids sm)
  = (interactions sm
     ++ [new_interaction now query plan code result_summary artifact_ids])%list.
Proof.
  intros H0. unfold add_interaction. cbn [interactions]. rewrite H0.
  fold (new_interaction now query plan code result_summary artifact_ids).
  unfold slice_from. cbn [Z.opp Z.ltb Z.compare Z.to_nat skipn].
  now destruct (_ >? 0).
Qed.

(** However many interactions are added to a new manager, the log stays
    within a positive limit. *)
Lemma history_within_limit (settings : Settings) (calls : list call) (fs : filesystem)
    (sm : SessionManager) :
  0 < HISTORY_LIMIT settings ->
  Forall (fun c => match c with AddInteraction _ _ _ _ _ _ => True | _ => False end) calls ->
  Z.of_nat (List.length (interactions sm)) <= HISTORY_LIMIT settings ->
  Z.of_nat (List.length (interactions (snd (fst (run settings calls sm fs)))))
  <= HISTORY_LIMIT settings.
Proof.
  intros Hpos Hall. revert sm fs. induction Hall as [|c rest Hc _ IH]; intros sm fs Hlen.
  - exact Hlen.
  - destruct c as [| now q pl cd rs ids | |]; try contradiction.
    cbn [run step].
    destruct (add_interaction_within_limit settings now q pl cd rs ids sm Hpos Hlen)
      as [Hafter _].
    specialize (IH (add_interaction settings now q pl cd rs ids sm) fs Hafter).
    destruct (run settings rest (add_interaction settings now q pl cd rs ids sm) fs)
      as [[ids' sm'] fs'].
    exact IH.
Qed.

End HistoryFacts.

(** C7 on the code: with [HISTORY_LIMIT] set to 0 the first interaction
    added to a new manager stays in the log, which then holds one entry,
    more than the limit; [interactions[-0:]] is the whole list.  With any
    positive limit the log stays within the limit
    ([HistoryFacts.add_interaction_within_limit]). *)
Theorem history_limit_zero_keeps_everything :
  let settings := settings_with_limit 0 in
  let sm := add_interaction settings "2024-05-01T10:00:00" "q" "p" "c" "r" None init in
  List.length (interactions sm) = 1%nat
  /\ Z.of_nat (List.length (interactions sm)) > HISTORY_LIMIT settings
  /\ forall now query plan code result_summary artifact_ids sm',
       List.length
         (interactions
            (add_interaction settings now query plan code result_summary artifact_ids sm'))
       = S (List.length (interactions sm')).
Proof.
  cbn zeta. split; [reflexivity |]. split; [reflexivity |].
  intros. rewrite HistoryFacts.add_interaction_limit_zero by reflexivity.
  rewrite length_app. simpl. lia.
Qed.

(** ** The executor *)

Module ExecutorFacts.

Lemma execute_unfold (self : CodeExecutor) (settings : Settings) (w : world)
    (code : string) (data_files : Dict.t Path) (session_output_dir : Path) :
  execute self settings w code data_files session_output_dir
  = match setup_error w data_files with
    | Some reason => inr reason
    | None =>
        match subprocess_run (backend_timeout self settings) (child self w code) with
        | CompletedProcess returncode out err produced =>
            match _collect_output_files w produced (output_area w) session_output_dir with
            | inl files =>
                inl {| success := returncode =? 0; stdout := out; stderr := err;
                       output_files := files; error := None |}
            | inr e =>
                inl {| success := false; stdout := ""; stderr := ""; output_files := [];
                       error := Some (failure_message self e) |}
            end
        | TimeoutExpired =>
            inl {| success := false; stdout := ""; stderr := ""; output_files := [];
                   error := Some (timeout_message self settings) |}
        | Raised e =>
            inl {| success := false; stdout := ""; stderr := ""; output_files := [];
                   error := Some (failure_message self e) |}
        | CompletedUnlistable _ _ _ e =>
            inl {| success := false; stdout := ""; stderr := ""; output_files := [];
                   error := Some (failure_message self e) |}
        end
    end.
Proof.
  unfold execute, child, backend_timeout, timeout_message, timeout_prefix, failure_message,
    output_area, _execute_docker, _execute_subprocess.
  destruct (use_docker self); reflexivity.
Qed.

(** The two descriptions of a backend differ in their text before the
    variable part. *)
Lemma timeout_message_distinct (self : CodeExecutor) (settings : Settings)
    (reason : string) :
  timeout_message self settings <> failure_message self reason.
Proof.
  unfold timeout_message, timeout_prefix, failure_message.
  destruct (use_docker self); cbn [append]; intros H; discriminate H.
Qed.

(** The local process is stopped as soon as the script outlasts the
    configured timeout. *)
Lemma subprocess_script_timeout (settings : Settings) (w : world) (code : string)
    (seconds returncode : Z) (out err : string) (produced : list dir_entry) :
  script_behaviour local_executor w code = Exits seconds returncode out err produced ->
  CODE_EXECUTION_TIMEOUT settings < seconds ->
  subprocess_run (backend_timeout local_executor settings) (child local_executor w code)
  = TimeoutExpired.
Proof.
  unfold script_behaviour, child, backend_timeout. cbn [use_docker local_executor].
  intros -> H. cbn [subprocess_run]. apply Z.ltb_lt in H. now rewrite H.
Qed.

End ExecutorFacts.

(** C4, as stated, fails for the container: with the default timeout of
    60 seconds, a script that runs for 70 seconds after an installation of
    5 seconds ends within the 90 seconds the container is given, and its
    result is a success with its output file. *)
Lemma slow_script_in_container_succeeds :
  ~ (forall (self : CodeExecutor) (settings : Settings) (w : world) (code : string)
            (data_files : Dict.t Path) (session_output_dir : Path)
            (seconds returncode : Z) (out err : string) (produced : list dir_entry),
        setup_error w data_files = None ->
        script_behaviour self w code = Exits seconds returncode out err produced ->
        CODE_EXECUTION_TIMEOUT settings < seconds ->
        exists message,
          execute self settings w code data_files session_output_dir
          = inl {| success := false; stdout := ""; stderr := ""; output_files := [];
                   error := Some message |}).
Proof.
  intros H.
  destruct (H docker_executor default_settings (quiet_world 70 [table_csv])
              "import pandas" [] sample_output_dir 70 0 "" "" [table_csv]
              eq_refl eq_refl eq_refl) as [message Hm].
  vm_compute in Hm. discriminate Hm.
Qed.

(** C4, amended: when the child outlasts what its backend grants (the
    configured timeout for the local process; 30 seconds more, the
    installation included, for the container), [execute] returns a failure
    without output files and without captured output, whose error is the
    timeout description of the backend; it ends in the configured duration
    and differs from every other error description. *)
Theorem timeout_result (self : CodeExecutor) (settings : Settings) (w : world)
    (code : string) (data_files : Dict.t Path) (session_output_dir : Path) :
  setup_error w data_files = None ->
  subprocess_run (backend_timeout self settings) (child self w code) = TimeoutExpired ->
  execute self settings w code data_files session_output_dir
  = inl {| success := false; stdout := ""; stderr := ""; output_files := [];
           error := Some (timeout_message self settings) |}
  /\ timeout_message self settings
     = timeout_prefix self ++ PyStr.str_int (CODE_EXECUTION_TIMEOUT settings) ++ "s"
  /\ forall reason, timeout_message self settings <> failure_message self reason.
Proof.
  intros Hs Ht. rewrite ExecutorFacts.execute_unfold, Hs, Ht.
  split; [reflexivity |]. split; [reflexivity |].
  intros reason. apply ExecutorFacts.timeout_message_distinct.
Qed.

Lemma timeout_result_witness :
  execute local_executor default_settings (quiet_world 61 [table_csv]) "import pandas" []
    sample_output_dir
  = inl {| success := false; stdout := ""; stderr := ""; output_files := [];
           error := Some (timeout_message local_executor default_settings) |}
  /\ timeout_message local_executor default_settings
     = timeout_prefix local_executor
       ++ PyStr.str_int (CODE_EXECUTION_TIMEOUT default_settings) ++ "s"
  /\ forall reason,
       timeout_message local_executor default_settings
       <> failure_message local_executor reason.
Proof.
  apply (timeout_result local_executor default_settings (quiet_world 61 [table_csv])
           "import pandas" [] sample_output_dir); reflexivity.
Defined.

(** A script that ends with status 0 after writing a byte that is not
    UTF-8 text: [subprocess.run] raises when it decodes the output, and
    the result is a failure with an error description. *)
Example undecodable_output_is_an_error :
  execute local_executor default_settings garbling_world "import sys" [] sample_output_dir
  = inl {| success := false; stdout := ""; stderr := ""; output_files := [];
           error := Some ("Subprocess execution error: "
                          ++ "'utf-8' codec can't decode byte 0xff in position 0: "
                          ++ "invalid start byte") |}.
Proof. reflexivity. Qed.




(** ** The classification of output files *)

Module CollectorFacts.

(** A file name is one component of a path. *)
Lemma of_string_part (nm : string) :
  PathLib.part_ok nm = true ->
  PathLib.of_string nm = {| PathLib.anchor := PathLib.Relative; PathLib.parts := [nm] |}.
Proof.
  intros H. destruct (PathFacts.part_ok_spec _ H) as (Hk & Hm & Hne).
  unfold PathLib.of_string. rewrite (StrFacts.split_no_sep _ _ Hm).
  cbn [filter]. rewrite Hk. f_equal.
  unfold PathLib.splitroot. destruct nm as [|c t]; [congruence |].
  cbn [PyStr.mem] in Hm. apply orb_false_iff in Hm as [Hc _].
  now rewrite PathFacts.leading_slashes_other.
Qed.

(** [(d / nm).name == nm] *)
Lemma name_joinpath (d : Path) (nm : string) :
  PathLib.part_ok nm = true -> PathLib.name (PathLib.joinpath d nm) = nm.
Proof.
  intros H. unfold PathLib.joinpath, PathLib.name. rewrite (of_string_part _ H).
  cbn [PathLib.anchor PathLib.parts]. now rewrite last_last.
Qed.

(** The table of the collector, case by case. *)
Lemma type_map_lookup (ext : string) :
  match Dict.get ext type_map with
  | Some t => t
  | None => "file"
  end = classify_by_extension ext.
Proof.
  unfold classify_by_extension, type_map. cbn [Dict.get].
  rewrite (String.eqb_sym ".png"), (String.eqb_sym ".jpg"), (String.eqb_sym ".csv"),
    (String.eqb_sym ".xlsx").
  destruct (String.eqb ext ".png"); [reflexivity |].
  destruct (String.eqb ext ".jpg"); [reflexivity |].
  destruct (String.eqb ext ".csv"); [reflexivity |].
  destruct (String.eqb ext ".xlsx"); reflexivity.
Qed.

Lemma file_type_of_lower (file_path : Path) :
  file_type_of file_path
  = classify_by_extension (PyStr.lower (PathLib.suffix file_path)).
Proof. unfold file_type_of. apply type_map_lookup. Qed.

End CollectorFacts.

(** C8, as stated, fails: [chart.PNG] has the extension [.PNG], which is
    none of the four of the table, and is recorded as a chart, not as a
    file. *)
Lemma upper_case_extension_is_chart :
  ~ (forall (w : world) (source_dir dest_dir : Path) (e : dir_entry),
        is_file e = true ->
        PathLib.part_ok (entry_name e) = true ->
        move_error w (entry_name e) = None ->
        _collect_output_files w [e] source_dir dest_dir
        = inl [(classify_by_extension (PathLib.suffix_of_name (entry_name e)),
                PathLib.joinpath dest_dir (entry_name e))]).
Proof.
  intros H.
  specialize (H (quiet_world 1 [chart_upper]) (output_area (quiet_world 1 [chart_upper]))
                sample_output_dir chart_upper eq_refl eq_refl eq_refl).
  vm_compute in H. discriminate H.
Qed.

(** C8, amended: the collector records a file under a classification that
    is a function of its extension in lower case and of nothing else:
    [.png] and [.jpg] give [chart], [.csv] and [.xlsx] give [table], any
    other lower-cased extension gives [file]. *)
Theorem classification_by_extension (w : world) (source_dir dest_dir : Path)
    (e : dir_entry) (rest : list dir_entry) (output_files : Dict.t Path) :
  is_file e = true ->
  PathLib.part_ok (entry_name e) = true ->
  let ext := PyStr.lower (PathLib.suffix_of_name (entry_name e)) in
  file_type_of (PathLib.joinpath source_dir (entry_name e)) = classify_by_extension ext
  /\ collect_loop w source_dir dest_dir (e :: rest) output_files
     = match move_error w (entry_name e) with
       | Some reason => inr reason
       | None =>
           collect_loop w source_dir dest_dir rest
             (Dict.set (classify_by_extension ext)
                (PathLib.joinpath dest_dir (entry_name e)) output_files)
       end.
Proof.
  intros Hf Hn. cbn zeta.
  assert (Ht : file_type_of (PathLib.joinpath source_dir (entry_name e))
               = classify_by_extension
                   (PyStr.lower (PathLib.suffix_of_name (entry_name e)))).
  { rewrite CollectorFacts.file_type_of_lower. unfold PathLib.suffix.
    now rewrite CollectorFacts.name_joinpath. }
  split; [exact Ht |].
  cbn [collect_loop]. rewrite Hf, Ht, (CollectorFacts.name_joinpath _ _ Hn).
  reflexivity.
Qed.

Lemma classification_by_extension_witness :
  let w := quiet_world 1 [chart_upper] in
  let ext := PyStr.lower (PathLib.suffix_of_name (entry_name chart_upper)) in
  file_type_of (PathLib.joinpath (output_area w) (entry_name chart_upper))
  = classify_by_extension ext
  /\ collect_loop w (output_area w) sample_output_dir [chart_upper] []
     = match move_error w (entry_name chart_upper) with
       | Some reason => inr reason
       | None =>
           collect_loop w (output_area w) sample_output_dir []
             (Dict.set (classify_by_extension ext)
                (PathLib.joinpath sample_output_dir (entry_name chart_upper)) [])
       end.
Proof.
  apply (classification_by_extension (quiet_world 1 [chart_upper])
           (output_area (quiet_world 1 [chart_upper])) sample_output_dir chart_upper [] []);
    reflexivity.
Defined.

(** ** The rewriting of placeholder paths *)

Module ReplaceFacts.
Import PyStr.

Lemma prefix_nil (s : string) : String.prefix "" s = true.
Proof. destruct s; reflexivity. Qed.

Lemma prefix_empty (a : ascii) (k : string) : String.prefix (String a k) "" = false.
Proof. reflexivity. Qed.

Lemma prefix_cons_eq (a : ascii) (k s : string) :
  String.prefix (String a k) (String a s) = String.prefix k s.
Proof. cbn [String.prefix]. destruct (ascii_dec a a); [reflexivity | congruence]. Qed.

Lemma prefix_cons_ne (a b : ascii) (k s : string) :
  a <> b -> String.prefix (String a k) (String b s) = false.
Proof. intros H. cbn [String.prefix]. destruct (ascii_dec a b); [contradiction | reflexivity]. Qed.

(** A string that starts with [a] is [a] and the rest. *)
Lemma prefix_split (a s : string) :
  String.prefix a s = true -> s = a ++ drop (String.length a) s.
Proof.
  revert s. induction a as [|x a IH]; intros s H; [reflexivity |].
  destruct s as [|y s]; [discriminate |].
  destruct (ascii_dec x y) as [<- | Hne].
  - rewrite prefix_cons_eq in H. cbn [append String.length drop]. f_equal. now apply IH.
  - now rewrite prefix_cons_ne in H.
Qed.

Lemma drop_append (a s : string) : drop (String.length a) (a ++ s) = s.
Proof. induction a as [|x a IH]; [reflexivity | exact IH]. Qed.

Lemma length_drop (n : nat) (s : string) :
  (String.length (drop n s) <= String.length s)%nat.
Proof.
  revert s. induction n as [|n IH]; intros s; [reflexivity |].
  destruct s as [|c t]; [reflexivity |]. cbn [drop String.length].
  specialize (IH t). lia.
Qed.

Lemma diverges_prefix (a b y : string) :
  diverges a b = true -> String.prefix a (b ++ y) = false.
Proof.
  revert b. induction a as [|x a IH]; intros b H; [discriminate |].
  destruct b as [|z b]; [discriminate |]. cbn [diverges] in H. cbn [append].
  destruct (Ascii.eqb x z) eqn:E.
  - apply Ascii.eqb_eq in E. subst. rewrite prefix_cons_eq. now apply IH.
  - apply Ascii.eqb_neq in E. now apply prefix_cons_ne.
Qed.

(** *** [replace] *)

Lemma replace_from_skip (old new : string) (k : nat) (s : string) :
  replace_from old new k s = replace_from old new O (drop k s).
Proof.
  revert s. induction k as [|k IH]; intros s; [reflexivity |].
  destruct s as [|c t]; [reflexivity |]. cbn [replace_from drop]. apply IH.
Qed.

Lemma replace_match (q : ascii) (root new s : string) :
  startswith (String q root) s = true ->
  replace (String q root) new s
  = new ++ replace (String q root) new (drop (S (String.length root)) s).
Proof.
  intros H. destruct s as [|c t]; [discriminate |].
  unfold replace. cbn [replace_from]. rewrite H. cbn [String.length Nat.pred drop].
  now rewrite replace_from_skip.
Qed.

Lemma replace_head (old new : string) (c : ascii) (t : string) :
  startswith old (String c t) = false ->
  replace old new (String c t) = String c (replace old new t).
Proof. intros H. unfold replace. cbn [replace_from]. now rewrite H. Qed.

Lemma replace_other_head (q c : ascii) (root new t : string) :
  q <> c ->
  replace (String q root) new (String c t) = String c (replace (String q root) new t).
Proof. intros H. apply replace_head. now apply prefix_cons_ne. Qed.

(** No occurrence starts inside a stretch without the first character of
    the pattern. *)
Lemma replace_stretch (q : ascii) (root new u x : string) :
  mem q u = false ->
  replace (String q root) new (u ++ x) = u ++ replace (String q root) new x.
Proof.
  induction u as [|c u IH]; intros H; [reflexivity |].
  cbn [mem] in H. apply orb_false_iff in H as [Hc Hu]. apply Ascii.eqb_neq in Hc.
  cbn [append]. rewrite replace_other_head by congruence. now rewrite IH.
Qed.

Lemma replace_nothing (q : ascii) (root new u : string) :
  mem q u = false -> replace (String q root) new u = u.
Proof.
  intros H. rewrite <- (StrFacts.append_nil_r u) at 1.
  rewrite replace_stretch by exact H. cbn. apply StrFacts.append_nil_r.
Qed.

(** Whether the result starts with [k] is decided by the text replaced,
    when [k] holds neither the first character of the pattern nor that of
    the replacement. *)
Lemma startswith_replace (q r0 : ascii) (root new' k t : string) :
  mem q k = false -> mem r0 k = false ->
  startswith k (replace (String q root) (String r0 new') t) = startswith k t.
Proof.
  unfold startswith. revert t. induction k as [|a k IH]; intros t Hq Hr.
  - now rewrite !prefix_nil.
  - cbn [mem] in Hq, Hr.
    apply orb_false_iff in Hq as [Hq Hqk]. apply orb_false_iff in Hr as [Hr Hrk].
    apply Ascii.eqb_neq in Hq, Hr.
    destruct t as [|c t]; [reflexivity |].
    destruct (startswith (String q root) (String c t)) eqn:Hm.
    + assert (c = q) as ->.
      { destruct (ascii_dec q c) as [E | E]; [now symmetry |].
        unfold startswith in Hm. now rewrite prefix_cons_ne in Hm. }
      rewrite replace_match by exact Hm. cbn [append].
      now rewrite !prefix_cons_ne by congruence.
    + rewrite replace_head by exact Hm.
      destruct (ascii_dec a c) as [<- | Hne].
      * rewrite !prefix_cons_eq. now apply IH.
      * now rewrite !prefix_cons_ne.
Qed.

End ReplaceFacts.

Module RewriteFacts.
Import PyStr.

Lemma is_quote_cases (c : ascii) :
  is_quote c = true -> c = single_quote \/ c = double_quote.
Proof.
  unfold is_quote. intros H. apply orb_true_iff in H as [H | H];
    apply Ascii.eqb_eq in H; auto.
Qed.

Lemma not_quote_ne (c : ascii) :
  is_quote c = false -> single_quote <> c /\ double_quote <> c.
Proof.
  unfold is_quote. intros H. apply orb_false_iff in H as [H1 H2].
  apply Ascii.eqb_neq in H1, H2. split; congruence.
Qed.

Lemma quote_free_mem (q : ascii) (s : string) :
  is_quote q = true -> quote_free s = true -> mem q s = false.
Proof.
  intros Hq H. apply StrFacts.mem_false_all.
  eapply StrFacts.all_impl; [| exact H]. intros c Hc. cbn beta in Hc.
  apply negb_true_iff in Hc. apply negb_true_iff. apply Ascii.eqb_neq.
  intros ->. congruence.
Qed.

(** *** One pass *)

Lemma pass_empty (q : ascii) (root dir : string) : pass q root dir "" = "".
Proof. reflexivity. Qed.

Lemma pass_other (q c : ascii) (root dir t : string) :
  q <> c -> pass q root dir (String c t) = String c (pass q root dir t).
Proof. intros H. unfold pass. now apply ReplaceFacts.replace_other_head. Qed.

Lemma pass_stretch (q : ascii) (root dir u x : string) :
  mem q u = false -> pass q root dir (u ++ x) = u ++ pass q root dir x.
Proof. intros H. unfold pass. now apply ReplaceFacts.replace_stretch. Qed.

Lemma pass_match (q : ascii) (root dir t : string) :
  pass q root dir (String q (root ++ t)) = replacement q dir ++ pass q root dir t.
Proof.
  unfold pass. rewrite ReplaceFacts.replace_match.
  - cbn [drop]. now rewrite ReplaceFacts.drop_append.
  - unfold startswith. rewrite ReplaceFacts.prefix_cons_eq.
    induction root as [|a k IH]; cbn [append].
    + apply ReplaceFacts.prefix_nil.
    + now rewrite ReplaceFacts.prefix_cons_eq.
Qed.

Lemma pass_no_match (q : ascii) (root dir t : string) :
  startswith root t = false ->
  pass q root dir (String q t) = String q (pass q root dir t).
Proof.
  intros H. unfold pass. apply ReplaceFacts.replace_head.
  unfold startswith in *. now rewrite ReplaceFacts.prefix_cons_eq.
Qed.

Lemma startswith_pass (q : ascii) (root dir k t : string) :
  mem q k = false -> mem "r" k = false ->
  startswith k (pass q root dir t) = startswith k t.
Proof. intros Hq Hr. unfold pass. now apply ReplaceFacts.startswith_replace. Qed.

(** A pass for the other quote steps over a replacement. *)
Lemma pass_over_other (q q' : ascii) (root dir dir' x : string) :
  is_quote q' = true -> q' <> q -> quote_free dir' = true ->
  pass q' root dir (replacement q dir' ++ x) = replacement q dir' ++ pass q' root dir x.
Proof.
  intros Hq' Hne Hd. apply pass_stretch. unfold replacement. cbn [mem].
  rewrite StrFacts.mem_append, (quote_free_mem _ _ Hq' Hd).
  apply Ascii.eqb_neq in Hne. rewrite Ascii.eqb_sym in Hne. rewrite Hne.
  destruct (is_quote_cases _ Hq') as [-> | ->]; reflexivity.
Qed.

(** A pass for the same quote steps over a replacement whose area
    diverges from its placeholder. *)
Lemma pass_over_same (q : ascii) (root dir dir' x : string) :
  is_quote q = true -> quote_free dir' = true -> diverges root (dir' ++ "/") = true ->
  pass q root dir (replacement q dir' ++ x) = replacement q dir' ++ pass q root dir x.
Proof.
  intros Hq Hd Hv. unfold replacement. cbn [append].
  rewrite pass_other
    by (destruct (is_quote_cases _ Hq) as [-> | ->]; discriminate).
  rewrite pass_no_match by (apply ReplaceFacts.diverges_prefix, Hv).
  rewrite pass_stretch; [reflexivity |].
  rewrite StrFacts.mem_append, (quote_free_mem _ _ Hq Hd).
  destruct (is_quote_cases _ Hq) as [-> | ->]; reflexivity.
Qed.

(** *** The four passes together *)

Section FourPasses.
Variables D O : string.
Hypothesis D_quote_free : quote_free D = true.
Hypothesis O_quote_free : quote_free O = true.
Hypothesis D_diverges : diverges "/output/" (D ++ "/") = true.

Lemma sq_quote : is_quote single_quote = true.
Proof. reflexivity. Qed.

Lemma dq_quote : is_quote double_quote = true.
Proof. reflexivity. Qed.

Lemma sq_dq : single_quote <> double_quote.
Proof. discriminate. Qed.

Lemma dq_sq : double_quote <> single_quote.
Proof. discriminate. Qed.

Lemma cons_append (c : ascii) (a b : string) : String c a ++ b = String c (a ++ b).
Proof. reflexivity. Qed.

Lemma four_passes_empty : four_passes D O "" = "".
Proof. reflexivity. Qed.

(** A character that is no quote is copied. *)
Lemma four_passes_copy (c : ascii) (t : string) :
  is_quote c = false -> four_passes D O (String c t) = String c (four_passes D O t).
Proof.
  intros H. destruct (not_quote_ne _ H) as [Hs Hd]. unfold four_passes.
  now rewrite (pass_other single_quote c "/data/") , (pass_other double_quote c "/data/"),
    (pass_other single_quote c "/output/"), (pass_other double_quote c "/output/").
Qed.

(** A quote before [/data/]. *)
Lemma four_passes_data (q : ascii) (t : string) :
  is_quote q = true ->
  four_passes D O (String q ("/data/" ++ t)) = replacement q D ++ four_passes D O t.
Proof.
  intros Hq. unfold four_passes. destruct (is_quote_cases _ Hq) as [-> | ->].
  - rewrite pass_match.
    rewrite (pass_over_other single_quote double_quote) by auto using dq_quote, dq_sq.
    rewrite (pass_over_same single_quote) by auto using sq_quote.
    rewrite (pass_over_other single_quote double_quote) by auto using dq_quote, dq_sq.
    reflexivity.
  - rewrite <- (cons_append double_quote "/data/" t).
    rewrite (pass_stretch single_quote) by reflexivity.
    rewrite cons_append, pass_match.
    rewrite (pass_over_other double_quote single_quote) by auto using sq_quote, sq_dq.
    rewrite (pass_over_same double_quote) by auto using dq_quote.
    reflexivity.
Qed.

(** A quote before [/output/]. *)
Lemma four_passes_output (q : ascii) (t : string) :
  is_quote q = true ->
  four_passes D O (String q ("/output/" ++ t)) = replacement q O ++ four_passes D O t.
Proof.
  intros Hq. unfold four_passes. destruct (is_quote_cases _ Hq) as [-> | ->].
  - rewrite (pass_no_match single_quote "/data/") by reflexivity.
    rewrite (pass_stretch single_quote "/data/" D "/output/") by reflexivity.
    rewrite <- (cons_append single_quote "/output/").
    rewrite (pass_stretch double_quote) by reflexivity.
    rewrite cons_append, pass_match.
    rewrite (pass_over_other single_quote double_quote) by auto using dq_quote, dq_sq.
    reflexivity.
  - rewrite <- (cons_append double_quote "/output/" t).
    rewrite (pass_stretch single_quote) by reflexivity.
    rewrite cons_append.
    rewrite (pass_no_match double_quote "/data/") by reflexivity.
    rewrite (pass_stretch double_quote "/data/" D "/output/") by reflexivity.
    rewrite <- (cons_append double_quote "/output/").
    rewrite (pass_stretch single_quote) by reflexivity.
    rewrite cons_append, pass_match. reflexivity.
Qed.

(** A quote before anything else is copied. *)
Lemma four_passes_quote (q : ascii) (t : string) :
  is_quote q = true ->
  startswith "/data/" t = false -> startswith "/output/" t = false ->
  four_passes D O (String q t) = String q (four_passes D O t).
Proof.
  intros Hq Hd Ho. unfold four_passes. destruct (is_quote_cases _ Hq) as [-> | ->].
  - rewrite (pass_no_match single_quote "/data/") by exact Hd.
    rewrite (pass_other double_quote single_quote) by discriminate.
    rewrite (pass_no_match single_quote "/output/")
      by (now rewrite !startswith_pass by reflexivity).
    rewrite (pass_other double_quote single_quote) by discriminate.
    reflexivity.
  - rewrite (pass_other single_quote double_quote) by discriminate.
    rewrite (pass_no_match double_quote "/data/")
      by (now rewrite !startswith_pass by reflexivity).
    rewrite (pass_other single_quote double_quote) by discriminate.
    rewrite (pass_no_match double_quote "/output/")
      by (now rewrite !startswith_pass by reflexivity).
    reflexivity.
Qed.

Lemma rewrite_quoted_skip (k : nat) (s : string) :
  rewrite_quoted D O k s = rewrite_quoted D O 0 (drop k s).
Proof.
  revert s. induction k as [|k IH]; intros s; [reflexivity |].
  destruct s as [|c t]; [reflexivity |]. cbn [rewrite_quoted drop]. apply IH.
Qed.

(** The four calls, one after the other, are the single pass. *)
Lemma four_passes_rewrite_quoted (n : nat) (code : string) :
  (String.length code <= n)%nat -> four_passes D O code = rewrite_quoted D O 0 code.
Proof.
  revert code. induction n as [|n IH]; intros code Hlen.
  - destruct code; [reflexivity | cbn in Hlen; lia].
  - destruct code as [|c t]; [reflexivity |]. cbn [String.length] in Hlen.
    cbn [rewrite_quoted]. destruct (is_quote c) eqn:Hq.
    + destruct (startswith "/data/" t) eqn:Hd.
      * rewrite (ReplaceFacts.prefix_split _ _ Hd) at 1.
        rewrite four_passes_data by exact Hq.
        rewrite rewrite_quoted_skip.
        rewrite IH by (pose proof (ReplaceFacts.length_drop 6 t); cbn [String.length]; lia).
        unfold replacement. cbn [append]. now rewrite StrFacts.append_assoc.
      * destruct (startswith "/output/" t) eqn:Ho.
        -- rewrite (ReplaceFacts.prefix_split _ _ Ho) at 1.
           rewrite four_passes_output by exact Hq.
           rewrite rewrite_quoted_skip.
           rewrite IH
             by (pose proof (ReplaceFacts.length_drop 8 t); cbn [String.length]; lia).
           unfold replacement. cbn [append]. now rewrite StrFacts.append_assoc.
        -- rewrite four_passes_quote by assumption. rewrite IH by lia. reflexivity.
    + rewrite four_passes_copy by exact Hq. rewrite IH by lia. reflexivity.
Qed.

End FourPasses.

(** A script without any quote is left as it is, whatever the areas are. *)
Lemma four_passes_no_quote (D O code : string) :
  quote_free code = true -> four_passes D O code = code.
Proof.
  intros H. unfold four_passes, pass.
  rewrite (ReplaceFacts.replace_nothing single_quote "/data/" _ code)
    by (apply quote_free_mem; [reflexivity | exact H]).
  rewrite (ReplaceFacts.replace_nothing double_quote "/data/" _ code)
    by (apply quote_free_mem; [reflexivity | exact H]).
  rewrite (ReplaceFacts.replace_nothing single_quote "/output/" _ code)
    by (apply quote_free_mem; [reflexivity | exact H]).
  now rewrite (ReplaceFacts.replace_nothing double_quote "/output/" _ code)
    by (apply quote_free_mem; [reflexivity | exact H]).
Qed.

Lemma prepare_four_passes (code : string) (data_dir output_dir : Path) :
  _prepare_code_for_local_execution code data_dir output_dir
  = four_passes (PathLib.to_string data_dir) (PathLib.to_string output_dir) code.
Proof. reflexivity. Qed.

End RewriteFacts.

(** C9, as stated, fails: [/data/] occurs in the script that lists the
    input area, after a blank and not after a quote; the local-process
    backend writes that script as it is, and the path of the input area
    occurs nowhere in it. *)
Lemma unquoted_placeholder_is_kept :
  ~ (forall (w : world) (code : string),
        PyStr.contains "/data/" code = true ->
        PyStr.contains (data_area_text w ++ "/") (subprocess_script w code) = true).
Proof.
  intros H. specialize (H (quiet_world 1 []) listing_script eq_refl).
  vm_compute in H. discriminate H.
Qed.

(** C9, amended: for every script text the local-process backend writes
    the text read once from the left in which every [/data/] or [/output/]
    that directly follows a single or a double quote has become the path
    of the real input or output area and a slash, with an [r] before the
    quote, and in which everything else stands as it was; a text without
    quotes is written unchanged.  This holds when the paths of the two
    areas hold no quote and the input area does not begin with
    [/output/].  The container backend writes the text unchanged and
    mounts the temporary directory as [/workspace]. *)
Theorem placeholder_rewriting (settings : Settings) (w : world) (code : string) :
  quote_free (data_area_text w) = true ->
  quote_free (output_area_text w) = true ->
  diverges "/output/" (data_area_text w ++ "/") = true ->
  let rewritten := rewrite_quoted (data_area_text w) (output_area_text w) 0 code in
  subprocess_script w code = rewritten
  /\ script_behaviour local_executor w code = python w rewritten
  /\ (quote_free code = true -> subprocess_script w code = code)
  /\ docker_script w code = code
  /\ script_behaviour docker_executor w code = container_python w code
  /\ In (PathLib.to_string (temp_dir w) ++ ":/workspace") (docker_cmd settings (temp_dir w)).
Proof.
  intros HD HO Hv. cbn zeta.
  assert (Hr : subprocess_script w code
               = rewrite_quoted (data_area_text w) (output_area_text w) 0 code).
  { unfold subprocess_script. rewrite RewriteFacts.prepare_four_passes.
    fold (data_area_text w). fold (output_area_text w).
    now apply (RewriteFacts.four_passes_rewrite_quoted _ _ HD HO Hv (String.length code)). }
  split; [exact Hr |]. split; [| split; [| split; [| split]]].
  - unfold script_behaviour. cbn [use_docker local_executor]. now rewrite Hr.
  - unfold subprocess_script. rewrite RewriteFacts.prepare_four_passes.
    apply RewriteFacts.four_passes_no_quote.
  - reflexivity.
  - reflexivity.
  - unfold docker_cmd. cbn [In]. tauto.
Qed.

Lemma placeholder_rewriting_witness :
  let w := quiet_world 1 [] in
  let rewritten := rewrite_quoted (data_area_text w) (output_area_text w) 0 table_script in
  subprocess_script w table_script = rewritten
  /\ script_behaviour local_executor w table_script = python w rewritten
  /\ (quote_free table_script = true -> subprocess_script w table_script = table_script)
  /\ docker_script w table_script = table_script
  /\ script_behaviour docker_executor w table_script = container_python w table_script
  /\ In (PathLib.to_string (temp_dir w) ++ ":/workspace")
       (docker_cmd default_settings (temp_dir w)).
Proof.
  apply (placeholder_rewriting default_settings (quiet_world 1 []) table_script);
    reflexivity.
Defined.

(** * Further properties of the session manager *)

Module DictMore.
Section DictMore.
Context {V : Type}.

(** [d[k] = v] and then [d[k]] *)
Lemma get_set_eq (k : string) (v : V) (d : Dict.t V) :
  Dict.get k (Dict.set k v d) = Some v.
Proof.
  induction d as [|[k' v'] r IH]; cbn [Dict.set Dict.get].
  - now rewrite String.eqb_refl.
  - destruct (String.eqb k' k) eqn:E; cbn [Dict.get].
    + now rewrite String.eqb_refl.
    + now rewrite E.
Qed.

(** [d[k] = v] and then [d[k']] for another key *)
Lemma get_set_ne (k k' : string) (v : V) (d : Dict.t V) :
  k' <> k -> Dict.get k' (Dict.set k v d) = Dict.get k' d.
Proof.
  intros Hne. apply String.eqb_neq in Hne.
  induction d as [|[k0 v0] r IH]; cbn [Dict.set Dict.get].
  - rewrite String.eqb_sym. now rewrite Hne.
  - destruct (String.eqb k0 k) eqn:E; cbn [Dict.get].
    + apply String.eqb_eq in E. subst k0.
      rewrite String.eqb_sym. now rewrite Hne.
    + destruct (String.eqb k0 k'); [reflexivity | exact IH].
Qed.

Lemma get_In (k : string) (v : V) (d : Dict.t V) : Dict.get k d = Some v -> In v (Dict.values d).
Proof.
  induction d as [|[k' v'] r IH]; cbn [Dict.get Dict.values map snd]; [discriminate |].
  destruct (String.eqb k' k).
  - intros E. injection E as <-. now left.
  - intros E. right. now apply IH.
Qed.

(** Assigning to the key of the last entry replaces that entry. *)
Lemma set_last (k : string) (v v' : V) (d : Dict.t V) :
  ~ In k (Dict.keys d) -> Dict.set k v' (d ++ [(k, v)])%list = (d ++ [(k, v')])%list.
Proof.
  induction d as [|[k0 v0] r IH]; simpl; intros H.
  - now rewrite String.eqb_refl.
  - destruct (String.eqb k0 k) eqn:E.
    + apply String.eqb_eq in E. subst. tauto.
    + rewrite IH; [reflexivity | tauto].
Qed.

End DictMore.
End DictMore.

(** X1: whatever the manager holds, [create_artifact] stores the artifact
    it returns under the identifier it gave it, [list_artifacts] shows it,
    and every other identifier maps to what it mapped to before. *)
Theorem create_artifact_registers (now artifact_type file_format : string) (path : Path)
    (query : string) (sm : SessionManager) :
  let out := create_artifact now artifact_type file_format path query sm in
  exists aid,
    art_id (fst out) = JStr aid
    /\ Dict.get aid (artifacts (snd out)) = Some (fst out)
    /\ In (fst out) (list_artifacts (snd out))
    /\ forall k, k <> aid -> Dict.get k (artifacts (snd out)) = Dict.get k (artifacts sm).
Proof.
  cbn zeta. unfold create_artifact, list_artifacts. cbn [fst snd art_id artifacts].
  eexists. split; [reflexivity |]. split; [apply DictMore.get_set_eq |]. split.
  - eapply DictMore.get_In. apply DictMore.get_set_eq.
  - intros k Hk. now apply DictMore.get_set_ne.
Qed.

Module ListingFacts.

Lemma values_app {V : Type} (d e : Dict.t V) :
  Dict.values (d ++ e)%list = (Dict.values d ++ Dict.values e)%list.
Proof. apply map_app. Qed.

Lemma ids_reloaded (d : Dict.t Artifact) :
  map art_id (Dict.values (reloaded_artifacts d)) = map art_id (Dict.values d).
Proof.
  unfold Dict.values, reloaded_artifacts. rewrite !map_map. reflexivity.
Qed.

(** What one call adds to the listing. *)
Lemma step_listing (settings : Settings) (c : call) (sm : SessionManager) (fs : filesystem) :
  counter_invariant sm ->
  let out := step settings c sm fs in
  map art_id (list_artifacts (snd (fst out)))
  = (map art_id (list_artifacts sm)
     ++ match fst (fst out) with Some i => [i] | None => [] end)%list.
Proof.
  intros Hinv. unfold list_artifacts.
  destruct c as [now ty ff path q | now q pl cd rs ids | now fp | sa now fp]; cbn [step].
  - destruct (CounterFacts.create_artifact_appends now ty ff path q sm Hinv)
      as (aid & Ha & _).
    destruct (create_artifact now ty ff path q sm) as [a sm1]. cbn [fst snd] in *.
    rewrite Ha, values_app, map_app. reflexivity.
  - cbn [fst snd add_interaction artifacts]. now rewrite app_nil_r.
  - cbn [fst snd]. now rewrite app_nil_r.
  - destruct Hinv as [Hd _].
    pose proof (SessionFacts.load_saved sa now fp fs sm sm Hd) as Hl.
    destruct (save_session sa fp sm fs) as [[u|e] fs1]; cbn [fst snd] in *.
    + destruct u. destruct (Hl eq_refl) as (_ & Ha & _).
      rewrite Ha, ids_reloaded. now rewrite app_nil_r.
    + now rewrite app_nil_r.
Qed.

Lemma run_listing (settings : Settings) (calls : list call) (sm : SessionManager)
    (fs : filesystem) :
  counter_invariant sm ->
  let out := run settings calls sm fs in
  map art_id (list_artifacts (snd (fst out)))
  = (map art_id (list_artifacts sm) ++ fst (fst out))%list.
Proof.
  revert sm fs. induction calls as [|c rest IH]; intros sm fs Hinv.
  - cbn. now rewrite app_nil_r.
  - cbn [run].
    pose proof (step_listing settings c sm fs Hinv) as Hs.
    pose proof (CounterFacts.step_invariant settings c sm fs Hinv) as [Hinv1 _].
    cbn zeta in *.
    destruct (step settings c sm fs) as [[r sm1] fs1]. cbn [fst snd] in *.
    specialize (IH sm1 fs1 Hinv1). cbn zeta in IH.
    destruct (run settings rest sm1 fs1) as [[ids sm2] fs2]. cbn [fst snd] in *.
    rewrite IH, Hs, <- app_assoc. now destruct r.
Qed.

End ListingFacts.

(** X2: on a new manager, after any sequence of calls, [list_artifacts]
    shows exactly the artifacts that were created, in the order of their
    creation: the identifiers listed are the identifiers returned. *)
Theorem list_artifacts_in_creation_order (settings : Settings) (calls : list call)
    (fs : filesystem) :
  let out := run settings calls init fs in
  map art_id (list_artifacts (snd (fst out))) = fst (fst out).
Proof.
  exact (ListingFacts.run_listing settings calls init fs CounterFacts.init_invariant).
Qed.

Module LoadFacts.

(** After a load that returns normally no key in store has a numeric
    suffix above the counter. *)
Lemma loaded_keys_bounded (now : string) (filepath : Path) (fs : filesystem)
    (sm : SessionManager) :
  fst (load_session now filepath fs sm) = inl tt ->
  let loaded := snd (load_session now filepath fs sm) in
  forall k, In k (Dict.keys (artifacts loaded)) ->
            exists z, numeric_suffix k = inl z /\ z <= _artifact_counter loaded.
Proof.
  cbn zeta. unfold load_session.
  destruct (negb (exists_ fs (PathLib.to_string filepath))); [discriminate |].
  rewrite SessionFacts.load_session_body_split.
  destruct (read_interactions now (PathLib.to_string filepath) fs) as [[doc loaded]|e];
    [| discriminate].
  set (st := {| interactions := loaded; artifacts := artifacts sm;
                _artifact_counter := _artifact_counter sm |}).
  pose proof (SessionFacts.restore_rest_cases doc st) as H. cbn zeta in H.
  destruct (restore_rest doc st) as [[[]|e] sm']; cbn [fst snd] in *; [| discriminate].
  intros _ k Hk.
  destruct H as (_ & [[[e He] _] | [(_ & Ha & _) | (_ & _ & l & Hl & Hc)]]).
  - discriminate.
  - rewrite Ha in Hk. contradiction.
  - destruct (CounterFacts.comprehension_In _ _ _ _ Hl Hk) as (z & Hz & Hzl).
    exists z. split; [exact Hz |]. rewrite Hc. now apply CounterFacts.py_max_upper.
Qed.

(** [load_session] reads the file system at its path only. *)
Lemma load_session_content (now : string) (filepath : Path) (fs fs' : filesystem)
    (sm : SessionManager) :
  content fs (PathLib.to_string filepath) = content fs' (PathLib.to_string filepath) ->
  load_session now filepath fs sm = load_session now filepath fs' sm.
Proof.
  intros H. unfold load_session, exists_, load_session_body, json_load. now rewrite H.
Qed.

Lemma skipn_snoc {A : Type} (n : nat) (l : list A) (x : A) :
  (n <= List.length l)%nat -> skipn n (l ++ [x]) = (skipn n l ++ [x])%list.
Proof.
  intros H. rewrite skipn_app. replace (n - List.length l)%nat with O by lia. reflexivity.
Qed.

End LoadFacts.

(** X3: after any load that returns normally, the artifact created next
    gets an identifier that no restored artifact has, so it is added to
    the restored ones and replaces none. *)
Theorem created_after_load_is_new (now now' : string) (filepath : Path) (fs : filesystem)
    (sm : SessionManager) (artifact_type file_format : string) (path : Path)
    (query : string) :
  fst (load_session now filepath fs sm) = inl tt ->
  let loaded := snd (load_session now filepath fs sm) in
  let out := create_artifact now' artifact_type file_format path query loaded in
  let aid := artifact_type ++ "_" ++ PyStr.format_03d (_artifact_counter loaded + 1) in
  art_id (fst out) = JStr aid
  /\ ~ In aid (Dict.keys (artifacts loaded))
  /\ artifacts (snd out) = (artifacts loaded ++ [(aid, fst out)])%list.
Proof.
  intros Hok. pose proof (LoadFacts.loaded_keys_bounded now filepath fs sm Hok) as Hb.
  cbn zeta in *. set (loaded := snd (load_session now filepath fs sm)) in *.
  assert (Hfresh : ~ In (artifact_type ++ "_" ++ PyStr.format_03d (_artifact_counter loaded + 1))
                     (Dict.keys (artifacts loaded))).
  { intros Hin. destruct (Hb _ Hin) as (z & Hz & Hle).
    rewrite CounterFacts.numeric_suffix_created in Hz. injection Hz as <-. lia. }
  split; [reflexivity |]. split; [exact Hfresh |].
  unfold create_artifact. cbn [fst snd artifacts].
  now apply DictFacts.set_fresh.
Qed.

Lemma created_after_load_is_new_witness :
  let loaded :=
    snd (load_session "2024-05-02T09:00:00" sample_file
           (snd (save_session "2024-05-01T10:05:00" sample_file sample_session empty_fs))
           init) in
  let out := create_artifact "2024-05-02T09:01:00" "table" "csv" sample_table "q" loaded in
  let aid := "table" ++ "_" ++ PyStr.format_03d (_artifact_counter loaded + 1) in
  art_id (fst out) = JStr aid
  /\ ~ In aid (Dict.keys (artifacts loaded))
  /\ artifacts (snd out) = (artifacts loaded ++ [(aid, fst out)])%list.
Proof.
  apply (created_after_load_is_new "2024-05-02T09:00:00" "2024-05-02T09:01:00" sample_file
           (snd (save_session "2024-05-01T10:05:00" sample_file sample_session empty_fs))
           init "table" "csv" sample_table "q").
  vm_compute. reflexivity.
Defined.

(** X4: a stored document that is a JSON object with neither an
    [interactions] nor an [artifacts] key loads without error and empties
    the session: no interaction and no artifact are left, and the counter
    keeps its value. *)
Theorem load_document_without_collections (now : string) (filepath : Path)
    (fs : filesystem) (sm : SessionManager) (kvs : list (string * json)) :
  content fs (PathLib.to_string filepath) = Some (Document (JObj kvs)) ->
  Dict.get "interactions" kvs = None ->
  Dict.get "artifacts" kvs = None ->
  load_session now filepath fs sm
  = (inl tt, {| interactions := []; artifacts := [];
                _artifact_counter := _artifact_counter sm |}).
Proof.
  intros Hc Hi Ha. unfold load_session, exists_. rewrite Hc. cbn [negb].
  unfold load_session_body, json_load, bind, lift, set_interactions, set_artifacts,
    get_self, ret. rewrite Hc.
  cbn [py_get]. rewrite Hi, Ha. reflexivity.
Qed.

Lemma load_document_without_collections_witness :
  load_session "2024-05-02T09:00:00" sample_file (fs_with sample_file bare_document)
    sample_session
  = (inl tt, {| interactions := []; artifacts := [];
                _artifact_counter := _artifact_counter sample_session |}).
Proof.
  apply (load_document_without_collections "2024-05-02T09:00:00" sample_file
           (fs_with sample_file bare_document) sample_session []); reflexivity.
Defined.

(** X6: a session saved to one path is not disturbed by a later save to
    a path that names another file, whether that save succeeds or not:
    loading the first path gives what it gave before.  The two paths
    differ as texts and do not name one file. *)
Theorem save_keeps_other_files (now saved1 saved2 : string) (p1 p2 : Path)
    (fs : filesystem) (sm1 sm2 sm0 : SessionManager) :
  PathLib.to_string p1 <> PathLib.to_string p2 ->
  same_file fs (PathLib.to_string p1) (PathLib.to_string p2) = false ->
  let fs1 := snd (save_session saved1 p1 sm1 fs) in
  let fs2 := snd (save_session saved2 p2 sm2 fs1) in
  load_session now p1 fs2 sm0 = load_session now p1 fs1 sm0.
Proof.
  intros Hne Hsame. cbn zeta. apply LoadFacts.load_session_content.
  assert (Hs1 : same_file (snd (save_session saved1 p1 sm1 fs)) = same_file fs)
    by (unfold save_session; destruct (open_for_writing fs _); reflexivity).
  set (fs1 := snd (save_session saved1 p1 sm1 fs)) in *.
  unfold save_session. destruct (open_for_writing fs1 (PathLib.to_string p2)); [reflexivity |].
  cbn [snd write_file content].
  apply String.eqb_neq in Hne. now rewrite Hne, Hs1, Hsame.
Qed.

Lemma save_keeps_other_files_witness :
  let fs1 := snd (save_session "2024-05-01T10:05:00" sample_file sample_session empty_fs) in
  let fs2 := snd (save_session "2024-05-01T10:06:00" other_file init fs1) in
  load_session "2024-05-02T09:00:00" sample_file fs2 init
  = load_session "2024-05-02T09:00:00" sample_file fs1 init.
Proof.
  apply (save_keeps_other_files "2024-05-02T09:00:00" "2024-05-01T10:05:00"
           "2024-05-01T10:06:00" sample_file other_file empty_fs sample_session init init).
  - vm_compute. discriminate.
  - reflexivity.
Defined.

Module HistoryMore.

(** What [add_interaction] appends is kept whenever the limit is not
    negative. *)
Lemma add_interaction_last (settings : Settings)
    (now query plan code result_summary : string) (artifact_ids : option (list string))
    (sm : SessionManager) :
  0 <= HISTORY_LIMIT settings ->
  exists dropped older,
    interactions sm = (dropped ++ older)%list
    /\ interactions (add_interaction settings now query plan code result_summary
                       artifact_ids sm)
       = (older ++ [new_interaction now query plan code result_summary artifact_ids])%list.
Proof.
  intros HL.
  set (i := new_interaction now query plan code result_summary artifact_ids).
  unfold add_interaction. cbn [interactions].
  fold (new_interaction now query plan code result_summary artifact_ids). fold i.
  set (L := HISTORY_LIMIT settings) in *.
  pose proof (HistoryFacts.length_snoc (interactions sm) i) as Hs.
  destruct (Z.of_nat (List.length (interactions sm ++ [i])) >? L) eqn:Hgt.
  - apply Z.gtb_lt in Hgt. unfold slice_from.
    destruct (- L <? 0) eqn:Hneg.
    + apply Z.ltb_lt in Hneg.
      set (n := Z.to_nat (Z.max (Z.of_nat (List.length (interactions sm ++ [i])) + - L) 0)).
      assert (Hn : (n <= List.length (interactions sm))%nat) by (unfold n; lia).
      exists (firstn n (interactions sm)), (skipn n (interactions sm)).
      split; [now rewrite firstn_skipn |]. now apply LoadFacts.skipn_snoc.
    + apply Z.ltb_ge in Hneg. replace (- L) with 0 by lia.
      exists [], (interactions sm). now split.
  - exists [], (interactions sm). now split.
Qed.

End HistoryMore.

(** X7: with a limit that is not negative, [add_interaction] drops
    interactions from the head of the log only and always keeps the one it
    adds, as the last entry; [get_conversation_history] ends with its
    dictionary. *)
Theorem newest_interaction_is_kept (settings : Settings)
    (now query plan code result_summary : string) (artifact_ids : option (list string))
    (sm : SessionManager) :
  0 <= HISTORY_LIMIT settings ->
  let i := new_interaction now query plan code result_summary artifact_ids in
  let sm' := add_interaction settings now query plan code result_summary artifact_ids sm in
  exists dropped older,
    interactions sm = (dropped ++ older)%list
    /\ interactions sm' = (older ++ [i])%list
    /\ get_conversation_history sm'
       = (map Interaction_to_dict older ++ [Interaction_to_dict i])%list.
Proof.
  intros HL. cbn zeta.
  destruct (HistoryMore.add_interaction_last settings now query plan code result_summary
              artifact_ids sm HL) as (dropped & older & Hd & Ho).
  exists dropped, older.
  split; [exact Hd |]. split; [exact Ho |].
  unfold get_conversation_history. rewrite Ho, map_app. reflexivity.
Qed.

Lemma newest_interaction_is_kept_witness :
  let i := new_interaction "2024-05-01T10:00:00" "q" "p" "c" "r" None in
  let sm' :=
    add_interaction (settings_with_limit 0) "2024-05-01T10:00:00" "q" "p" "c" "r" None
      sample_session in
  exists dropped older,
    interactions sample_session = (dropped ++ older)%list
    /\ interactions sm' = (older ++ [i])%list
    /\ get_conversation_history sm'
       = (map Interaction_to_dict older ++ [Interaction_to_dict i])%list.
Proof.
  apply (newest_interaction_is_kept (settings_with_limit 0) "2024-05-01T10:00:00"
           "q" "p" "c" "r" None sample_session).
  vm_compute. discriminate.
Defined.

(** * Further properties of the executor *)

Module CollectMore.

Lemma collect_loop_cons (w : world) (source_dir dest_dir : Path) (e : dir_entry)
    (rest : list dir_entry) (acc : Dict.t Path) :
  collect_loop w source_dir dest_dir (e :: rest) acc
  = if is_file e then
      match move_error w (PathLib.name (entry_path source_dir e)) with
      | Some reason => inr reason
      | None =>
          collect_loop w source_dir dest_dir rest
            (Dict.set (entry_kind source_dir e)
               (entry_destination source_dir dest_dir e) acc)
      end
    else collect_loop w source_dir dest_dir rest acc.
Proof. reflexivity. Qed.

Lemma file_type_in_kinds (p : Path) : In (file_type_of p) kinds.
Proof.
  rewrite CollectorFacts.file_type_of_lower. unfold classify_by_extension, kinds.
  destruct (_ || _)%bool; [now left |].
  destruct (_ || _)%bool; [right; now left | right; right; now left].
Qed.

Lemma keys_set_In {V : Type} (k k' : string) (v : V) (d : Dict.t V) :
  In k' (Dict.keys (Dict.set k v d)) -> k' = k \/ In k' (Dict.keys d).
Proof.
  induction d as [|[k0 v0] r IH]; simpl.
  - intros [<- | []]. now left.
  - destruct (String.eqb k0 k) eqn:E; simpl.
    + apply String.eqb_eq in E. subst. intros [<- | H]; auto.
    + intros [<- | H]; [auto |]. destruct (IH H); auto.
Qed.

Lemma keys_set_NoDup {V : Type} (k : string) (v : V) (d : Dict.t V) :
  NoDup (Dict.keys d) -> NoDup (Dict.keys (Dict.set k v d)).
Proof.
  induction d as [|[k0 v0] r IH]; simpl; intros H.
  - constructor; [intros [] | constructor].
  - inversion H as [|? ? Hk Hr]; subst.
    destruct (String.eqb k0 k) eqn:E; simpl.
    + apply String.eqb_eq in E. subst. now constructor.
    + constructor; [| now apply IH]. intros Hin.
      destruct (keys_set_In _ _ _ _ Hin) as [-> | Hin']; [| contradiction].
      now rewrite String.eqb_refl in E.
Qed.

(** What the loop keeps of the mapping it fills. *)
Lemma collect_loop_keys (w : world) (source_dir dest_dir : Path)
    (entries : list dir_entry) (acc files : Dict.t Path) :
  collect_loop w source_dir dest_dir entries acc = inl files ->
  NoDup (Dict.keys acc) -> incl (Dict.keys acc) kinds ->
  NoDup (Dict.keys files) /\ incl (Dict.keys files) kinds.
Proof.
  revert acc. induction entries as [|e rest IH]; intros acc H Hn Hi.
  - cbn in H. injection H as <-. now split.
  - rewrite collect_loop_cons in H. destruct (is_file e); [| now apply (IH acc)].
    destruct (move_error w _); [discriminate |].
    apply (IH _ H); [now apply keys_set_NoDup |].
    intros k Hk. destruct (keys_set_In _ _ _ _ Hk) as [-> | Hk']; [| now apply Hi].
    apply file_type_in_kinds.
Qed.

(** What the loop returns for a classification. *)
Lemma collect_loop_get (w : world) (source_dir dest_dir : Path)
    (entries : list dir_entry) (acc files : Dict.t Path) (kind : string) :
  collect_loop w source_dir dest_dir entries acc = inl files ->
  Dict.get kind files
  = match last_of_kind source_dir kind entries with
    | Some e => Some (entry_destination source_dir dest_dir e)
    | None => Dict.get kind acc
    end.
Proof.
  revert acc. induction entries as [|e rest IH]; intros acc H.
  - cbn in H. now injection H as <-.
  - rewrite collect_loop_cons in H. cbn [last_of_kind].
    destruct (is_file e) eqn:Hf.
    + destruct (move_error w _); [discriminate |].
      rewrite (IH _ H). destruct (last_of_kind source_dir kind rest); [reflexivity |].
      cbn [andb]. destruct (String.eqb (entry_kind source_dir e) kind) eqn:E.
      * apply String.eqb_eq in E. subst. apply DictMore.get_set_eq.
      * apply String.eqb_neq in E. apply DictMore.get_set_ne. congruence.
    + rewrite (IH _ H). now destruct (last_of_kind source_dir kind rest).
Qed.



End CollectMore.

(** X8: the mapping [_collect_output_files] returns has at most one entry
    for each of [chart], [table] and [file] and no other key, hence at
    most three entries however many files the script wrote. *)
Theorem collected_kinds (w : world) (entries : list dir_entry)
    (source_dir dest_dir : Path) (files : Dict.t Path) :
  _collect_output_files w entries source_dir dest_dir = inl files ->
  distinct (Dict.keys files) = true
  /\ (forall k, In k (Dict.keys files) -> k = "chart" \/ k = "table" \/ k = "file")
  /\ (List.length files <= 3)%nat.
Proof.
  unfold _collect_output_files. intros H.
  destruct (CollectMore.collect_loop_keys w source_dir dest_dir entries [] files H)
    as [Hn Hi]; [constructor | intros k [] |].
  split; [now apply DictFacts.distinct_NoDup |]. split.
  - intros k Hk. specialize (Hi k Hk). unfold kinds in Hi. cbn [In] in Hi.
    intuition congruence.
  - pose proof (NoDup_incl_length Hn Hi) as Hlen. unfold Dict.keys in Hlen.
    now rewrite length_map in Hlen.
Qed.

Lemma collected_kinds_witness :
  let files :=
    [("table", PathLib.joinpath sample_output_dir "summary.csv")] in
  distinct (Dict.keys files) = true
  /\ (forall k, In k (Dict.keys files) -> k = "chart" \/ k = "table" \/ k = "file")
  /\ (List.length files <= 3)%nat.
Proof.
  apply (collected_kinds (quiet_world 1 []) [table_csv; plots_dir; summary_csv]
           (output_area (quiet_world 1 [])) sample_output_dir).
  vm_compute. reflexivity.
Defined.

(** X9: when two files of the output area have the same classification,
    the mapping holds the one listed last: for every classification it
    gives the destination of the last regular file of that kind, and
    nothing when there is none. *)
Theorem last_file_of_a_kind_wins (w : world) (entries : list dir_entry)
    (source_dir dest_dir : Path) (files : Dict.t Path) (kind : string) :
  _collect_output_files w entries source_dir dest_dir = inl files ->
  Dict.get kind files
  = match last_of_kind source_dir kind entries with
    | Some e => Some (entry_destination source_dir dest_dir e)
    | None => None
    end.
Proof.
  unfold _collect_output_files. intros H.
  now rewrite (CollectMore.collect_loop_get _ _ _ _ _ _ kind H).
Qed.

Lemma last_file_of_a_kind_wins_witness :
  Dict.get "table" [("table", PathLib.joinpath sample_output_dir "summary.csv")]
  = match last_of_kind (output_area (quiet_world 1 [])) "table"
            [table_csv; plots_dir; summary_csv] with
    | Some e =>
        Some (entry_destination (output_area (quiet_world 1 [])) sample_output_dir e)
    | None => None
    end.
Proof.
  apply (last_file_of_a_kind_wins (quiet_world 1 []) [table_csv; plots_dir; summary_csv]
           (output_area (quiet_world 1 [])) sample_output_dir
           [("table", PathLib.joinpath sample_output_dir "summary.csv")] "table").
  vm_compute. reflexivity.
Defined.



Module ExecuteMore.

Lemma copy_loop_find (w : world) (data_files : Dict.t Path) :
  copy_loop w data_files
  = match find (copy_fails w) data_files with
    | Some kv => copy_error w (snd kv)
    | None => None
    end.
Proof.
  induction data_files as [|[name filepath] rest IH]; [reflexivity |].
  simpl. unfold copy_fails at 1. simpl.
  destruct (copy_error w filepath) eqn:E; [simpl; now rewrite E | exact IH].
Qed.

End ExecuteMore.

(** X11: the executor made from the settings runs the container backend
    exactly when the settings ask for it and the probe for the container
    runtime succeeds; in every other case [execute] is the local-process
    backend. *)
Theorem container_only_when_available (settings : Settings) (w : world) (code : string)
    (data_files : Dict.t Path) (session_output_dir : Path) :
  execute (CodeExecutor_init settings w) settings w code data_files session_output_dir
  = if (USE_DOCKER_EXECUTION settings && check_docker_available w)%bool
    then _execute_docker settings w code data_files session_output_dir
    else _execute_subprocess settings w code data_files session_output_dir.
Proof.
  unfold execute, CodeExecutor_init. cbn [use_docker].
  destruct (USE_DOCKER_EXECUTION settings), (check_docker_available w); reflexivity.
Qed.

(** X12: preparing the two areas and copying the datasets happens outside
    the [try] block: for both backends [execute] raises, instead of
    returning a result, exactly when that preparation fails, with the
    error of creating the areas or else of the first dataset of the
    mapping that cannot be copied. *)
Theorem execute_raises_when_setup_fails (self : CodeExecutor) (settings : Settings)
    (w : world) (code : string) (data_files : Dict.t Path) (session_output_dir : Path)
    (reason : string) :
  (execute self settings w code data_files session_output_dir = inr reason
   <-> setup_error w data_files = Some reason)
  /\ setup_error w data_files
     = match mkdir_error w with
       | Some e => Some e
       | None =>
           match find (copy_fails w) data_files with
           | Some kv => copy_error w (snd kv)
           | None => None
           end
       end.
Proof.
  split.
  - rewrite ExecutorFacts.execute_unfold.
    destruct (setup_error w data_files) as [e|].
    + split; intros H; injection H as <-; reflexivity.
    + split; [| discriminate].
      destruct (subprocess_run _ _); [destruct (_collect_output_files _ _ _ _) |..];
        discriminate.
  - unfold setup_error. now rewrite ExecuteMore.copy_loop_find.
Qed.

(** X13: in the container the script is started only after the
    dependencies were installed.  When the installation fails within the
    time granted, the result is the same for every script: a failure with
    the installer's standard error, no standard output, no output file
    and no error description. *)
Theorem failed_installation_result (settings : Settings) (w : world) (code : string)
    (data_files : Dict.t Path) (session_output_dir : Path) :
  setup_error w data_files = None ->
  docker_error w = None ->
  pip_status w <> 0 ->
  pip_seconds w <= CODE_EXECUTION_TIMEOUT settings + 30 ->
  execute docker_executor settings w code data_files session_output_dir
  = inl {| success := false; stdout := ""; stderr := pip_stderr w; output_files := [];
           error := None |}.
Proof.
  intros Hs Hd Hp Ht. rewrite ExecutorFacts.execute_unfold, Hs.
  unfold child, backend_timeout, docker_behaviour. cbn [use_docker docker_executor].
  rewrite Hd. apply Z.eqb_neq in Hp. rewrite Hp. cbn [subprocess_run].
  destruct (CODE_EXECUTION_TIMEOUT settings + 30 <? pip_seconds w) eqn:E.
  - apply Z.ltb_lt in E. lia.
  - cbn [_collect_output_files collect_loop]. now rewrite Hp.
Qed.

Lemma failed_installation_result_witness :
  execute docker_executor default_settings no_pip_world table_script [] sample_output_dir
  = inl {| success := false; stdout := ""; stderr := pip_stderr no_pip_world;
           output_files := []; error := None |}.
Proof.
  apply (failed_installation_result default_settings no_pip_world table_script []
           sample_output_dir); [reflexivity | reflexivity | discriminate |].
  vm_compute. discriminate.
Defined.

(** X14: every result of [execute] satisfies two invariants.  A success
    has no error description and comes from a child that ended with
    status 0; a result with an error description is a failure with empty
    output streams and no output file. *)
Theorem execution_result_invariants (self : CodeExecutor) (settings : Settings)
    (w : world) (code : string) (data_files : Dict.t Path) (session_output_dir : Path)
    (r : ExecutionResult) :
  execute self settings w code data_files session_output_dir = inl r ->
  (success r = true ->
   error r = None
   /\ exists out err produced,
        subprocess_run (backend_timeout self settings) (child self w code)
        = CompletedProcess 0 out err produced)
  /\ (error r <> None ->
      success r = false /\ stdout r = "" /\ stderr r = "" /\ output_files r = []).
Proof.
  rewrite ExecutorFacts.execute_unfold.
  destruct (setup_error w data_files); [discriminate |].
  destruct (subprocess_run _ _) as [rc out err produced | | reason | rc out err reason].
  - destruct (_collect_output_files _ _ _ _) as [files|reason]; intros H;
      injection H as <-; cbn [success error stdout stderr output_files].
    + split; [| congruence]. intros Hrc. apply Z.eqb_eq in Hrc. subst rc.
      split; [reflexivity |]. eauto.
    + split; [discriminate | tauto].
  - intros H. injection H as <-. cbn. split; [discriminate | tauto].
  - intros H. injection H as <-. cbn. split; [discriminate | tauto].
  - intros H. injection H as <-. cbn. split; [discriminate | tauto].
Qed.

Lemma execution_result_invariants_witness :
  let r := {| success := true; stdout := ""; stderr := "";
              output_files := [("table", PathLib.joinpath sample_output_dir "table.csv")];
              error := None |} in
  (success r = true ->
   error r = None
   /\ exists out err produced,
        subprocess_run (backend_timeout local_executor default_settings)
          (child local_executor (quiet_world 3 [table_csv]) table_script)
        = CompletedProcess 0 out err produced)
  /\ (error r <> None ->
      success r = false /\ stdout r = "" /\ stderr r = "" /\ output_files r = []).
Proof.
  apply (execution_result_invariants local_executor default_settings
           (quiet_world 3 [table_csv]) table_script [] sample_output_dir).
  vm_compute. reflexivity.
Defined.

(** * Properties of the recording in [process_query] *)

Module RecordFacts.

Lemma set_set {V : Type} (k : string) (v v' : V) (d : Dict.t V) :
  Dict.set k v' (Dict.set k v d) = Dict.set k v' d.
Proof.
  induction d as [|[k0 v0] r IH]; cbn [Dict.set].
  - now rewrite String.eqb_refl.
  - destruct (String.eqb k0 k) eqn:E; cbn [Dict.set].
    + now rewrite String.eqb_refl.
    + now rewrite E, IH.
Qed.

Lemma add_interaction_registry (settings : Settings)
    (now query plan code result_summary : string) (artifact_ids : option (list string))
    (sm : SessionManager) :
  artifacts (add_interaction settings now query plan code result_summary artifact_ids sm)
  = artifacts sm
  /\ _artifact_counter
       (add_interaction settings now query plan code result_summary artifact_ids sm)
     = _artifact_counter sm.
Proof. split; reflexivity. Qed.

Lemma show_artifact_calm (d : desk) (file_type : string) (file_path new_path : Path) :
  calm d -> show_artifact d file_type file_path new_path = None.
Proof.
  intros (_ & Hp & Hv). unfold show_artifact.
  destruct (_ && _)%bool; [apply Hv |]. destruct (String.eqb _ _); [apply Hp | reflexivity].
Qed.

(** One round of the loop when nothing raises. *)
Lemma register_outputs_cons (d : desk) (dir : Path) (query file_type : string)
    (file_path : Path) (rest : Dict.t Path) (tick : nat) (acc : list string)
    (sm : SessionManager) :
  calm d ->
  let aid := file_type ++ "_" ++ PyStr.format_03d (_artifact_counter sm + 1) in
  register_outputs d dir query ((file_type, file_path) :: rest) tick acc sm
  = register_outputs d dir query rest (S tick) (acc ++ [aid])%list
      {| interactions := interactions sm;
         artifacts :=
           Dict.set aid (registered d dir query tick aid file_type file_path) (artifacts sm);
         _artifact_counter := _artifact_counter sm + 1 |}.
Proof.
  intros Hc aid. pose proof Hc as (Hr & Hp & _).
  cbn [register_outputs create_artifact art_id PyMore.str]. fold aid.
  rewrite Hr, Hp, (show_artifact_calm _ _ _ _ Hc).
  unfold set_path. cbn [art_id PyMore.str interactions artifacts _artifact_counter
                          art_type art_format art_query art_created_at art_metadata].
  rewrite set_set. reflexivity.
Qed.

Lemma new_ids_above (files : Dict.t Path) :
  forall (counter : Z) (k : string),
    In k (new_ids counter files) -> exists z, numeric_suffix k = inl z /\ counter < z.
Proof.
  induction files as [|[file_type file_path] rest IH]; intros counter k; cbn [new_ids In].
  - tauto.
  - intros [<- | H].
    + exists (counter + 1). split; [apply CounterFacts.numeric_suffix_created | lia].
    + destruct (IH _ _ H) as (z & Hz & Hlt). exists z. split; [exact Hz | lia].
Qed.

Lemma new_ids_fresh (files : Dict.t Path) (counter : Z) (file_type : string) :
  ~ In (file_type ++ "_" ++ PyStr.format_03d (counter + 1)) (new_ids (counter + 1) files).
Proof.
  intros H. destruct (new_ids_above _ _ _ H) as (z & Hz & Hlt).
  rewrite CounterFacts.numeric_suffix_created in Hz. injection Hz as <-. lia.
Qed.

Lemma new_ids_nth (files : Dict.t Path) :
  forall (counter : Z) (i : nat) (file_type : string) (file_path : Path),
    nth_error files i = Some (file_type, file_path) ->
    nth_error (new_ids counter files) i
    = Some (file_type ++ "_" ++ PyStr.format_03d (counter + Z.of_nat i + 1)).
Proof.
  induction files as [|[ft fp] rest IH]; intros counter [|i] file_type file_path;
    cbn [nth_error new_ids]; try discriminate.
  - intros E. injection E as -> ->.
    now replace (counter + Z.of_nat 0 + 1) with (counter + 1) by lia.
  - intros E. rewrite (IH _ _ _ _ E).
    now replace (counter + 1 + Z.of_nat i + 1) with (counter + Z.of_nat (S i) + 1) by lia.
Qed.

Lemma new_ids_length (files : Dict.t Path) (counter : Z) :
  List.length (new_ids counter files) = List.length files.
Proof.
  revert counter. induction files as [|[ft fp] rest IH]; intros counter; cbn [new_ids List.length].
  - reflexivity.
  - now rewrite IH.
Qed.

(** The whole loop when nothing raises. *)
Lemma register_outputs_calm (d : desk) (dir : Path) (query : string) :
  calm d ->
  forall (files : Dict.t Path) (tick : nat) (acc : list string) (sm : SessionManager),
  exists sm',
    register_outputs d dir query files tick acc sm
    = (inl ((acc ++ new_ids (_artifact_counter sm) files)%list,
            (tick + List.length files)%nat), sm')
    /\ interactions sm' = interactions sm
    /\ _artifact_counter sm' = _artifact_counter sm + Z.of_nat (List.length files)
    /\ (forall k, ~ In k (new_ids (_artifact_counter sm) files) ->
        Dict.get k (artifacts sm') = Dict.get k (artifacts sm))
    /\ (forall i file_type file_path,
        nth_error files i = Some (file_type, file_path) ->
        let aid := file_type ++ "_" ++ PyStr.format_03d (_artifact_counter sm + Z.of_nat i + 1) in
        Dict.get aid (artifacts sm')
        = Some (registered d dir query (tick + i) aid file_type file_path)).
Proof.
  intros Hc files.
  induction files as [|[ft fp] rest IH]; intros tick acc sm.
  - exists sm. cbn [register_outputs new_ids List.length].
    rewrite app_nil_r, Nat.add_0_r. repeat split; try lia.
    intros [|i] file_type file_path; discriminate.
  - rewrite (register_outputs_cons d dir query ft fp rest tick acc sm Hc).
    set (aid := ft ++ "_" ++ PyStr.format_03d (_artifact_counter sm + 1)).
    set (sm1 := {| interactions := interactions sm;
                   artifacts := Dict.set aid (registered d dir query tick aid ft fp)
                                  (artifacts sm);
                   _artifact_counter := _artifact_counter sm + 1 |}).
    destruct (IH (S tick) (acc ++ [aid])%list sm1) as (sm' & E & Hi & Hn & Hframe & Hnth).
    exists sm'. cbn [new_ids List.length]. fold aid.
    change (_artifact_counter sm1) with (_artifact_counter sm + 1) in *.
    change (interactions sm1) with (interactions sm) in *.
    change (artifacts sm1)
      with (Dict.set aid (registered d dir query tick aid ft fp) (artifacts sm)) in *.
    split.
    { rewrite E. rewrite <- app_assoc.
      now replace (S tick + List.length rest)%nat with (tick + S (List.length rest))%nat
        by lia. }
    split; [exact Hi |]. split; [lia |]. split.
    + intros k Hk. cbn [In] in Hk. rewrite Hframe by tauto.
      apply DictMore.get_set_ne. intros ->. tauto.
    + intros [|i] file_type file_path; cbn [nth_error].
      * intros Ei. injection Ei as <- <-. cbn zeta.
        replace (_artifact_counter sm + Z.of_nat 0 + 1) with (_artifact_counter sm + 1) by lia.
        fold aid. rewrite Hframe by apply new_ids_fresh.
        rewrite DictMore.get_set_eq. now rewrite Nat.add_0_r.
      * intros Ei. specialize (Hnth i file_type file_path Ei). cbn zeta in *.
        replace (_artifact_counter sm + Z.of_nat (S i) + 1)
          with (_artifact_counter sm + 1 + Z.of_nat i + 1) by lia.
        replace (tick + S i)%nat with (S tick + i)%nat by lia. exact Hnth.
Qed.

(** When the loop is left by an exception, the log is as it was, the
    counter has moved, and the last artifact made is in the registry. *)
Lemma register_outputs_raises (d : desk) (dir : Path) (query : string) :
  forall (files : Dict.t Path) (tick : nat) (acc : list string) (sm sm' : SessionManager)
         (reason : string),
    register_outputs d dir query files tick acc sm = (inr reason, sm') ->
    interactions sm' = interactions sm
    /\ _artifact_counter sm < _artifact_counter sm'
       <= _artifact_counter sm + Z.of_nat (List.length files)
    /\ exists file_type file_path a,
         In (file_type, file_path) files
         /\ Dict.get (file_type ++ "_" ++ PyStr.format_03d (_artifact_counter sm'))
              (artifacts sm') = Some a
         /\ art_type a = JStr file_type
         /\ (art_path a = file_path
             \/ art_path a
                = PathLib.joinpath dir
                    ((file_type ++ "_" ++ PyStr.format_03d (_artifact_counter sm'))
                     ++ PathLib.suffix file_path)).
Proof.
  induction files as [|[ft fp] rest IH]; intros tick acc sm sm' reason.
  - cbn [register_outputs]. discriminate.
  - cbn [register_outputs create_artifact art_id PyMore.str].
    set (aid := ft ++ "_" ++ PyStr.format_03d (_artifact_counter sm + 1)).
    destruct (rename_error d fp _) as [r|] eqn:Er.
    { intros E. injection E as <- <-. cbn [interactions _artifact_counter artifacts List.length].
      split; [reflexivity |]. split; [lia |].
      exists ft, fp. eexists. split; [now left |]. fold aid.
      rewrite DictMore.get_set_eq. split; [reflexivity |]. split; [reflexivity |].
      left. reflexivity. }
    assert (Hlate : forall r,
      (inr r : list string * nat + string,
       set_path
         {| art_id := JStr aid; art_type := JStr ft;
            art_format := JStr (PyMore.lstrip_chars "." (PathLib.suffix fp));
            art_path := fp; art_query := JStr query;
            art_created_at := JStr (clock d tick); art_metadata := JObj [] |}
         (PathLib.joinpath dir (aid ++ PathLib.suffix fp))
         {| interactions := interactions sm;
            artifacts := Dict.set aid
              {| art_id := JStr aid; art_type := JStr ft;
                 art_format := JStr (PyMore.lstrip_chars "." (PathLib.suffix fp));
                 art_path := fp; art_query := JStr query;
                 art_created_at := JStr (clock d tick); art_metadata := JObj [] |}
              (artifacts sm);
            _artifact_counter := _artifact_counter sm + 1 |}) = (inr reason, sm') ->
      interactions sm' = interactions sm
      /\ _artifact_counter sm < _artifact_counter sm'
         <= _artifact_counter sm + Z.of_nat (List.length ((ft, fp) :: rest))
      /\ exists file_type file_path a,
           In (file_type, file_path) ((ft, fp) :: rest)
           /\ Dict.get (file_type ++ "_" ++ PyStr.format_03d (_artifact_counter sm'))
                (artifacts sm') = Some a
           /\ art_type a = JStr file_type
           /\ (art_path a = file_path
               \/ art_path a
                  = PathLib.joinpath dir
                      ((file_type ++ "_" ++ PyStr.format_03d (_artifact_counter sm'))
                       ++ PathLib.suffix file_path))).
    { intros r E. injection E as _ <-. unfold set_path.
      cbn [interactions _artifact_counter artifacts List.length art_id PyMore.str].
      split; [reflexivity |]. split; [lia |].
      exists ft, fp. eexists. split; [now left |]. fold aid.
      rewrite DictMore.get_set_eq. split; [reflexivity |]. split; [reflexivity |].
      right. reflexivity. }
    destruct (print_error d _) as [r|]; [apply Hlate |].
    destruct (show_artifact d ft fp _) as [r|]; [apply Hlate |].
    intros E. apply IH in E. clear Hlate.
    unfold set_path in E. cbn [interactions _artifact_counter artifacts art_id PyMore.str] in E.
    destruct E as (Hi & Hn & file_type & file_path & a & Hin & Hget & Ht & Hp).
    split; [exact Hi |]. split; [cbn [List.length]; lia |].
    exists file_type, file_path, a. split; [now right |]. tauto.
Qed.

End RecordFacts.

(** X15: when a run succeeded and neither renaming nor printing raises,
    [process_query] registers one artifact per output file, in the order
    of the mapping and numbered from the counter on: each is stored under
    its identifier with the path of the renamed file (the session
    directory, the identifier and the old suffix) and the suffix without
    its dot as the format; the other entries of the registry are as they
    were; and, with a limit that is not negative, the log ends with an
    interaction that lists exactly these identifiers. *)
Theorem outputs_become_artifacts (settings : Settings) (d : desk) (session_output_dir : Path)
    (query plan code : string) (result : ExecutionResult) (sm : SessionManager) :
  calm d ->
  success result = true ->
  0 <= HISTORY_LIMIT settings ->
  let out := record_result settings d session_output_dir query plan code result sm in
  let ids := new_ids (_artifact_counter sm) (output_files result) in
  fst out = None
  /\ _artifact_counter (snd out)
     = _artifact_counter sm + Z.of_nat (List.length (output_files result))
  /\ (forall i file_type file_path,
        nth_error (output_files result) i = Some (file_type, file_path) ->
        exists aid,
          nth_error ids i = Some aid
          /\ Dict.get aid (artifacts (snd out))
             = Some (registered d session_output_dir query i aid file_type file_path))
  /\ (forall k, ~ In k ids -> Dict.get k (artifacts (snd out)) = Dict.get k (artifacts sm))
  /\ exists dropped older,
       interactions sm = (dropped ++ older)%list
       /\ interactions (snd out)
          = (older ++ [new_interaction (clock d (List.length (output_files result)))
                         query plan code (stdout result) (Some ids)])%list.
Proof.
  intros Hc Hs HL. pose proof Hc as (_ & Hp & _). cbn zeta.
  unfold record_result. rewrite Hs, Hp.
  assert (E0 : (if String.eqb (stdout result) "" then None
                else print_error d (stdout result)) = None)
    by (destruct (String.eqb _ _); [reflexivity | apply Hp]).
  rewrite E0. clear E0.
  destruct (RecordFacts.register_outputs_calm d session_output_dir query Hc
              (output_files result) O [] sm)
    as (sm' & E & Hi & Hn & Hframe & Hnth).
  assert (Er : match output_files result with
               | [] => (inl ([], O), sm)
               | _ :: _ =>
                   match print_error d artifacts_heading with
                   | Some reason => (inr reason, sm)
                   | None =>
                       register_outputs d session_output_dir query (output_files result)
                         O [] sm
                   end
               end
               = (inl (new_ids (_artifact_counter sm) (output_files result),
                       List.length (output_files result)), sm')).
  { rewrite Hp. destruct (output_files result) as [|kv rest] eqn:Ef.
    - cbn [register_outputs] in E. injection E as <-. reflexivity.
    - rewrite E. reflexivity. }
  rewrite Er. clear Er E. cbn [fst snd].
  destruct (HistoryMore.add_interaction_last settings
              (clock d (List.length (output_files result))) query plan code (stdout result)
              (Some (new_ids (_artifact_counter sm) (output_files result))) sm' HL)
    as (dropped & older & Hd & Ho).
  split; [reflexivity |]. split; [exact Hn |]. split.
  - intros i file_type file_path Ei. eexists. split.
    + apply (RecordFacts.new_ids_nth _ _ _ _ _ Ei).
    + apply (Hnth i file_type file_path Ei).
  - split; [exact Hframe |]. exists dropped, older. rewrite <- Hi. now split.
Qed.

Lemma outputs_become_artifacts_witness :
  let out :=
    record_result default_settings quiet_desk sample_output_dir "plot sales" "p" "c"
      two_outputs sample_session in
  let ids := new_ids (_artifact_counter sample_session) (output_files two_outputs) in
  fst out = None
  /\ _artifact_counter (snd out)
     = _artifact_counter sample_session + Z.of_nat (List.length (output_files two_outputs))
  /\ (forall i file_type file_path,
        nth_error (output_files two_outputs) i = Some (file_type, file_path) ->
        exists aid,
          nth_error ids i = Some aid
          /\ Dict.get aid (artifacts (snd out))
             = Some (registered quiet_desk sample_output_dir "plot sales" i aid file_type
                       file_path))
  /\ (forall k, ~ In k ids ->
        Dict.get k (artifacts (snd out)) = Dict.get k (artifacts sample_session))
  /\ exists dropped older,
       interactions sample_session = (dropped ++ older)%list
       /\ interactions (snd out)
          = (older ++ [new_interaction
                         (clock quiet_desk (List.length (output_files two_outputs)))
                         "plot sales" "p" "c" (stdout two_outputs) (Some ids)])%list.
Proof.
  apply (outputs_become_artifacts default_settings quiet_desk sample_output_dir
           "plot sales" "p" "c" two_outputs sample_session).
  - repeat split.
  - reflexivity.
  - vm_compute. discriminate.
Defined.



(** X17: when the loop over the output files of a successful run is left
    by an exception (a failed renaming, print or preview; everything
    before the loop was printed), no interaction is logged, yet the
    counter has moved and the artifact made last stays in the registry
    under the identifier made from the counter, with the path of the file
    before the renaming or after it. *)
Theorem exception_while_recording (settings : Settings) (d : desk)
    (session_output_dir : Path) (query plan code : string) (result : ExecutionResult)
    (sm : SessionManager) (reason : string) :
  success result = true ->
  print_error d success_banner = None ->
  (if String.eqb (stdout result) "" then None else print_error d (stdout result)) = None ->
  print_error d artifacts_heading = None ->
  let out := record_result settings d session_output_dir query plan code result sm in
  fst out = Some reason ->
  interactions (snd out) = interactions sm
  /\ _artifact_counter sm < _artifact_counter (snd out)
     <= _artifact_counter sm + Z.of_nat (List.length (output_files result))
  /\ exists file_type file_path a,
       In (file_type, file_path) (output_files result)
       /\ Dict.get (file_type ++ "_" ++ PyStr.format_03d (_artifact_counter (snd out)))
            (artifacts (snd out)) = Some a
       /\ art_type a = JStr file_type
       /\ (art_path a = file_path
           \/ art_path a
              = PathLib.joinpath session_output_dir
                  ((file_type ++ "_" ++ PyStr.format_03d (_artifact_counter (snd out)))
                   ++ PathLib.suffix file_path)).
Proof.
  intros Hs Hb Ho Hh. cbn zeta. unfold record_result. rewrite Hs, Hb, Ho.
  destruct (output_files result) as [|kv rest] eqn:Ef; [discriminate |].
  rewrite Hh.
  destruct (register_outputs d session_output_dir query (kv :: rest) O [] sm)
    as [[[ids tick]|r] sm'] eqn:E; [discriminate |].
  intros _. cbn [snd].
  exact (RecordFacts.register_outputs_raises _ _ _ _ _ _ _ _ _ E).
Qed.

Lemma exception_while_recording_witness :
  let out :=
    record_result default_settings stuck_desk sample_output_dir "plot sales" "p" "c"
      two_outputs sample_session in
  interactions (snd out) = interactions sample_session
  /\ _artifact_counter sample_session < _artifact_counter (snd out)
     <= _artifact_counter sample_session + Z.of_nat (List.length (output_files two_outputs))
  /\ exists file_type file_path a,
       In (file_type, file_path) (output_files two_outputs)
       /\ Dict.get (file_type ++ "_" ++ PyStr.format_03d (_artifact_counter (snd out)))
            (artifacts (snd out)) = Some a
       /\ art_type a = JStr file_type
       /\ (art_path a = file_path
           \/ art_path a
              = PathLib.joinpath sample_output_dir
                  ((file_type ++ "_" ++ PyStr.format_03d (_artifact_counter (snd out)))
                   ++ PathLib.suffix file_path)).
Proof.
  apply (exception_while_recording default_settings stuck_desk sample_output_dir
           "plot sales" "p" "c" two_outputs sample_session "[Errno 13] Permission denied");
    reflexivity.
Defined.

(** * Properties of conversion and export *)

Module SuffixFacts.

Lemma rfind_None (c : ascii) (s : string) :
  PyStr.rfind c s = None <-> PyStr.mem c s = false.
Proof.
  induction s as [|d t IH]; cbn [PyStr.rfind PyStr.mem]; [tauto |].
  destruct (PyStr.rfind c t) as [i|].
  - split; [discriminate |]. intros H. apply orb_false_iff in H as [_ H].
    apply IH in H. discriminate.
  - destruct (Ascii.eqb d c); cbn [orb]; [split; discriminate |].
    split; intros _; [now apply IH | reflexivity].
Qed.

Lemma rfind_Some (c : ascii) (s : string) :
  forall i, PyStr.rfind c s = Some i ->
  exists a b, s = a ++ String c b /\ String.length a = i /\ PyStr.mem c b = false.
Proof.
  induction s as [|d t IH]; cbn [PyStr.rfind]; [discriminate |]. intros i.
  destruct (PyStr.rfind c t) as [j|] eqn:E.
  - intros H. injection H as <-. destruct (IH j eq_refl) as (a & b & -> & Hl & Hm).
    exists (String d a), b. cbn [append String.length]. now rewrite Hl.
  - destruct (Ascii.eqb d c) eqn:Ed; [| discriminate].
    intros H. injection H as <-. apply Ascii.eqb_eq in Ed. subst d.
    exists "", t. repeat split. now apply rfind_None.
Qed.

Lemma rfind_app (c : ascii) (a b : string) :
  PyStr.mem c b = false -> PyStr.rfind c (a ++ String c b) = Some (String.length a).
Proof.
  intros Hb. induction a as [|d a IH]; cbn [append PyStr.rfind String.length].
  - apply rfind_None in Hb. now rewrite Hb, Ascii.eqb_refl.
  - now rewrite IH.
Qed.

Lemma drop_app (a b : string) : PyStr.drop (String.length a) (a ++ b) = b.
Proof. induction a as [|c a IH]; [reflexivity | exact IH]. Qed.

Lemma take_app (a b : string) : PyMore.take (String.length a) (a ++ b) = a.
Proof.
  unfold PyMore.take. induction a as [|c a IH]; cbn [String.length append substring].
  - now destruct b.
  - now rewrite IH.
Qed.

(** A suffix is a dot followed by text without a dot, after a stem that
    is not empty. *)
Lemma suffix_of_name_shape (nm : string) :
  PathLib.suffix_of_name nm <> "" ->
  exists stem ext,
    nm = stem ++ String "." ext /\ stem <> "" /\ ext <> "" /\ PyStr.mem "." ext = false
    /\ PathLib.suffix_of_name nm = String "." ext.
Proof.
  unfold PathLib.suffix_of_name. destruct (PyStr.rfind "." nm) as [i|] eqn:E; [| congruence].
  destruct (rfind_Some _ _ _ E) as (a & b & -> & Hl & Hm). subst i.
  destruct (_ && _)%bool eqn:Hc; [| congruence]. intros _.
  apply andb_true_iff in Hc as [H0 H1].
  apply Nat.ltb_lt in H0. apply Nat.ltb_lt in H1.
  rewrite StrFacts.length_append in H1. cbn [String.length] in H1.
  exists a, b. rewrite drop_app. repeat split; try assumption.
  - intros ->. cbn in H0. lia.
  - intros ->. cbn in H1. lia.
Qed.

Lemma suffix_of_name_app (stem ext : string) :
  stem <> "" -> ext <> "" -> PyStr.mem "." ext = false ->
  PathLib.suffix_of_name (stem ++ String "." ext) = String "." ext.
Proof.
  intros Hs He Hm. unfold PathLib.suffix_of_name. rewrite (rfind_app _ _ _ Hm).
  rewrite StrFacts.length_append. cbn [String.length].
  assert (H0 : Nat.ltb 0 (String.length stem) = true)
    by (apply Nat.ltb_lt; destruct stem; [congruence | cbn; lia]).
  assert (H1 : Nat.ltb (String.length stem)
                 (String.length stem + S (String.length ext) - 1) = true)
    by (apply Nat.ltb_lt; destruct ext; [congruence | cbn; lia]).
  rewrite H0, H1. apply drop_app.
Qed.

Lemma lstrip_dot (ext : string) :
  PyStr.mem "." ext = false -> PyMore.lstrip_chars "." (String "." ext) = ext.
Proof.
  intros Hm. cbn [PyMore.lstrip_chars PyStr.mem]. rewrite Ascii.eqb_refl. cbn [orb].
  destruct ext as [|c t]; [reflexivity |]. cbn [PyMore.lstrip_chars PyStr.mem].
  cbn [PyStr.mem] in Hm. apply orb_false_iff in Hm as [Hc _].
  rewrite Ascii.eqb_sym in Hc. rewrite Hc. reflexivity.
Qed.

(** The format [convert_format] reads is [csv] only for a name that ends
    in [.csv] after a stem. *)
Lemma format_csv (p : Path) :
  PyMore.lstrip_chars "." (PathLib.suffix p) = "csv" ->
  exists stem, PathLib.name p = stem ++ ".csv" /\ stem <> "" /\ PathLib.suffix p = ".csv".
Proof.
  unfold PathLib.suffix. intros H.
  destruct (String.eqb (PathLib.suffix_of_name (PathLib.name p)) "") eqn:E.
  - apply String.eqb_eq in E. rewrite E in H. discriminate.
  - apply String.eqb_neq in E.
    destruct (suffix_of_name_shape _ E) as (stem & ext & Hn & Hs & He & Hm & Hx).
    rewrite Hx, (lstrip_dot _ Hm) in H. subst ext. exists stem. now rewrite Hx.
Qed.

Lemma last_snoc {A : Type} (l : list A) (x d : A) : List.last (l ++ [x]) d = x.
Proof. apply last_last. Qed.

(** Replacing [.csv] by [.xlsx]. *)
Lemma with_suffix_csv (p : Path) (stem : string) :
  PathLib.name p = stem ++ ".csv" -> stem <> "" ->
  with_suffix p ".xlsx"
  = Some {| PathLib.anchor := PathLib.anchor p;
            PathLib.parts := (removelast (PathLib.parts p) ++ [(stem ++ ".xlsx")%string])%list |}
  /\ PathLib.suffix
       {| PathLib.anchor := PathLib.anchor p;
          PathLib.parts := (removelast (PathLib.parts p) ++ [(stem ++ ".xlsx")%string])%list |}
     = ".xlsx".
Proof.
  intros Hn Hs. split.
  - unfold with_suffix. cbn [PyStr.mem Ascii.eqb orb]. 
    change (PyStr.mem "/" ".xlsx") with false. cbv iota.
    change ((negb (String.eqb ".xlsx" "") && negb (PyStr.startswith "." ".xlsx")
             || String.eqb ".xlsx" ".")%bool) with false. cbv iota.
    unfold PathLib.suffix. rewrite Hn.
    rewrite (suffix_of_name_app stem "csv" Hs) by (reflexivity || discriminate).
    assert (E : String.eqb (stem ++ ".csv") "" = false)
      by (apply String.eqb_neq; destruct stem; [congruence | discriminate]).
    rewrite E. cbn [String.eqb Ascii.eqb]. cbv iota.
    change (String.eqb ".csv" "") with false. cbv iota.
    rewrite StrFacts.length_append.
    replace (String.length stem + String.length ".csv" - String.length ".csv")%nat
      with (String.length stem) by (cbn [String.length]; lia).
    now rewrite take_app.
  - unfold PathLib.suffix, PathLib.name. cbn [PathLib.parts]. rewrite last_snoc.
    apply (suffix_of_name_app stem "xlsx" Hs); [discriminate | reflexivity].
Qed.

Lemma supported_only (source_format target_format : string) :
  Exporter.supported source_format target_format = true ->
  source_format = "csv" /\ target_format = "xlsx".
Proof.
  unfold Exporter.supported, Exporter.supported_conversions. cbn [existsb fst snd].
  rewrite orb_false_r. intros H. apply andb_true_iff in H as [H1 H2].
  apply String.eqb_eq in H1. apply String.eqb_eq in H2. now subst.
Qed.

Lemma list_getitem_In {A : Type} (l : list A) (i : Z) (x : A) :
  PyMore.list_getitem l i = Some x -> In x l.
Proof.
  unfold PyMore.list_getitem. destruct (0 <=? i); [apply nth_error_In |].
  destruct (_ <=? i); [apply nth_error_In | discriminate].
Qed.

End SuffixFacts.

(** X18: the index the user gives is used as a Python list index after
    one is subtracted, so an index from zero downwards counts from the
    end of the listing: with [n] artifacts, the answers [0], [-1], ...
    behave exactly as [n], [n - 1], ... and the answer [0] selects the last
    artifact. *)
Theorem index_from_zero_downwards_counts_from_the_end (x : Exporter.world)
    (now choice choice' target_format : string) (sm : SessionManager) (n : Z) :
  PyMore.int choice = Some n ->
  PyMore.int choice' = Some (n + Z.of_nat (List.length (list_artifacts sm))) ->
  - Z.of_nat (List.length (list_artifacts sm)) < n <= 0 ->
  export_artifact x now choice target_format sm
  = export_artifact x now choice' target_format sm.
Proof.
  intros Hc Hc' Hn. unfold export_artifact, export_steps. rewrite Hc, Hc'.
  set (l := list_artifacts sm) in *.
  assert (E : PyMore.list_getitem l (n - 1)
              = PyMore.list_getitem l (n + Z.of_nat (List.length l) - 1)).
  { unfold PyMore.list_getitem.
    destruct (0 <=? n - 1) eqn:E1; [apply Z.leb_le in E1; lia |].
    destruct (- Z.of_nat (List.length l) <=? n - 1) eqn:E2;
      [| apply Z.leb_gt in E2; lia].
    destruct (0 <=? n + Z.of_nat (List.length l) - 1) eqn:E3;
      [| apply Z.leb_gt in E3; lia].
    f_equal. lia. }
  now rewrite E.
Qed.

Lemma index_from_zero_downwards_counts_from_the_end_witness :
  export_artifact Exporter.kind_world "2024-05-01T10:02:00" "0" "xlsx" chart_and_table
  = export_artifact Exporter.kind_world "2024-05-01T10:02:00" "2" "xlsx" chart_and_table.
Proof.
  apply (index_from_zero_downwards_counts_from_the_end Exporter.kind_world
           "2024-05-01T10:02:00" "0" "2" "xlsx" chart_and_table 0).
  - reflexivity.
  - reflexivity.
  - vm_compute. split; [reflexivity | discriminate].
Defined.

(** X19: [export_artifact] converts only from [.csv] to [xlsx], both
    compared as they are written: whenever it reports a conversion, the
    target format is [xlsx], the chosen artifact is one of the listing
    whose file name ends in [.csv] in lower case after a stem, the new
    file is its sibling with [.xlsx] in place of [.csv], and the registry
    gains one artifact of type [file] and format [xlsx] for it. *)
Theorem export_converts_only_csv_to_xlsx (x : Exporter.world)
    (now choice target_format : string) (sm sm' : SessionManager) (output_path : Path) :
  export_artifact x now choice target_format sm = (Converted output_path, sm') ->
  target_format = "xlsx"
  /\ exists a stem,
       In a (list_artifacts sm)
       /\ PathLib.name (art_path a) = stem ++ ".csv"
       /\ stem <> ""
       /\ output_path
          = {| PathLib.anchor := PathLib.anchor (art_path a);
               PathLib.parts :=
                 (removelast (PathLib.parts (art_path a)) ++ [(stem ++ ".xlsx")%string])%list |}
       /\ sm' = snd (create_artifact now "file" "xlsx" output_path
                       ("Converted from " ++ PyMore.str (art_id a)) sm).
Proof.
  unfold export_artifact.
  destruct (export_steps x now choice target_format sm) as [s sm1] eqn:E.
  intros H. injection H as Hs <-.
  assert (s = Converted output_path) as ->.
  { unfold announce in Hs. destruct s; try exact Hs;
      destruct (Exporter.print_error x _); discriminate. }
  clear Hs. unfold export_steps in E.
  destruct (list_artifacts sm) as [|a0 l] eqn:El; [discriminate |]. rewrite <- El in E.
  destruct (Exporter.session_info_error x); [discriminate |].
  destruct (PyMore.int choice) as [n|]; [| discriminate].
  destruct (PyMore.list_getitem (list_artifacts sm) (n - 1)) as [a|] eqn:Ea; [| discriminate].
  apply SuffixFacts.list_getitem_In in Ea.
  destruct (Exporter.path_exists x (art_path a)) as [[|]|] eqn:Ex;
    [| destruct (Exporter.print_error x _); discriminate | discriminate].
  unfold Exporter.convert_format in E. rewrite Ex in E.
  destruct (Exporter.supported _ target_format) eqn:Hsup;
    cbn [negb] in E; [| discriminate].
  apply SuffixFacts.supported_only in Hsup as [Hcsv ->].
  destruct (SuffixFacts.format_csv _ Hcsv) as (stem & Hn & Hne & _).
  destruct (SuffixFacts.with_suffix_csv _ _ Hn Hne) as [Hw Hsuf].
  change ("." ++ "xlsx") with ".xlsx" in E. rewrite Hw in E.
  destruct (Exporter.csv_to_excel_error x _ _) as [[m|m|m]|]; try discriminate.
  destruct (Exporter.print_error x _); [discriminate |].
  injection E as <- <-. split; [reflexivity |]. exists a, stem.
  split; [rewrite <- El; exact Ea |]. split; [exact Hn |]. split; [exact Hne |].
  split; [reflexivity |]. rewrite Hsuf. reflexivity.
Qed.

Lemma export_converts_only_csv_to_xlsx_witness :
  let output_path := PathLib.of_string "/srv/outputs/session_1/table.xlsx" in
  let sm' :=
    snd (create_artifact "2024-05-01T10:02:00" "file" "xlsx" output_path
           "Converted from table_002" chart_and_table) in
  "xlsx" = "xlsx"
  /\ exists a stem,
       In a (list_artifacts chart_and_table)
       /\ PathLib.name (art_path a) = stem ++ ".csv"
       /\ stem <> ""
       /\ output_path
          = {| PathLib.anchor := PathLib.anchor (art_path a);
               PathLib.parts :=
                 (removelast (PathLib.parts (art_path a)) ++ [(stem ++ ".xlsx")%string])%list |}
       /\ sm' = snd (create_artifact "2024-05-01T10:02:00" "file" "xlsx" output_path
                       ("Converted from " ++ PyMore.str (art_id a)) chart_and_table).
Proof.
  apply (export_converts_only_csv_to_xlsx Exporter.kind_world "2024-05-01T10:02:00" "2"
           "xlsx" chart_and_table).
  vm_compute. reflexivity.
Defined.

(** * Properties of the language service *)

Module TextFacts.

Lemma prefix_app (x b : string) : String.prefix x (x ++ b) = true.
Proof.
  induction x as [|c x IH]; cbn [append String.prefix]; [now destruct b |].
  destruct (ascii_dec c c); [exact IH | congruence].
Qed.

Lemma prefix_length (p s : string) :
  String.prefix p s = true -> (String.length p <= String.length s)%nat.
Proof.
  revert p. induction s as [|c s IH]; intros [|a p]; cbn [String.prefix String.length];
    try discriminate; try lia.
  destruct (ascii_dec a c); [| discriminate]. intros H. apply IH in H. lia.
Qed.

Lemma contains_app (x a b : string) : PyStr.contains x (a ++ x ++ b) = true.
Proof.
  induction a as [|c a IH]; cbn [append].
  - destruct (x ++ b) as [|c t] eqn:E; cbn [PyStr.contains]; unfold PyStr.startswith.
    + destruct x; [reflexivity | discriminate].
    + rewrite <- E, prefix_app. reflexivity.
  - cbn [PyStr.contains]. rewrite IH. apply orb_true_r.
Qed.

Lemma lower_append (a b : string) : PyStr.lower (a ++ b) = PyStr.lower a ++ PyStr.lower b.
Proof. induction a as [|c a IH]; cbn [append PyStr.lower]; [reflexivity | now rewrite IH]. Qed.

(** White space is removed from the left up to the first other
    character. *)
Lemma lstrip_app (pre : string) (c : ascii) (rest : string) :
  PyMore.isspace c = false ->
  PyMore.lstrip (pre ++ String c rest) = PyMore.lstrip pre ++ String c rest.
Proof.
  intros Hc. induction pre as [|d pre IH]; cbn [append PyMore.lstrip].
  - now rewrite Hc.
  - destruct (PyMore.isspace d); [exact IH | reflexivity].
Qed.

(** ... and from the right down to the last other character. *)
Lemma rstrip_app (a : string) (c : ascii) (b : string) :
  PyMore.isspace c = false ->
  PyMore.rstrip (a ++ String c b) = a ++ String c (PyMore.rstrip b).
Proof.
  intros Hc. induction a as [|d a IH]; cbn [append PyMore.rstrip].
  - rewrite Hc. now destruct (PyMore.rstrip b).
  - rewrite IH. now destruct a.
Qed.

Lemma lstrip_blank (s : string) : blank s = true -> PyMore.lstrip s = "".
Proof.
  unfold blank. induction s as [|c s IH]; cbn [PyStr.all PyMore.lstrip]; [reflexivity |].
  intros H. apply andb_true_iff in H as [Hc Hs]. rewrite Hc. now apply IH.
Qed.

Lemma rstrip_blank (s : string) : blank s = true -> PyMore.rstrip s = "".
Proof.
  unfold blank. induction s as [|c s IH]; cbn [PyStr.all PyMore.rstrip]; [reflexivity |].
  intros H. apply andb_true_iff in H as [Hc Hs]. rewrite (IH Hs). now rewrite Hc.
Qed.

(** A text that is not empty ends with its last character. *)
Lemma last_character (t : string) :
  forall c, exists y,
    String c t = y ++ String (List.last (list_ascii_of_string t) c) "".
Proof.
  induction t as [|d t IH]; intros c.
  - exists "". reflexivity.
  - destruct (IH d) as (y & Hy). exists (String c y).
    assert (E : forall l (u v : ascii), List.last (u :: l) v = List.last l u).
    { induction l as [|w l IHl]; intros u v; [reflexivity |].
      change (List.last (u :: w :: l) v) with (List.last (w :: l) v).
      rewrite (IHl w v). symmetry. apply IHl. }
    cbn [append list_ascii_of_string]. rewrite E. now rewrite <- Hy.
Qed.

(** Stripping keeps a text that neither starts nor ends with white space,
    wherever it stands. *)
Lemma strip_keeps (pre x post : string) :
  solid x = true ->
  PyMore.strip (pre ++ x ++ post) = PyMore.lstrip pre ++ x ++ PyMore.rstrip post.
Proof.
  intros Hx. destruct x as [|c t]; [discriminate |]. cbn [solid] in Hx.
  apply andb_true_iff in Hx as [Hc Hl].
  apply negb_true_iff in Hc. apply negb_true_iff in Hl.
  unfold PyMore.strip. cbn [append]. rewrite (lstrip_app _ _ _ Hc).
  destruct (last_character t c) as (y & Hy).
  change (String c (t ++ post)) with (String c t ++ post). rewrite Hy.
  rewrite !StrFacts.append_assoc. cbn [append].
  rewrite <- (StrFacts.append_assoc (PyMore.lstrip pre) y).
  rewrite (rstrip_app _ _ _ Hl).
  change (String c (t ++ PyMore.rstrip post)) with (String c t ++ PyMore.rstrip post).
  rewrite Hy, !StrFacts.append_assoc. reflexivity.
Qed.

Lemma any_in_intro (indicators : list string) (indicator text : string) :
  In indicator indicators -> PyStr.contains indicator text = true ->
  any_in indicators text = true.
Proof.
  intros Hin Hc. unfold any_in. apply existsb_exists. now exists indicator.
Qed.

Lemma meta_indicators_solid : forallb solid meta_question_indicators = true.
Proof. reflexivity. Qed.

Lemma endswith_app (a p : string) : PyMore.endswith p (a ++ p) = true.
Proof.
  induction a as [|c a IH]; cbn [append].
  - destruct p; cbn [PyMore.endswith]; now rewrite String.eqb_refl.
  - cbn [PyMore.endswith]. rewrite IH. apply orb_true_r.
Qed.

Lemma find_prefix (n rest : string) : PyMore.find n (n ++ rest) = Some O.
Proof.
  destruct (n ++ rest) eqn:E; cbn [PyMore.find]; unfold PyStr.startswith;
    rewrite <- E, prefix_app; reflexivity.
Qed.

Lemma find_None (n s : string) : PyStr.contains n s = false -> PyMore.find n s = None.
Proof.
  induction s as [|c s IH]; cbn [PyStr.contains PyMore.find].
  - now intros ->.
  - intros H. apply orb_false_iff in H as [H1 H2]. rewrite H1, (IH H2). reflexivity.
Qed.

Lemma rfind_short (n s : string) :
  (String.length s < String.length n)%nat -> PyMore.rfind n s = None.
Proof.
  induction s as [|c s IH]; cbn [PyMore.rfind String.length]; intros H.
  - unfold PyStr.startswith. destruct n; [cbn in H; lia | reflexivity].
  - rewrite IH by lia. unfold PyStr.startswith.
    destruct (String.prefix n (String c s)) eqn:E; [| reflexivity].
    apply prefix_length in E. cbn [String.length] in E. lia.
Qed.

Lemma rfind_end (a n : string) : n <> "" -> PyMore.rfind n (a ++ n) = Some (String.length a).
Proof.
  intros Hn. induction a as [|c a IH]; cbn [append String.length].
  - destruct n as [|c t]; [congruence |]. cbn [PyMore.rfind].
    rewrite rfind_short by (cbn [String.length]; lia).
    unfold PyStr.startswith.
    now rewrite <- (StrFacts.append_nil_r (String c t)) at 2; rewrite prefix_app.
  - cbn [PyMore.rfind]. now rewrite IH.
Qed.

End TextFacts.

(** X20: a query that holds one of the phrases asking what the assistant
    can do, in any letter case and at any place, is treated as a question
    and never run as an analysis, whatever else the query holds. *)
Theorem capability_phrase_is_a_question (indicator variant before after : string) :
  In indicator meta_question_indicators ->
  PyStr.lower variant = indicator ->
  detect_query_intent (before ++ variant ++ after) = "question".
Proof.
  intros Hin Hl. unfold detect_query_intent.
  rewrite !TextFacts.lower_append, Hl.
  pose proof TextFacts.meta_indicators_solid as Hs.
  rewrite forallb_forall in Hs. specialize (Hs _ Hin).
  rewrite (TextFacts.strip_keeps _ _ _ Hs).
  rewrite (TextFacts.any_in_intro meta_question_indicators indicator _ Hin
             (TextFacts.contains_app _ _ _)).
  reflexivity.
Qed.

Lemma capability_phrase_is_a_question_witness :
  detect_query_intent ("Please " ++ "Help Me" ++ " plot the average sales") = "question".
Proof.
  apply (capability_phrase_is_a_question "help me" "Help Me" "Please "
           " plot the average sales").
  - vm_compute. tauto.
  - reflexivity.
Defined.

(** X21: a response that is one fenced block, the opening tag with its
    newline before the code and a newline with the closing fence after
    it, possibly surrounded by white space, is cleaned to the code
    itself with the white space around it removed, whatever the code
    holds. *)
Theorem fenced_response_is_unwrapped (before body after : string) :
  blank before = true ->
  blank after = true ->
  clean_response (before ++ fence_open ++ body ++ fence_close ++ after)
  = Some (PyMore.strip body).
Proof.
  intros Hb Ha. unfold clean_response.
  assert (Es : PyMore.strip (before ++ fence_open ++ body ++ fence_close ++ after)
               = fence_open ++ body ++ fence_close).
  { unfold PyMore.strip.
    change (fence_open ++ body ++ fence_close ++ after)
      with (String "`" ("``python" ++ String PyMore.newline "" ++ body ++ fence_close ++ after)).
    rewrite TextFacts.lstrip_app by reflexivity. rewrite (TextFacts.lstrip_blank _ Hb).
    cbn [append].
    change (String "`" (String "`" (String "`" (String "p" (String "y" (String "t"
              (String "h" (String "o" (String "n" (String PyMore.newline
                (body ++ fence_close ++ after)))))))))))
      with (fence_open ++ body ++ fence_close ++ after).
    replace (fence_open ++ body ++ fence_close ++ after)
      with ((fence_open ++ body ++ String PyMore.newline "``") ++ String "`" after).
    2:{ rewrite !StrFacts.append_assoc. reflexivity. }
    rewrite TextFacts.rstrip_app by reflexivity. rewrite (TextFacts.rstrip_blank _ Ha).
    rewrite !StrFacts.append_assoc. reflexivity. }
  rewrite Es.
  assert (E1 : PyStr.startswith fence_python (fence_open ++ body ++ fence_close) = true)
    by reflexivity.
  rewrite E1. unfold PyMore.split_once. rewrite TextFacts.find_prefix.
  cbn [nth_error Nat.add]. rewrite SuffixFacts.drop_app.
  replace (body ++ fence_close) with ((body ++ String PyMore.newline "") ++ fence)
    by (rewrite StrFacts.append_assoc; reflexivity).
  rewrite TextFacts.endswith_app.
  replace ((body ++ String PyMore.newline "") ++ fence) with (body ++ fence_close)
    by (rewrite StrFacts.append_assoc; reflexivity).
  unfold PyMore.rsplit_once. rewrite TextFacts.rfind_end by discriminate.
  cbn [hd]. now rewrite SuffixFacts.take_app.
Qed.

Lemma fenced_response_is_unwrapped_witness :
  clean_response (" " ++ fence_open ++ "print(1) " ++ fence_close ++ String PyMore.newline "")
  = Some (PyMore.strip "print(1) ").
Proof.
  apply (fenced_response_is_unwrapped " " "print(1) " (String PyMore.newline ""));
    reflexivity.
Defined.

(** X22: a response that starts with the opening tag of a Python block
    but nowhere holds the tag followed by a newline makes [generate_code]
    raise an index error instead of returning code; a response that is
    only the tag and a newline is such a response, because the newline is
    stripped first. *)
Theorem opening_tag_without_newline_raises (content : string) :
  PyStr.startswith fence_python (PyMore.strip content) = true ->
  PyStr.contains fence_open (PyMore.strip content) = false ->
  clean_response content = None.
Proof.
  intros Hs Hc. unfold clean_response. rewrite Hs.
  unfold PyMore.split_once. now rewrite (TextFacts.find_None _ _ Hc).
Qed.

Lemma opening_tag_without_newline_raises_witness : clean_response fence_open = None.
Proof.
  apply (opening_tag_without_newline_raises fence_open); reflexivity.
Defined.

(** * The load line and the copied dataset *)

Module LoadLineFacts.

Lemma rewrite_quoted_stretch (D O u rest : string) :
  quote_free u = true ->
  rewrite_quoted D O 0 (u ++ rest) = u ++ rewrite_quoted D O 0 rest.
Proof.
  unfold quote_free. induction u as [|c u IH]; cbn [append PyStr.all]; [reflexivity |].
  intros H. apply andb_true_iff in H as [Hc Hu]. apply negb_true_iff in Hc.
  cbn [rewrite_quoted]. rewrite Hc. now rewrite (IH Hu).
Qed.

Lemma all_replace_char (P : ascii -> bool) (c : ascii) (new s : string) :
  PyStr.all P new = true -> PyStr.all P s = true ->
  PyStr.all P (PyStr.replace (String c "") new s) = true.
Proof.
  intros Hn. unfold PyStr.replace.
  induction s as [|d s IH]; cbn [PyStr.all PyStr.replace_from]; [reflexivity |].
  intros H. apply andb_true_iff in H as [Hd Hs].
  destruct (PyStr.startswith (String c "") (String d s)).
  - cbn [String.length Nat.pred]. rewrite StrFacts.all_append, Hn. now apply IH.
  - cbn [PyStr.all]. rewrite Hd. now apply IH.
Qed.

Lemma var_name_quote_free (name : string) :
  quote_free name = true -> quote_free (var_name name) = true.
Proof.
  intros H. unfold var_name, quote_free.
  rewrite StrFacts.all_append. apply andb_true_iff. split; [reflexivity |].
  apply all_replace_char; [reflexivity |]. apply all_replace_char; [reflexivity | exact H].
Qed.

Lemma concat_snoc (l : list string) (x : string) :
  l <> [] -> String.concat "/" (l ++ [x]) = String.concat "/" l ++ "/" ++ x.
Proof.
  induction l as [|a l IH]; [congruence |]. intros _.
  destruct l as [|b l]; [reflexivity |].
  change ((a :: b :: l) ++ [x])%list with (a :: b :: (l ++ [x]))%list.
  change (String.concat "/" (a :: b :: (l ++ [x])%list))
    with (a ++ "/" ++ String.concat "/" ((b :: l) ++ [x])%list).
  rewrite IH by discriminate.
  change (String.concat "/" (a :: b :: l)) with (a ++ "/" ++ String.concat "/" (b :: l)).
  now rewrite !StrFacts.append_assoc.
Qed.

Lemma rewrite_quoted_tail (D O : string) :
  rewrite_quoted D O 0 (".csv')" ++ String PyMore.newline (String PyMore.newline ""))
  = ".csv')" ++ String PyMore.newline (String PyMore.newline "").
Proof. reflexivity. Qed.

Lemma to_string_snoc (r : PathLib.root) (ps : list string) (x : string) :
  ps <> [] ->
  PathLib.to_string {| PathLib.anchor := r; PathLib.parts := (ps ++ [x])%list |}
  = PathLib.to_string {| PathLib.anchor := r; PathLib.parts := ps |} ++ "/" ++ x.
Proof.
  intros Hne. pose proof (concat_snoc ps x Hne) as E.
  destruct ps as [|s ps]; [congruence |].
  unfold PathLib.to_string. cbn [PathLib.anchor PathLib.parts].
  change ((s :: ps) ++ [x])%list with (s :: (ps ++ [x]))%list in *.
  destruct r; rewrite E, ?StrFacts.append_assoc; reflexivity.
Qed.

(** The text of the copy is the text of the input area, a slash and the
    file name. *)
Lemma dataset_copy_text (w : world) (name : string) :
  PathLib.part_ok (name ++ ".csv") = true ->
  PathLib.to_string (dataset_copy w name) = data_area_text w ++ "/" ++ name ++ ".csv".
Proof.
  intros Hp. unfold dataset_copy, data_area_text.
  unfold PathLib.joinpath at 1. rewrite (CollectorFacts.of_string_part _ Hp).
  cbn [PathLib.anchor PathLib.parts].
  unfold PathLib.joinpath.
  change (PathLib.of_string "data")
    with {| PathLib.anchor := PathLib.Relative; PathLib.parts := ["data"] |}.
  cbn [PathLib.anchor PathLib.parts].
  apply to_string_snoc. destruct (PathLib.parts (temp_dir w)); discriminate.
Qed.

End LoadLineFacts.

(** X23: the line of the prompt that loads a dataset and the copy the
    executor makes of it agree: when the local backend rewrites the line,
    the file read is exactly the path the dataset was copied to.  This
    holds for a dataset name without quotes that makes one file name, the
    paths of the two areas holding no quote and the input area not
    beginning with [/output/]. *)
Theorem load_line_reads_the_copied_dataset (w : world) (name : string) :
  quote_free (data_area_text w) = true ->
  quote_free (output_area_text w) = true ->
  diverges "/output/" (data_area_text w ++ "/") = true ->
  quote_free name = true ->
  PathLib.part_ok (name ++ ".csv") = true ->
  subprocess_script w (load_line name)
  = var_name name ++ " = pd.read_csv(r'" ++ PathLib.to_string (dataset_copy w name) ++ "')"
    ++ String PyMore.newline (String PyMore.newline "").
Proof.
  intros HD HO Hv Hq Hp.
  unfold subprocess_script. rewrite RewriteFacts.prepare_four_passes.
  fold (data_area_text w). fold (output_area_text w).
  rewrite (RewriteFacts.four_passes_rewrite_quoted _ _ HD HO Hv
             (String.length (load_line name))) by apply Nat.le_refl.
  rewrite (LoadLineFacts.dataset_copy_text _ _ Hp).
  unfold load_line.
  rewrite (LoadLineFacts.rewrite_quoted_stretch _ _ _ _
             (LoadLineFacts.var_name_quote_free _ Hq)).
  f_equal.
  change (" = pd.read_csv('/data/" ++ name ++ ".csv')"
          ++ String PyMore.newline (String PyMore.newline ""))
    with (" = pd.read_csv(" ++ String single_quote ("/data/" ++ name ++ ".csv')"
          ++ String PyMore.newline (String PyMore.newline ""))).
  rewrite LoadLineFacts.rewrite_quoted_stretch by reflexivity.
  cbn [rewrite_quoted]. change (is_quote single_quote) with true. cbv iota.
  change (PyStr.startswith "/data/" ("/data/" ++ name ++ ".csv')"
            ++ String PyMore.newline (String PyMore.newline "")))
    with (String.prefix "/data/" ("/data/" ++ (name ++ ".csv')"
            ++ String PyMore.newline (String PyMore.newline "")))).
  rewrite TextFacts.prefix_app. cbn [append rewrite_quoted].
  rewrite (LoadLineFacts.rewrite_quoted_stretch _ _ name _ Hq).
  rewrite LoadLineFacts.rewrite_quoted_tail.
  rewrite !StrFacts.append_assoc. cbn [append]. now rewrite !StrFacts.append_assoc.
Qed.

Lemma load_line_reads_the_copied_dataset_witness :
  subprocess_script (quiet_world 1 []) (load_line "sales-2024")
  = var_name "sales-2024" ++ " = pd.read_csv(r'"
    ++ PathLib.to_string (dataset_copy (quiet_world 1 []) "sales-2024") ++ "')"
    ++ String PyMore.newline (String PyMore.newline "").
Proof.
  apply (load_line_reads_the_copied_dataset (quiet_world 1 []) "sales-2024"); reflexivity.
Defined.

(** * A query as a whole *)

Module QueryFacts.

Lemma set_path_counter (a : Artifact) (p : Path) (sm : SessionManager) :
  _artifact_counter (set_path a p sm) = _artifact_counter sm.
Proof. reflexivity. Qed.

Lemma register_outputs_counter (d : desk) (dir : Path) (query : string) :
  forall (files : Dict.t Path) (tick : nat) (acc : list string) (sm : SessionManager),
    let out := register_outputs d dir query files tick acc sm in
    _artifact_counter sm <= _artifact_counter (snd out)
    <= _artifact_counter sm + Z.of_nat (List.length files).
Proof.
  induction files as [|[ft fp] rest IH]; intros tick acc sm; cbn zeta.
  - cbn [register_outputs snd List.length]. lia.
  - cbn [register_outputs create_artifact art_id PyMore.str].
    destruct (rename_error d fp _); [cbn [snd _artifact_counter List.length]; lia |].
    destruct (print_error d _);
      [unfold set_path; cbn [snd _artifact_counter List.length]; lia |].
    destruct (show_artifact d ft fp _);
      [unfold set_path; cbn [snd _artifact_counter List.length]; lia |].
    match goal with
    | |- context [register_outputs d dir query rest ?t ?a ?s] =>
        pose proof (IH t a s) as H
    end.
    cbn zeta in H. rewrite !set_path_counter in H. cbn [_artifact_counter] in H.
    cbn [List.length]. lia.
Qed.

Lemma record_result_counter (settings : Settings) (d : desk) (dir : Path)
    (query plan code : string) (result : ExecutionResult) (sm : SessionManager) :
  let out := record_result settings d dir query plan code result sm in
  _artifact_counter sm <= _artifact_counter (snd out)
  <= _artifact_counter sm + Z.of_nat (List.length (output_files result)).
Proof.
  cbn zeta. unfold record_result.
  pose proof (Zle_0_nat (List.length (output_files result))) as Hpos.
  destruct (success result).
  - destruct (print_error d success_banner); [cbn [snd]; lia |].
    destruct (if String.eqb (stdout result) "" then None else print_error d (stdout result));
      [cbn [snd]; lia |].
    destruct (output_files result) as [|kv rest] eqn:Ef.
    { cbn [snd]. rewrite (proj2 (RecordFacts.add_interaction_registry _ _ _ _ _ _ _ _)). lia. }
    destruct (print_error d artifacts_heading); [cbn [snd]; lia |].
    pose proof (register_outputs_counter d dir query (kv :: rest) O [] sm) as H.
    cbn zeta in H.
    destruct (register_outputs d dir query (kv :: rest) O [] sm) as [[[ids tick]|r] sm'];
      cbn [snd] in *; [| exact H].
    rewrite (proj2 (RecordFacts.add_interaction_registry _ _ _ _ _ _ _ _)). exact H.
  - destruct (print_error d (failure_panel result)); cbn [snd]; [lia |].
    rewrite (proj2 (RecordFacts.add_interaction_registry _ _ _ _ _ _ _ _)). lia.
Qed.

Lemma collected_at_most_three (w : world) (entries : list dir_entry)
    (source_dir dest_dir : Path) (files : Dict.t Path) :
  _collect_output_files w entries source_dir dest_dir = inl files ->
  (List.length files <= 3)%nat.
Proof.
  unfold _collect_output_files. intros H.
  destruct (CollectMore.collect_loop_keys w source_dir dest_dir entries [] files H)
    as [Hn Hi]; [constructor | intros k [] |].
  pose proof (NoDup_incl_length Hn Hi) as Hlen. unfold Dict.keys in Hlen.
  now rewrite length_map in Hlen.
Qed.

End QueryFacts.

(** X5: one query registers at most three artifacts, however many files
    the script wrote and whatever fails on the way: from the call of
    [execute] to the end of [process_query] the counter never decreases
    and grows by three at most. *)
Theorem at_most_three_artifacts_per_query (self : CodeExecutor) (settings : Settings)
    (w : world) (d : desk) (session_output_dir : Path) (query plan code : string)
    (temp_data_files : Dict.t Path) (sm : SessionManager) :
  let after :=
    execute_and_record self settings w d session_output_dir query plan code
      temp_data_files sm in
  _artifact_counter sm <= _artifact_counter (snd after) <= _artifact_counter sm + 3.
Proof.
  cbn zeta. unfold execute_and_record.
  destruct (execute self settings w code temp_data_files session_output_dir)
    as [result|reason] eqn:E; [| cbn [snd]; lia].
  pose proof (QueryFacts.record_result_counter settings d session_output_dir query plan
                code result sm) as H. cbn zeta in H.
  assert (Hlen : (List.length (output_files result) <= 3)%nat).
  { rewrite ExecutorFacts.execute_unfold in E.
    destruct (setup_error w temp_data_files); [discriminate |].
    destruct (subprocess_run _ _) as [rc out err produced | | r | rc out err r].
    - destruct (_collect_output_files _ _ _ _) as [files|r] eqn:Ec;
        injection E as <-; cbn [output_files List.length]; [| lia].
      apply (QueryFacts.collected_at_most_three _ _ _ _ _ Ec).
    - injection E as <-. cbn [output_files List.length]. lia.
    - injection E as <-. cbn [output_files List.length]. lia.
    - injection E as <-. cbn [output_files List.length]. lia. }
  lia.
Qed.

(** * Identifiers across loads *)

Module ReloadFacts.







End ReloadFacts.



